(** * OpenClaw ESP32-S3 audio firmware: a shallow embedding of [main.cpp]

    The firmware reads a prompt from the serial console or from the BOOT
    button, posts it to a chat-completion gateway and prints the reply.
    This development embeds [firmware/openclaw-esp32s3-audio/src/main.cpp]
    function by function and proves the properties its specification
    states about it.

    Conventions.
    - An Arduino [String] is a Rocq [string]: a sequence of 8-bit
      characters with an explicit length.
    - C integers are [Z]; where the width matters the wrap-around is
      written out ([u16], [u32], [u8]).
    - The globals of the translation unit and the observable effects
      (console output, delays, Wi-Fi and HTTP operations) live in one
      [State] record that every effectful function threads through the
      monad [M].  The only loop without a bound, the Wi-Fi poll loop,
      takes fuel; [None] means "has not returned within the fuel".
    - What the hardware and the vendor libraries decide (eFuse MAC, Wi-Fi
      status readings, HTTP answers, the JSON codec) is a field of the
      [Platform] record; the build-time macros of [secrets.h] are the
      [Config] record. *)

From Stdlib Require Import String Ascii ZArith List Bool Lia DecimalString DecimalPos.
Import ListNotations.
Local Open Scope string_scope.
Local Open Scope Z_scope.

(** ** Strings and C formatting *)

Module Arduino.

(** Fixed-width casts of unsigned integers. *)
Definition u8 (v : Z) : Z := v mod 2 ^ 8.
Definition u16 (v : Z) : Z := v mod 2 ^ 16.
Definition u32 (v : Z) : Z := v mod 2 ^ 32.

(** [String(int)] and [String + int]: the decimal representation. *)
Definition decimal (v : Z) : string := NilZero.string_of_int (Z.to_int v).

(** [s.c_str()] read as a C string by [printf("%s")]: the characters
    before the first NUL. *)
Fixpoint c_str (s : string) : string :=
  match s with
  | EmptyString => EmptyString
  | String c rest => if Ascii.eqb c zero then EmptyString else String c (c_str rest)
  end.

(** [s += c] for a single character. *)
Definition append_char (s : string) (c : ascii) : string := s ++ String c EmptyString.

(** The uppercase hexadecimal digit of [d mod 16]. *)
Definition hexDigit (d : Z) : ascii :=
  match d mod 16 with
  | 0 => "0" | 1 => "1" | 2 => "2" | 3 => "3" | 4 => "4" | 5 => "5" | 6 => "6" | 7 => "7"
  | 8 => "8" | 9 => "9" | 10 => "A" | 11 => "B" | 12 => "C" | 13 => "D" | 14 => "E"
  | _ => "F"
  end%char.

(** The digits of [v] in base 16, most significant first, without leading
    zeros (none at all for 0).  A 32-bit argument has at most 8. *)
Fixpoint hexDigits (fuel : nat) (v : Z) : string :=
  match fuel with
  | O => EmptyString
  | S fuel' =>
      if v =? 0 then EmptyString
      else append_char (hexDigits fuel' (v / 16)) (hexDigit v)
  end.

Fixpoint replicate (n : nat) (c : ascii) : string :=
  match n with
  | O => EmptyString
  | S n' => String c (replicate n' c)
  end.

(** The conversion [%0<width>X] of [printf] applied to an [unsigned int]:
    at least one digit, padded on the left with zeros up to [width]; a
    value that needs more digits than [width] is printed in full. *)
Definition printf_0X (width : nat) (v : Z) : string :=
  let digits := if u32 v =? 0 then "0" else hexDigits 8 (u32 v) in
  replicate (width - String.length digits) "0" ++ digits.

(** [snprintf(out, size, ...)] keeps at most [size - 1] characters. *)
Definition snprintf_truncate (size : nat) (formatted : string) : string :=
  substring 0 (size - 1) formatted.

End Arduino.

Import Arduino.

(** ** Build-time configuration ([secrets.h])

    Each string macro is a C string literal, and every use of it reads
    it as a C string; the field holds its characters up to the
    terminating NUL, so that [strlen] is [String.length]. *)

Record Config := {
  WIFI_SSID : string;
  WIFI_PASSWORD : string;
  OPENCLAW_HOST : string;
  OPENCLAW_PORT : Z;
  OPENCLAW_USE_TLS : bool;
  OPENCLAW_TOKEN : string;
  OPENCLAW_MODEL : string;
  OPENCLAW_AGENT_ID : string;
  OPENCLAW_HTTP_TIMEOUT_MS : Z;
  OPENCLAW_USER : string;
  OPENCLAW_BUTTON_PROMPT : string
}.

(** The values of [secrets.example.h]. *)
Definition example_config : Config := {|
  WIFI_SSID := "your-wifi-name";
  WIFI_PASSWORD := "your-wifi-password";
  OPENCLAW_HOST := "192.168.1.50";
  OPENCLAW_PORT := 18789;
  OPENCLAW_USE_TLS := false;
  OPENCLAW_TOKEN := "secret";
  OPENCLAW_MODEL := "openclaw";
  OPENCLAW_AGENT_ID := "main";
  OPENCLAW_HTTP_TIMEOUT_MS := 45000;
  OPENCLAW_USER := "esp32-speaker";
  OPENCLAW_BUTTON_PROMPT := "Give me a short status update."
|}.

(** Constants of the anonymous namespace. *)
Definition kSerialBaud : Z := 115200.
Definition kBootButtonPin : Z := 0.
Definition kI2cSdaPin : Z := 11.
Definition kI2cSclPin : Z := 10.
Definition kTca9555Addr : Z := 0x20.
Definition kEs8311Addr : Z := 0x18.
Definition kEs7210Addr : Z := 0x40.

Definition LOW : Z := 0.
Definition HIGH : Z := 1.

(** ** Device identity *)

(** [readDeviceId], with the eFuse MAC as its argument:
    [snprintf(out, 17, "%04X%08X", (uint16_t)(mac >> 32), (uint32_t)mac)]. *)
Definition readDeviceId (mac : Z) : string :=
  snprintf_truncate 17
    (printf_0X 4 (u16 (Z.shiftr mac 32)) ++ printf_0X 8 (u32 mac)).

(** The session key expression of [setup]:
    [String("agent:") + OPENCLAW_AGENT_ID + ":openai:esp32-" + g_deviceId]. *)
Definition sessionKeyOf (agentId deviceId : string) : string :=
  (("agent:" ++ agentId) ++ ":openai:esp32-") ++ deviceId.

(** ** JSON documents (ArduinoJson's data model)

    ArduinoJson is a vendor library; only its data model and the two
    accessors the firmware uses are written out here.  The text codec
    ([deserializeJson], [serializeJson]) is a field of [Platform]. *)

Module Json.

#[local] Set Warnings "-register-all".

Inductive JsonVariant : Type :=
| JNull
| JBool (b : bool)
| JNumber (lexeme : string)
| JString (s : string)
| JArray (elements : list JsonVariant)
| JObject (members : list (string * JsonVariant)).

(** The result codes of [deserializeJson] and their [c_str()]; [if (err)]
    holds for every code but [Ok]. *)
Inductive DeserializationError : Type :=
| Ok | EmptyInput | IncompleteInput | InvalidInput | NoMemory | TooDeep.

Definition is_error (e : DeserializationError) : bool :=
  match e with Ok => false | _ => true end.

Definition error_c_str (e : DeserializationError) : string :=
  match e with
  | Ok => "Ok"
  | EmptyInput => "EmptyInput"
  | IncompleteInput => "IncompleteInput"
  | InvalidInput => "InvalidInput"
  | NoMemory => "NoMemory"
  | TooDeep => "TooDeep"
  end.

Fixpoint lookup (key : string) (members : list (string * JsonVariant)) : JsonVariant :=
  match members with
  | [] => JNull
  | (k, v) :: rest => if String.eqb k key then v else lookup key rest
  end.

(** [v[key]]: the member of an object, null for anything else. *)
Definition member (key : string) (v : JsonVariant) : JsonVariant :=
  match v with
  | JObject members => lookup key members
  | _ => JNull
  end.

(** [v[i]]: the element of an array, null for anything else. *)
Definition element (i : nat) (v : JsonVariant) : JsonVariant :=
  match v with
  | JArray elements => nth i elements JNull
  | _ => JNull
  end.

(** [v | nullptr] read as a [const char *]: the C string when the variant
    holds a string, [nullptr] ([None]) otherwise. *)
Definition as_c_str (v : JsonVariant) : option string :=
  match v with
  | JString s => Some (c_str s)
  | _ => None
  end.

Fixpoint assign (key : string) (value : JsonVariant)
    (members : list (string * JsonVariant)) : list (string * JsonVariant) :=
  match members with
  | [] => [(key, value)]
  | (k, v) :: rest =>
      if String.eqb k key then (k, value) :: rest else (k, v) :: assign key value rest
  end.

(** [v[key] = value]: a null variant becomes an object; an existing
    member is overwritten in place, a new one is appended. *)
Definition set_member (key : string) (value : JsonVariant) (v : JsonVariant) : JsonVariant :=
  match v with
  | JObject members => JObject (assign key value members)
  | JNull => JObject [(key, value)]
  | _ => v
  end.

(** A reference into the document, such as the [JsonArray] and
    [JsonObject] handles of [askOpenClaw], is the path to it; a write
    through the reference is [update_member] / [update_element] along
    the path. *)
Definition update_member (key : string) (f : JsonVariant -> JsonVariant)
    (v : JsonVariant) : JsonVariant :=
  set_member key (f (member key v)) v.

Fixpoint update_nth (i : nat) (f : JsonVariant -> JsonVariant)
    (elements : list JsonVariant) : list JsonVariant :=
  match elements, i with
  | [], _ => []
  | x :: rest, O => f x :: rest
  | x :: rest, S i' => x :: update_nth i' f rest
  end.

Definition update_element (i : nat) (f : JsonVariant -> JsonVariant)
    (v : JsonVariant) : JsonVariant :=
  match v with
  | JArray elements => JArray (update_nth i f elements)
  | _ => v
  end.

(** [array.add<JsonObject>()]: appends an empty object. *)
Definition add_object (v : JsonVariant) : JsonVariant :=
  match v with
  | JArray elements => JArray (elements ++ [JObject []])
  | _ => v
  end.

End Json.

Import Json.

(** ** Platform, state and effects *)

Record HttpRequest := {
  req_tls : bool;
  req_url : string;
  req_timeout : Z;
  req_headers : list (string * string);
  req_body : string
}.

(** What the program does to the outside, in program order. *)
Inductive Event : Type :=
| SerialBegin (baud : Z)
| SerialWrite (text : string)
| DelayMs (ms : Z)
| PinModeInputPullup (pin : Z)
| WireBegin (sda scl : Z)
| I2cProbe (addr : Z)
| WifiModeSta
| WifiBegin (ssid password : string)
| WifiDisconnect (wifioff eraseap : bool)
| HttpPost (request : HttpRequest).

(** What the outside decides. *)
Record Platform := {
  (** [ESP.getEfuseMac()] *)
  getEfuseMac : Z;
  (** the [n]-th evaluation of [WiFi.status() == WL_CONNECTED] *)
  wifiStatus : nat -> bool;
  (** [WiFi.localIP().toString()] *)
  wifiLocalIP : string;
  (** [Wire.endTransmission() == 0] after [Wire.beginTransmission(addr)] *)
  i2cAck : Z -> bool;
  (** [http.begin(client, url)] *)
  httpBegin : string -> bool;
  (** the status code of the [n]-th [http.POST] and the body that
      [http.getString()] returns after it *)
  httpPOST : nat -> HttpRequest -> Z * string;
  (** ArduinoJson's text codec *)
  deserializeJson : string -> DeserializationError * JsonVariant;
  serializeJson : JsonVariant -> string
}.

Record State := {
  g_inputLine : string;
  g_deviceId : string;
  g_sessionKey : string;
  g_bootLatched : bool;
  g_lastBootEdgeMs : Z;
  (** evaluations of [WiFi.status()] so far *)
  wifiPolls : nat;
  (** [http.POST] calls so far *)
  httpPosts : nat;
  (** the effects so far, oldest first *)
  effects : list Event
}.

(** The state at reset: the initialisers of the globals. *)
Definition initial_state : State := {|
  g_inputLine := EmptyString;
  g_deviceId := EmptyString;
  g_sessionKey := EmptyString;
  g_bootLatched := false;
  g_lastBootEdgeMs := 0;
  wifiPolls := O;
  httpPosts := O;
  effects := []
|}.

Definition with_inputLine (v : string) (s : State) : State :=
  {| g_inputLine := v; g_deviceId := g_deviceId s; g_sessionKey := g_sessionKey s;
     g_bootLatched := g_bootLatched s; g_lastBootEdgeMs := g_lastBootEdgeMs s;
     wifiPolls := wifiPolls s; httpPosts := httpPosts s; effects := effects s |}.

Definition with_deviceId (v : string) (s : State) : State :=
  {| g_inputLine := g_inputLine s; g_deviceId := v; g_sessionKey := g_sessionKey s;
     g_bootLatched := g_bootLatched s; g_lastBootEdgeMs := g_lastBootEdgeMs s;
     wifiPolls := wifiPolls s; httpPosts := httpPosts s; effects := effects s |}.

Definition with_sessionKey (v : string) (s : State) : State :=
  {| g_inputLine := g_inputLine s; g_deviceId := g_deviceId s; g_sessionKey := v;
     g_bootLatched := g_bootLatched s; g_lastBootEdgeMs := g_lastBootEdgeMs s;
     wifiPolls := wifiPolls s; httpPosts := httpPosts s; effects := effects s |}.

Definition with_bootEdge (latched : bool) (edgeMs : Z) (s : State) : State :=
  {| g_inputLine := g_inputLine s; g_deviceId := g_deviceId s; g_sessionKey := g_sessionKey s;
     g_bootLatched := latched; g_lastBootEdgeMs := edgeMs;
     wifiPolls := wifiPolls s; httpPosts := httpPosts s; effects := effects s |}.

Definition with_wifiPolls (v : nat) (s : State) : State :=
  {| g_inputLine := g_inputLine s; g_deviceId := g_deviceId s; g_sessionKey := g_sessionKey s;
     g_bootLatched := g_bootLatched s; g_lastBootEdgeMs := g_lastBootEdgeMs s;
     wifiPolls := v; httpPosts := httpPosts s; effects := effects s |}.

Definition with_httpPosts (v : nat) (s : State) : State :=
  {| g_inputLine := g_inputLine s; g_deviceId := g_deviceId s; g_sessionKey := g_sessionKey s;
     g_bootLatched := g_bootLatched s; g_lastBootEdgeMs := g_lastBootEdgeMs s;
     wifiPolls := wifiPolls s; httpPosts := v; effects := effects s |}.

Definition with_effects (v : list Event) (s : State) : State :=
  {| g_inputLine := g_inputLine s; g_deviceId := g_deviceId s; g_sessionKey := g_sessionKey s;
     g_bootLatched := g_bootLatched s; g_lastBootEdgeMs := g_lastBootEdgeMs s;
     wifiPolls := wifiPolls s; httpPosts := httpPosts s; effects := v |}.

(** A computation on the state that may not return. *)
Definition M (A : Type) : Type := State -> option (A * State).

Definition ret {A} (a : A) : M A := fun s => Some (a, s).

Definition bind {A B} (m : M A) (k : A -> M B) : M B :=
  fun s => match m s with
           | Some (a, s') => k a s'
           | None => None
           end.

Definition gets {A} (proj : State -> A) : M A := fun s => Some (proj s, s).
Definition modify (f : State -> State) : M unit := fun s => Some (tt, f s).
Definition emit (e : Event) : M unit := modify (fun s => with_effects (effects s ++ [e]) s).
(** Out of fuel: the call has not returned. *)
Definition pending {A} : M A := fun _ => None.

Declare Scope fw_scope.
Delimit Scope fw_scope with fw.
Notation "x <- m ;; k" := (bind m (fun x => k))
  (at level 61, m at next level, right associativity) : fw_scope.
Notation "m ;; k" := (bind m (fun _ => k))
  (at level 61, right associativity) : fw_scope.
Local Open Scope fw_scope.

Definition LF : string := String "010" EmptyString.
Definition DQUOTE : string := String "034" EmptyString.
Definition CRLF : string := String "013" (String "010" EmptyString).

Definition Serial_print (text : string) : M unit := emit (SerialWrite text).
Definition Serial_println (text : string) : M unit := emit (SerialWrite (text ++ CRLF)).
Definition delay (ms : Z) : M unit := emit (DelayMs ms).

(** ** The firmware *)

Section Firmware.

Variable cfg : Config.
Variable plat : Platform.

(** [WiFi.status() == WL_CONNECTED]: consumes one reading. *)
Definition WiFi_connected : M bool :=
  fun s => Some (wifiStatus plat (wifiPolls s), with_wifiPolls (S (wifiPolls s)) s).

(** [http.POST(body)], [http.getString()], [http.end()]. *)
Definition http_POST (request : HttpRequest) : M (Z * string) :=
  fun s => Some (httpPOST plat (httpPosts s) request,
                 with_httpPosts (S (httpPosts s))
                   (with_effects (effects s ++ [HttpPost request]) s)).

(** [i2cResponds] *)
Definition i2cResponds (addr : Z) : M bool :=
  emit (I2cProbe addr) ;;
  ret (i2cAck plat addr).

Definition probe_line (addr : Z) (name : string) (ok : bool) : string :=
  "  0x" ++ printf_0X 2 addr ++ " (" ++ name ++ "): "
  ++ (if ok then "ok" else "missing") ++ LF.

(** [printBoardProbe] *)
Definition printBoardProbe : M unit :=
  Serial_println EmptyString ;;
  Serial_println "I2C probe (expected on Waveshare ESP32-S3-AUDIO):" ;;
  ok <- i2cResponds kTca9555Addr ;;
  Serial_print (probe_line kTca9555Addr "TCA9555 IO expander" ok) ;;
  ok <- i2cResponds kEs8311Addr ;;
  Serial_print (probe_line kEs8311Addr "ES8311 speaker codec" ok) ;;
  ok <- i2cResponds kEs7210Addr ;;
  Serial_print (probe_line kEs7210Addr "ES7210 mic ADC" ok) ;;
  Serial_println EmptyString.

(** The [while (WiFi.status() != WL_CONNECTED)] loop of
    [connectWifiBlocking]; [attempts] is a [uint8_t].  One unit of fuel
    pays for one run of the loop body. *)
Fixpoint wifiPollLoop (fuel : nat) (attempts : Z) : M unit :=
  connected <- WiFi_connected ;;
  if connected then ret tt
  else
    match fuel with
    | O => pending
    | S fuel' =>
        delay 500 ;;
        Serial_print "." ;;
        let attempts := u8 (attempts + 1) in
        if attempts >=? 80 then
          Serial_println (LF ++ "Wi-Fi connection failed; retrying...") ;;
          let attempts := 0 in
          emit (WifiDisconnect true true) ;;
          delay 500 ;;
          emit (WifiBegin (WIFI_SSID cfg) (WIFI_PASSWORD cfg)) ;;
          wifiPollLoop fuel' attempts
        else wifiPollLoop fuel' attempts
    end.

(** [connectWifiBlocking] *)
Definition connectWifiBlocking (fuel : nat) : M unit :=
  connected <- WiFi_connected ;;
  if connected then ret tt
  else
    Serial_print ("Connecting Wi-Fi SSID " ++ DQUOTE ++ WIFI_SSID cfg ++ DQUOTE) ;;
    emit WifiModeSta ;;
    emit (WifiBegin (WIFI_SSID cfg) (WIFI_PASSWORD cfg)) ;;
    let attempts := 0 in
    wifiPollLoop fuel attempts ;;
    Serial_print (LF ++ "Wi-Fi connected, IP=" ++ c_str (wifiLocalIP plat) ++ LF).

(** [buildGatewayUrl] *)
Definition buildGatewayUrl : string :=
  let scheme := if OPENCLAW_USE_TLS cfg then "https://" else "http://" in
  (((scheme ++ OPENCLAW_HOST cfg) ++ ":") ++ decimal (OPENCLAW_PORT cfg))
  ++ "/v1/chat/completions".

(** [extractAssistantText] *)
Definition extractAssistantText (json : string) : string :=
  let (err, doc) := deserializeJson plat json in
  if is_error err then "[json-parse-error] " ++ error_c_str err
  else
    match as_c_str (member "message" (member "error" doc)) with
    | Some apiError => "[openclaw-error] " ++ apiError
    | None =>
        match as_c_str
                (member "content" (member "message" (element 0 (member "choices" doc)))) with
        | None => "[openclaw-error] missing choices[0].message.content"
        | Some text => text
        end
    end.

(** Lines 109-116 of [askOpenClaw]: the request document, built by the
    same writes in the same order; [messages] is the reference
    [bodyDoc["messages"]] and [msg] the reference [bodyDoc["messages"][0]]. *)
Definition requestDocument (prompt : string) : JsonVariant :=
  let bodyDoc := JNull in
  let bodyDoc := set_member "model" (JString (OPENCLAW_MODEL cfg)) bodyDoc in
  let bodyDoc := set_member "user" (JString (OPENCLAW_USER cfg)) bodyDoc in
  let messages := update_member "messages" in
  let bodyDoc := messages (fun _ => JArray []) bodyDoc in
  let msg := fun write => messages (update_element 0 write) in
  let bodyDoc := messages add_object bodyDoc in
  let bodyDoc := msg (set_member "role" (JString "user")) bodyDoc in
  let bodyDoc := msg (set_member "content" (JString prompt)) bodyDoc in
  bodyDoc.

(** The headers of lines 138-143. *)
Definition requestHeaders (sessionKey : string) : list (string * string) :=
  [("Content-Type", "application/json");
   ("x-openclaw-agent-id", OPENCLAW_AGENT_ID cfg);
   ("x-openclaw-session-key", sessionKey)]
  ++ (if (0 <? String.length (OPENCLAW_TOKEN cfg))%nat
      then [("Authorization", "Bearer " ++ OPENCLAW_TOKEN cfg)]
      else []).

(** [askOpenClaw] *)
Definition askOpenClaw (fuel : nat) (prompt : string) : M string :=
  connectWifiBlocking fuel ;;
  let body := serializeJson plat (requestDocument prompt) in
  let url := buildGatewayUrl in
  if negb (httpBegin plat url) then
    ret (if OPENCLAW_USE_TLS cfg
         then "[http-error] failed to initialize TLS HTTP client"
         else "[http-error] failed to initialize HTTP client")
  else
    sessionKey <- gets g_sessionKey ;;
    response <- http_POST {| req_tls := OPENCLAW_USE_TLS cfg;
                             req_url := url;
                             req_timeout := OPENCLAW_HTTP_TIMEOUT_MS cfg;
                             req_headers := requestHeaders sessionKey;
                             req_body := body |} ;;
    let (code, raw) := response in
    if code <=? 0 then ret ("[http-error] POST failed: " ++ decimal code)
    else if code >=? 400 then ret ((("[http-" ++ decimal code) ++ "] ") ++ raw)
    else ret (extractAssistantText raw).

(** [runPrompt] *)
Definition runPrompt (fuel : nat) (prompt : string) : M unit :=
  let trimmed := prompt in
  if (String.length trimmed =? 0)%nat then ret tt
  else
    Serial_println EmptyString ;;
    Serial_print ("You: " ++ c_str trimmed ++ LF) ;;
    Serial_println "OpenClaw: thinking..." ;;
    reply <- askOpenClaw fuel trimmed ;;
    Serial_print ("OpenClaw: " ++ c_str reply ++ LF) ;;
    Serial_println EmptyString.

(** *** The two producers of prompt events

    A prompt event is a call of the consumer with the prompt.  The
    consumer is [runPrompt] in the firmware ([handleSerialInput],
    [handleBootButton] below); the producers are first written over an
    arbitrary consumer so that what they submit can be stated whatever
    the consumer does with it. *)

Section Producers.

Variable consume : string -> M unit.

(** The body of [handleSerialInput]; [rx] holds the characters
    [Serial.read()] returns while [Serial.available() > 0]. *)
Fixpoint serialProducer (rx : string) : M unit :=
  match rx with
  | EmptyString => ret tt
  | String c rest =>
      if Ascii.eqb c "013" then serialProducer rest
      else if Ascii.eqb c "010" then
        prompt <- gets g_inputLine ;;
        modify (with_inputLine EmptyString) ;;
        consume prompt ;;
        serialProducer rest
      else
        line <- gets g_inputLine ;;
        (if (String.length line <? 512)%nat
         then modify (with_inputLine (append_char line c))
         else ret tt) ;;
        serialProducer rest
  end.

(** The body of [handleBootButton]; [level] is [digitalRead(kBootButtonPin)]
    and [millis] is [millis()], a [uint32_t]. *)
Definition buttonProducer (level millis : Z) : M unit :=
  let now := u32 millis in
  latched <- gets g_bootLatched ;;
  lastEdge <- gets g_lastBootEdgeMs ;;
  if (level =? LOW) && negb latched && (u32 (now - lastEdge) >? 60) then
    modify (with_bootEdge true now) ;;
    consume (OPENCLAW_BUTTON_PROMPT cfg)
  else if (level =? HIGH) && latched && (u32 (now - lastEdge) >? 60) then
    modify (with_bootEdge false now)
  else ret tt.

End Producers.

(** [handleSerialInput] *)
Definition handleSerialInput (fuel : nat) (rx : string) : M unit :=
  serialProducer (runPrompt fuel) rx.

(** [handleBootButton] *)
Definition handleBootButton (fuel : nat) (level millis : Z) : M unit :=
  buttonProducer (runPrompt fuel) level millis.

(** [setup] *)
Definition setup (fuel : nat) : M unit :=
  emit (SerialBegin kSerialBaud) ;;
  delay 500 ;;
  emit (PinModeInputPullup kBootButtonPin) ;;
  emit (WireBegin kI2cSdaPin kI2cSclPin) ;;
  modify (with_deviceId (readDeviceId (getEfuseMac plat))) ;;
  deviceId <- gets g_deviceId ;;
  modify (with_sessionKey (sessionKeyOf (OPENCLAW_AGENT_ID cfg) deviceId)) ;;
  Serial_println EmptyString ;;
  Serial_println "OpenClaw ESP32 interface starting..." ;;
  deviceId <- gets g_deviceId ;;
  Serial_print ("Device ID: " ++ c_str deviceId ++ LF) ;;
  sessionKey <- gets g_sessionKey ;;
  Serial_print ("Session key: " ++ c_str sessionKey ++ LF) ;;
  Serial_print ("Gateway: " ++ c_str buildGatewayUrl ++ LF) ;;
  printBoardProbe ;;
  connectWifiBlocking fuel ;;
  Serial_println "Ready." ;;
  Serial_println "Type a prompt and press Enter." ;;
  Serial_println "Press the BOOT button to send OPENCLAW_BUTTON_PROMPT.".

(** [loop]: one tick, with the inputs it reads. *)
Definition loop (fuel : nat) (rx : string) (level millis : Z) : M unit :=
  handleSerialInput fuel rx ;;
  handleBootButton fuel level millis ;;
  delay 10.

End Firmware.

(** ** A JSON text codec

    [deserializeJson] and [serializeJson] belong to ArduinoJson, which is
    not part of the repository.  The specification asks for "what a
    standard JSON encoder guarantees" (quotes and control characters
    escaped) and for a parser that reports a diagnostic on text that is
    not JSON; [JsonText] is such a codec. *)

Module JsonText.

Definition quote : ascii := "034"%char.
Definition backslash : ascii := "092"%char.

Definition lowerHexDigit (d : Z) : ascii :=
  match d mod 16 with
  | 0 => "0" | 1 => "1" | 2 => "2" | 3 => "3" | 4 => "4" | 5 => "5" | 6 => "6" | 7 => "7"
  | 8 => "8" | 9 => "9" | 10 => "a" | 11 => "b" | 12 => "c" | 13 => "d" | 14 => "e"
  | _ => "f"
  end%char.

Definition code (c : ascii) : Z := Z.of_N (N_of_ascii c).
Definition char_of_code (v : Z) : ascii := ascii_of_N (Z.to_N (v mod 256)).

(** Modelled from the spec: the escaping of a standard JSON encoder
    (ArduinoJson's own is not under src/).  Quote and backslash get a
    backslash, the control characters their short escape or [\u00XX]. *)
Definition escape_char (c : ascii) : string :=
  if Ascii.eqb c quote then String backslash (String quote EmptyString)
  else if Ascii.eqb c backslash then String backslash (String backslash EmptyString)
  else if Ascii.eqb c "008" then String backslash "b"
  else if Ascii.eqb c "012" then String backslash "f"
  else if Ascii.eqb c "010" then String backslash "n"
  else if Ascii.eqb c "013" then String backslash "r"
  else if Ascii.eqb c "009" then String backslash "t"
  else if code c <? 32 then
    String backslash
      (String "u" (String "0" (String "0"
         (String (lowerHexDigit (code c / 16)) (String (lowerHexDigit (code c)) EmptyString)))))
  else String c EmptyString.

Fixpoint escape (s : string) : string :=
  match s with
  | EmptyString => EmptyString
  | String c rest => escape_char c ++ escape rest
  end.

(** A string literal: the escaped characters between two quotes. *)
Definition literal (s : string) : string :=
  String quote (escape s ++ String quote EmptyString).

Fixpoint join (sep : string) (parts : list string) : string :=
  match parts with
  | [] => EmptyString
  | [x] => x
  | x :: rest => x ++ sep ++ join sep rest
  end.

(** Modelled from the spec: [serializeJson], the compact text of a
    document with the members in insertion order. *)
Fixpoint serialize (v : JsonVariant) : string :=
  match v with
  | JNull => "null"
  | JBool true => "true"
  | JBool false => "false"
  | JNumber lexeme => lexeme
  | JString s => literal s
  | JArray elements => "[" ++ join "," (map serialize elements) ++ "]"
  | JObject members =>
      "{" ++ join "," (map (fun kv => literal (fst kv) ++ ":" ++ serialize (snd kv)) members)
      ++ "}"
  end.

Inductive Parsed (A : Type) : Type :=
| Done (value : A) (rest : string)
| Failed (err : DeserializationError).
Arguments Done {A} value rest.
Arguments Failed {A} err.

Definition is_space (c : ascii) : bool :=
  Ascii.eqb c " " || Ascii.eqb c "009" || Ascii.eqb c "010" || Ascii.eqb c "013".

Fixpoint skip_spaces (s : string) : string :=
  match s with
  | String c rest => if is_space c then skip_spaces rest else s
  | EmptyString => s
  end.

Definition hexValue (c : ascii) : option Z :=
  let v := code c in
  if (48 <=? v) && (v <=? 57) then Some (v - 48)
  else if (65 <=? v) && (v <=? 70) then Some (v - 55)
  else if (97 <=? v) && (v <=? 102) then Some (v - 87)
  else None.

(** The UTF-8 bytes of a code point of the basic plane. *)
Definition utf8 (cp : Z) : string :=
  if cp <? 128 then String (char_of_code cp) EmptyString
  else if cp <? 2048 then
    String (char_of_code (192 + cp / 64)) (String (char_of_code (128 + cp mod 64)) EmptyString)
  else
    String (char_of_code (224 + cp / 4096))
      (String (char_of_code (128 + (cp / 64) mod 64))
         (String (char_of_code (128 + cp mod 64)) EmptyString)).

Definition unescape_short (c : ascii) : option ascii :=
  if Ascii.eqb c quote then Some quote
  else if Ascii.eqb c backslash then Some backslash
  else if Ascii.eqb c "/" then Some "/"%char
  else if Ascii.eqb c "b" then Some "008"%char
  else if Ascii.eqb c "f" then Some "012"%char
  else if Ascii.eqb c "n" then Some "010"%char
  else if Ascii.eqb c "r" then Some "013"%char
  else if Ascii.eqb c "t" then Some "009"%char
  else None.

Definition map_done {A B} (f : A -> B) (r : Parsed A) : Parsed B :=
  match r with
  | Done a rest => Done (f a) rest
  | Failed e => Failed e
  end.

(** Modelled from the spec: the decoding of a string literal (the
    parser of ArduinoJson is not under src/).  The input starts after the
    opening quote; the result is the decoded string and what follows the
    closing quote. *)
Fixpoint parse_string_body (s : string) : Parsed string :=
  match s with
  | EmptyString => Failed IncompleteInput
  | String c rest =>
      if Ascii.eqb c quote then Done EmptyString rest
      else if Ascii.eqb c backslash then
        match rest with
        | EmptyString => Failed IncompleteInput
        | String "u" (String h1 (String h2 (String h3 (String h4 rest')))) =>
            match hexValue h1, hexValue h2, hexValue h3, hexValue h4 with
            | Some a, Some b, Some c, Some d =>
                map_done (fun tail => utf8 (((a * 16 + b) * 16 + c) * 16 + d) ++ tail)
                         (parse_string_body rest')
            | _, _, _, _ => Failed InvalidInput
            end
        | String e rest' =>
            if Ascii.eqb e "u" then Failed IncompleteInput
            else
              match unescape_short e with
              | Some c' => map_done (String c') (parse_string_body rest')
              | None => Failed InvalidInput
              end
        end
      else if code c <? 32 then Failed InvalidInput
      else map_done (String c) (parse_string_body rest)
  end.

Definition is_digit (c : ascii) : bool := (48 <=? code c) && (code c <=? 57).

Fixpoint span (p : ascii -> bool) (s : string) : string * string :=
  match s with
  | String c rest =>
      if p c then let (a, b) := span p rest in (String c a, b) else (EmptyString, s)
  | EmptyString => (EmptyString, EmptyString)
  end.

(** A JSON number: an optional minus sign; an integer part that is 0 or
    starts with a non-zero digit; an optional fraction (a dot and at
    least one digit); an optional exponent (e or E, an optional sign and
    at least one digit). *)
Definition parse_number (s : string) : Parsed JsonVariant :=
  let (sign, s1) := match s with
                    | String "-" r => ("-", r)
                    | _ => (EmptyString, s)
                    end in
  let (int, s2) := span is_digit s1 in
  let int_ok := match int with
                | EmptyString => false
                | String "0" (String _ _) => false
                | _ => true
                end in
  let (frac, s3) := match s2 with
                    | String "." r => let (d, r') := span is_digit r in (String "." d, r')
                    | _ => (EmptyString, s2)
                    end in
  let frac_ok := negb (String.eqb frac ".") in
  let (exp, s4) :=
    match s3 with
    | String e r =>
        if Ascii.eqb e "e" || Ascii.eqb e "E" then
          let (sg, r1) := match r with
                          | String "+" r' => ("+", r')
                          | String "-" r' => ("-", r')
                          | _ => (EmptyString, r)
                          end in
          let (d, r2) := span is_digit r1 in
          (String e (sg ++ d), (r2, negb (String.eqb d EmptyString)))
        else (EmptyString, (s3, true))
    | EmptyString => (EmptyString, (s3, true))
    end in
  let (rest, exp_ok) := s4 in
  if int_ok && frac_ok && exp_ok then Done (JNumber (sign ++ int ++ frac ++ exp)) rest
  else match rest with
       | EmptyString => Failed IncompleteInput
       | _ => Failed InvalidInput
       end.

Definition expect (word : string) (v : JsonVariant) (s : string) : Parsed JsonVariant :=
  if prefix word s
  then Done v (substring (String.length word) (String.length s - String.length word) s)
  else if prefix s word then Failed IncompleteInput
  else Failed InvalidInput.

(** Modelled from the spec: a recursive-descent parser of JSON values
    (the parser of ArduinoJson is not under src/).  Every call spends one
    unit of fuel and [deserialize] provides more than any text can use. *)
Fixpoint parse_value (fuel : nat) (s : string) : Parsed JsonVariant :=
  match fuel with
  | O => Failed TooDeep
  | S fuel' =>
      match skip_spaces s with
      | EmptyString => Failed IncompleteInput
      | String c rest =>
          if Ascii.eqb c quote then map_done JString (parse_string_body rest)
          else if Ascii.eqb c "[" then
            match skip_spaces rest with
            | String "]" rest' => Done (JArray []) rest'
            | _ => map_done JArray (parse_elements fuel' rest)
            end
          else if Ascii.eqb c "{" then
            match skip_spaces rest with
            | String "}" rest' => Done (JObject []) rest'
            | _ => map_done JObject (parse_members fuel' rest [])
            end
          else if Ascii.eqb c "t" then expect "true" (JBool true) (String c rest)
          else if Ascii.eqb c "f" then expect "false" (JBool false) (String c rest)
          else if Ascii.eqb c "n" then expect "null" JNull (String c rest)
          else if Ascii.eqb c "-" || is_digit c then parse_number (String c rest)
          else Failed InvalidInput
      end
  end
with parse_elements (fuel : nat) (s : string) : Parsed (list JsonVariant) :=
  match fuel with
  | O => Failed TooDeep
  | S fuel' =>
      match parse_value fuel' s with
      | Failed e => Failed e
      | Done v rest =>
          match skip_spaces rest with
          | EmptyString => Failed IncompleteInput
          | String c rest' =>
              if Ascii.eqb c "," then map_done (cons v) (parse_elements fuel' rest')
              else if Ascii.eqb c "]" then Done [v] rest'
              else Failed InvalidInput
          end
      end
  end
with parse_members (fuel : nat) (s : string) (acc : list (string * JsonVariant))
    : Parsed (list (string * JsonVariant)) :=
  match fuel with
  | O => Failed TooDeep
  | S fuel' =>
      match skip_spaces s with
      | EmptyString => Failed IncompleteInput
      | String q s1 =>
          if negb (Ascii.eqb q quote) then Failed InvalidInput
          else
            match parse_string_body s1 with
            | Failed e => Failed e
            | Done key s2 =>
                match skip_spaces s2 with
                | EmptyString => Failed IncompleteInput
                | String colon s3 =>
                    if negb (Ascii.eqb colon ":") then Failed InvalidInput
                    else
                      match parse_value fuel' s3 with
                      | Failed e => Failed e
                      | Done v s4 =>
                          let acc := assign key v acc in
                          match skip_spaces s4 with
                          | EmptyString => Failed IncompleteInput
                          | String c s5 =>
                              if Ascii.eqb c "," then parse_members fuel' s5 acc
                              else if Ascii.eqb c "}" then Done acc s5
                              else Failed InvalidInput
                          end
                      end
                end
            end
      end
  end.

(** Modelled from the spec: [deserializeJson], a parser of one JSON value
    that reports a diagnostic for anything else. *)
Definition deserialize (text : string) : DeserializationError * JsonVariant :=
  match skip_spaces text with
  | EmptyString => (EmptyInput, JNull)
  | _ =>
      match parse_value (2 * String.length text + 2) text with
      | Failed e => (e, JNull)
      | Done v rest =>
          match skip_spaces rest with
          | EmptyString => (Ok, v)
          | _ => (InvalidInput, JNull)
          end
      end
  end.

End JsonText.

(** A platform whose JSON codec is [JsonText]; the hardware and the
    network stay parameters. *)
Definition textPlatform (mac : Z) (wifi : nat -> bool) (ip : string) (i2c : Z -> bool)
    (begin : string -> bool) (post : nat -> HttpRequest -> Z * string) : Platform :=
  {| getEfuseMac := mac;
     wifiStatus := wifi;
     wifiLocalIP := ip;
     i2cAck := i2c;
     httpBegin := begin;
     httpPOST := post;
     deserializeJson := JsonText.deserialize;
     serializeJson := JsonText.serialize |}.

(** ** The specification's vocabulary

    The definitions of this module follow the words of the specification,
    not the code; the theorems below compare the two. *)

Module Spec.

Fixpoint all_chars (p : ascii -> bool) (s : string) : bool :=
  match s with
  | EmptyString => true
  | String c rest => p c && all_chars p rest
  end.

Fixpoint filter_chars (p : ascii -> bool) (s : string) : string :=
  match s with
  | EmptyString => EmptyString
  | String c rest => if p c then String c (filter_chars p rest) else filter_chars p rest
  end.

Definition is_newline (c : ascii) : bool := Ascii.eqb c "010".
Definition is_carriage_return (c : ascii) : bool := Ascii.eqb c "013".

(** A text without a line terminator. *)
Definition no_newline (s : string) : Prop :=
  all_chars (fun c => negb (is_newline c)) s = true.

Definition no_carriage_return (s : string) : Prop :=
  all_chars (fun c => negb (is_carriage_return c)) s = true.

(** The text with its carriage returns discarded. *)
Definition discard_cr (s : string) : string :=
  filter_chars (fun c => negb (is_carriage_return c)) s.

(** The first [n] characters. *)
Definition take (n : nat) (s : string) : string := substring 0 n s.

(** The debounce window in milliseconds. *)
Definition debounce_ms : Z := 60.

(** Time elapsed from [since] to [now] on the 32-bit millisecond clock. *)
Definition elapsed_ms (since now : Z) : Z := (now - since) mod 2 ^ 32.

(** [n] hexadecimal digits of [v], most significant first, zero-padded. *)
Fixpoint hexFixed (n : nat) (v : Z) : string :=
  match n with
  | O => EmptyString
  | S n' => hexFixed n' (v / 16) ++ String (hexDigit v) EmptyString
  end.

Definition is_upper_hex (c : ascii) : bool :=
  let v := Z.of_N (N_of_ascii c) in
  ((48 <=? v) && (v <=? 57)) || ((65 <=? v) && (v <=? 70)).

Definition upper_hex_value (c : ascii) : Z :=
  let v := Z.of_N (N_of_ascii c) in
  if v <=? 57 then v - 48 else v - 55.

(** The number a string of uppercase hexadecimal digits denotes. *)
Fixpoint hex_number (acc : Z) (s : string) : Z :=
  match s with
  | EmptyString => acc
  | String c rest => hex_number (acc * 16 + upper_hex_value c) rest
  end.

(** The outcome of one chat exchange. *)
Inductive ChatResult : Type :=
| Reply (text : string)
| TransportError (code : Z)
| HttpError (code : Z) (rawBody : string)
| ParseError (message : string)
| GatewayError (message : string)
| SchemaError.

(** The string [askOpenClaw] returns for each outcome. *)
Definition display (r : ChatResult) : string :=
  match r with
  | Reply text => text
  | TransportError code => "[http-error] POST failed: " ++ decimal code
  | HttpError code rawBody => "[http-" ++ decimal code ++ "] " ++ rawBody
  | ParseError message => "[json-parse-error] " ++ message
  | GatewayError message => "[openclaw-error] " ++ message
  | SchemaError => "[openclaw-error] missing choices[0].message.content"
  end.

(** The string-valued field at [error.message], if there is one. *)
Definition error_message (doc : JsonVariant) : option string :=
  as_c_str (member "message" (member "error" doc)).

(** The string-valued field at [choices[0].message.content], if there is one. *)
Definition reply_content (doc : JsonVariant) : option string :=
  as_c_str (member "content" (member "message" (element 0 (member "choices" doc)))).

(** The classification of sections 4.4 (steps 7 and 8) and 7, in the
    order the specification gives. *)
Definition classify (parse : string -> DeserializationError * JsonVariant)
    (code : Z) (rawBody : string) : ChatResult :=
  if code <=? 0 then TransportError code
  else if 400 <=? code then HttpError code rawBody
  else
    match parse rawBody with
    | (Ok, doc) =>
        match error_message doc with
        | Some message => GatewayError message
        | None =>
            match reply_content doc with
            | None => SchemaError
            | Some content => Reply content
            end
        end
    | (err, _) => ParseError (error_c_str err)
    end.

(** The request body of section 6. *)
Definition chatRequest (model user prompt : string) : JsonVariant :=
  JObject [("model", JString model);
           ("user", JString user);
           ("messages", JArray [JObject [("role", JString "user");
                                         ("content", JString prompt)]])].

(** One unsuccessful poll: wait 500 ms and print a progress dot. *)
Definition poll_tick : list Event := [DelayMs 500; SerialWrite "."].

(** The disconnect-and-retry cycle. *)
Definition retry_cycle (cfg : Config) : list Event :=
  [SerialWrite (LF ++ "Wi-Fi connection failed; retrying..." ++ CRLF);
   WifiDisconnect true true;
   DelayMs 500;
   WifiBegin (WIFI_SSID cfg) (WIFI_PASSWORD cfg)].

(** The effects of the unsuccessful polls number [first], ..., [first + count - 1]:
    a tick each, and a retry cycle after every 80th. *)
Definition unsuccessful_polls (cfg : Config) (first count : nat) : list Event :=
  flat_map (fun i => (poll_tick ++ (if (i mod 80 =? 0)%nat then retry_cycle cfg else []))%list)
           (seq first count).

(** A consumer that does nothing but record the prompt it is given, as
    a line on the console. *)
Definition record (prompt : string) : M unit := emit (SerialWrite prompt).

(** Test vectors are written with an apostrophe for the double quote. *)
Definition dq (s : string) : string :=
  string_of_list_ascii
    (map (fun c => if Ascii.eqb c "'" then "034"%char else c) (list_ascii_of_string s)).

End Spec.

Import Spec.

(** A run of button polls, each a pair of the level read and the clock. *)
Fixpoint buttonPolls (cfg : Config) (consume : string -> M unit)
    (polls : list (Z * Z)) : M unit :=
  match polls with
  | [] => ret tt
  | (level, millis) :: rest =>
      buttonProducer cfg consume level millis ;;
      buttonPolls cfg consume rest
  end.

(** The state after further effects, in program order. *)
Definition observed (es : list Event) (s : State) : State :=
  with_effects (effects s ++ es) s.

(** The state after [n] further readings of the Wi-Fi status. *)
Definition polled (n : nat) (s : State) : State :=
  with_wifiPolls (wifiPolls s + n) s.

(** What [connectWifiBlocking] does before its first poll of the loop,
    and after the last. *)
Definition association (cfg : Config) : list Event :=
  [SerialWrite ("Connecting Wi-Fi SSID " ++ DQUOTE ++ WIFI_SSID cfg ++ DQUOTE);
   WifiModeSta;
   WifiBegin (WIFI_SSID cfg) (WIFI_PASSWORD cfg)].

Definition connected_banner (plat : Platform) : list Event :=
  [SerialWrite (LF ++ "Wi-Fi connected, IP=" ++ c_str (wifiLocalIP plat) ++ LF)].

(** The request [askOpenClaw] posts for a prompt, given the session key. *)
Definition gatewayRequest (cfg : Config) (plat : Platform) (sessionKey prompt : string)
    : HttpRequest :=
  {| req_tls := OPENCLAW_USE_TLS cfg;
     req_url := buildGatewayUrl cfg;
     req_timeout := OPENCLAW_HTTP_TIMEOUT_MS cfg;
     req_headers := requestHeaders cfg sessionKey;
     req_body := serializeJson plat (requestDocument cfg prompt) |}.

(** The state after one more POST. *)
Definition posted (request : HttpRequest) (s : State) : State :=
  with_httpPosts (S (httpPosts s)) (observed [HttpPost request] s).

(** A consumer that leaves the pending serial line alone. *)
Definition preserves_line (consume : string -> M unit) : Prop :=
  forall (prompt : string) (s : State) (u : unit) (s' : State),
    consume prompt s = Some (u, s') -> g_inputLine s' = g_inputLine s.

(** ** Vocabulary for whole runs *)

(** The link comes up at the [n]-th status reading from [from] on: the
    readings before it say "disconnected". *)
Definition link_up_after (plat : Platform) (from n : nat) : Prop :=
  (forall i, (i < n)%nat -> wifiStatus plat (from + i) = false)
  /\ wifiStatus plat (from + n) = true.

(** What a call of [connectWifiBlocking] shows when the link comes up at
    its [n]-th reading: nothing when that is the first one. *)
Definition connect_effects (cfg : Config) (plat : Platform) (n : nat) : list Event :=
  match n with
  | O => []
  | S k => association cfg ++ unsuccessful_polls cfg 1 k ++ connected_banner plat
  end.

(** The requests among the effects, oldest first. *)
Fixpoint posts_of (es : list Event) : list HttpRequest :=
  match es with
  | [] => []
  | HttpPost request :: rest => request :: posts_of rest
  | _ :: rest => posts_of rest
  end.

(** The time spent in [delay], in milliseconds. *)
Fixpoint total_delay (es : list Event) : Z :=
  match es with
  | [] => 0
  | DelayMs ms :: rest => ms + total_delay rest
  | _ :: rest => total_delay rest
  end.

(** The header of a given name, if the request has one. *)
Fixpoint header (name : string) (headers : list (string * string)) : option string :=
  match headers with
  | [] => None
  | (n, v) :: rest => if String.eqb n name then Some v else header name rest
  end.

(** The console lines of [printBoardProbe] and the bus transactions
    between them. *)
Definition probe_answer (ok : bool) : string := if ok then "ok" else "missing".

Definition probe_report (plat : Platform) : list Event :=
  [SerialWrite CRLF;
   SerialWrite ("I2C probe (expected on Waveshare ESP32-S3-AUDIO):" ++ CRLF);
   I2cProbe 32;
   SerialWrite ("  0x20 (TCA9555 IO expander): " ++ probe_answer (i2cAck plat 32) ++ LF);
   I2cProbe 24;
   SerialWrite ("  0x18 (ES8311 speaker codec): " ++ probe_answer (i2cAck plat 24) ++ LF);
   I2cProbe 64;
   SerialWrite ("  0x40 (ES7210 mic ADC): " ++ probe_answer (i2cAck plat 64) ++ LF);
   SerialWrite CRLF].

(** What [setup] does before it turns to the peripherals and the network. *)
Definition boot_banner (cfg : Config) (deviceId : string) : list Event :=
  [SerialBegin 115200;
   DelayMs 500;
   PinModeInputPullup 0;
   WireBegin 11 10;
   SerialWrite CRLF;
   SerialWrite ("OpenClaw ESP32 interface starting..." ++ CRLF);
   SerialWrite ("Device ID: " ++ c_str deviceId ++ LF);
   SerialWrite ("Session key: " ++ c_str (sessionKeyOf (OPENCLAW_AGENT_ID cfg) deviceId) ++ LF);
   SerialWrite ("Gateway: " ++ c_str (buildGatewayUrl cfg) ++ LF)].

Definition ready_banner : list Event :=
  [SerialWrite ("Ready." ++ CRLF);
   SerialWrite ("Type a prompt and press Enter." ++ CRLF);
   SerialWrite ("Press the BOOT button to send OPENCLAW_BUTTON_PROMPT." ++ CRLF)].

(** What [runPrompt] prints before and after the exchange. *)
Definition prompt_echo (prompt : string) : list Event :=
  [SerialWrite CRLF;
   SerialWrite ("You: " ++ c_str prompt ++ LF);
   SerialWrite ("OpenClaw: thinking..." ++ CRLF)].

Definition reply_echo (reply : string) : list Event :=
  [SerialWrite ("OpenClaw: " ++ c_str reply ++ LF);
   SerialWrite CRLF].

(** A run of [loop] iterations, each with the characters, the level
    and the clock it reads. *)
Fixpoint ticks (cfg : Config) (plat : Platform) (fuel : nat)
    (inputs : list (string * Z * Z)) : M unit :=
  match inputs with
  | [] => ret tt
  | (rx, level, millis) :: rest =>
      loop cfg plat fuel rx level millis ;;
      ticks cfg plat fuel rest
  end.

(** A run of serial polls, each with the characters it finds. *)
Fixpoint serialPolls (consume : string -> M unit) (chunks : list string) : M unit :=
  match chunks with
  | [] => ret tt
  | rx :: rest => serialProducer consume rx ;; serialPolls consume rest
  end.

Fixpoint concat_chunks (chunks : list string) : string :=
  match chunks with
  | [] => EmptyString
  | rx :: rest => rx ++ concat_chunks rest
  end.

(** The text of complete lines, each closed by a newline. *)
Fixpoint lines_text (lines : list string) : string :=
  match lines with
  | [] => EmptyString
  | line :: rest => line ++ LF ++ lines_text rest
  end.

(** The prompt a typed line makes: its first 512 characters that are
    not carriage returns. *)
Definition line_prompt (line : string) : string := take 512 (discard_cr line).

(** The high levels among the polls. *)
Fixpoint high_reads (polls : list (Z * Z)) : nat :=
  match polls with
  | [] => O
  | (level, _) :: rest => (if level =? HIGH then 1 else 0) + high_reads rest
  end.

(** The prompts on a console that shows nothing else. *)
Fixpoint written (es : list Event) : list string :=
  match es with
  | [] => []
  | SerialWrite text :: rest => text :: written rest
  | _ :: rest => written rest
  end.

(** The state in which [setup] turns to the network. *)
Definition booted (cfg : Config) (plat : Platform) (s : State) : State :=
  observed (boot_banner cfg (readDeviceId (getEfuseMac plat)) ++ probe_report plat)
    (with_sessionKey (sessionKeyOf (OPENCLAW_AGENT_ID cfg) (readDeviceId (getEfuseMac plat)))
       (with_deviceId (readDeviceId (getEfuseMac plat)) s)).

(** What [askOpenClaw] returns when the link is up, given the number of
    requests posted before and the session key. *)
Definition exchange_reply (cfg : Config) (plat : Platform) (posts : nat)
    (sessionKey prompt : string) : string :=
  if httpBegin plat (buildGatewayUrl cfg) then
    let response := httpPOST plat posts (gatewayRequest cfg plat sessionKey prompt) in
    display (classify (deserializeJson plat) (fst response) (snd response))
  else if OPENCLAW_USE_TLS cfg then "[http-error] failed to initialize TLS HTTP client"
  else "[http-error] failed to initialize HTTP client".

(** The state after the exchange: one request posted when the HTTP
    client could be initialised, none when not. *)
Definition exchanged (cfg : Config) (plat : Platform) (sessionKey prompt : string)
    (s : State) : State :=
  if httpBegin plat (buildGatewayUrl cfg)
  then posted (gatewayRequest cfg plat sessionKey prompt) s
  else s.

(** A prompt the firmware may send: not empty, and either the button
    prompt or a serial line within the cap. *)
Definition submitted_prompt (cfg : Config) (p : string) : Prop :=
  p <> EmptyString
  /\ (p = OPENCLAW_BUTTON_PROMPT cfg \/ (String.length p <= 512)%nat).

(** From [s] to [s'] the identity and the session key are kept, and
    every request posted in between is the gateway request of a
    submitted prompt under that session key. *)
Definition trail (cfg : Config) (plat : Platform) (s s' : State) : Prop :=
  g_deviceId s' = g_deviceId s
  /\ g_sessionKey s' = g_sessionKey s
  /\ exists prompts,
       posts_of (effects s')
       = (posts_of (effects s)
          ++ map (gatewayRequest cfg plat (g_sessionKey s)) prompts)%list
       /\ httpPosts s' = (httpPosts s + length prompts)%nat
       /\ Forall (submitted_prompt cfg) prompts.

(** The program from reset: [setup], then [loop] again and again. *)
Definition firmware (cfg : Config) (plat : Platform) (fuel : nat)
    (inputs : list (string * Z * Z)) : option (unit * State) :=
  (setup cfg plat fuel ;; ticks cfg plat fuel inputs) initial_state.

(** The prompts handed to the consumer one after the other. *)
Fixpoint submit_all (consume : string -> M unit) (prompts : list string) : M unit :=
  match prompts with
  | [] => ret tt
  | p :: rest => consume p ;; submit_all consume rest
  end.

(** ** The answer of the gateway, read field by field

    Section 7 of the specification names the fields of an answer by
    their path, [error.message] and [choices[0].message.content], and
    section 4.4 says that an outcome carries the status code.  The
    readings of this module walk the JSON tree themselves and read the
    status code back from its digits: they share nothing with the
    accessors [member], [element] and [as_c_str] nor with the printer
    [decimal] that the firmware goes through. *)

Module Answer.

(** The value of the field [name] of an object, that of the first member
    of that name; nothing else has fields. *)
Definition field (name : string) (v : JsonVariant) : option JsonVariant :=
  match v with
  | JObject members => option_map snd (find (fun m => String.eqb name (fst m)) members)
  | _ => None
  end.

(** The element [[0]] of an array. *)
Definition first_element (v : JsonVariant) : option JsonVariant :=
  match v with
  | JArray (x :: _) => Some x
  | _ => None
  end.

(** The text of a value that holds a string. *)
Definition text (v : JsonVariant) : option string :=
  match v with
  | JString s => Some s
  | _ => None
  end.

Definition and_then {A B : Type} (o : option A) (f : A -> option B) : option B :=
  match o with
  | Some a => f a
  | None => None
  end.

(** The field at [error.message], whatever it holds. *)
Definition error_message_field (doc : JsonVariant) : option JsonVariant :=
  and_then (field "error" doc) (field "message").

(** The field at [choices[0].message.content], whatever it holds. *)
Definition content_field (doc : JsonVariant) : option JsonVariant :=
  and_then (and_then (and_then (field "choices" doc) first_element) (field "message"))
           (field "content").

(** The string a field holds: none when the field is absent or holds
    something else. *)
Definition string_in (f : option JsonVariant) : option string := and_then f text.

(** [m] is [s] taken as a C string: the characters of [s] before its
    first NUL, all of [s] when it has none. *)
Definition c_string_of (s m : string) : Prop :=
  all_chars (fun c => negb (Ascii.eqb c zero)) m = true
  /\ (s = m \/ exists rest, s = m ++ String zero rest).

(** The value of a decimal digit. *)
Definition digit_value (c : ascii) : option Z :=
  let v := Z.of_N (N_of_ascii c) - 48 in
  if (0 <=? v) && (v <=? 9) then Some v else None.

Fixpoint read_digits (acc : Z) (s : string) : option Z :=
  match s with
  | EmptyString => Some acc
  | String c rest =>
      match digit_value c with
      | Some d => read_digits (acc * 10 + d) rest
      | None => None
      end
  end.

(** The number a text denotes in decimal: digits, after a minus sign for
    a negative number; no number for anything else. *)
Definition read_decimal (s : string) : option Z :=
  match s with
  | EmptyString => None
  | String c rest =>
      if Ascii.eqb c "-"
      then match rest with
           | EmptyString => None
           | _ => option_map Z.opp (read_digits 0 rest)
           end
      else read_digits 0 s
  end.

End Answer.

(** A platform with the link up whose gateway answers every request with
    the status [code] and the body [body]. *)
Definition answering (code : Z) (body : string) : Platform :=
  textPlatform 0 (fun _ => true) "10.0.0.7" (fun _ => true) (fun _ => true)
    (fun _ _ => (code, body)).


(** * Properties *)

(** ** Strings *)

Lemma append_nil_r (s : string) : s ++ EmptyString = s.
Proof. induction s as [|c s IH]; simpl; [reflexivity | now rewrite IH]. Qed.

Lemma append_assoc (a b c : string) : (a ++ b) ++ c = a ++ (b ++ c).
Proof. induction a as [|x a IH]; simpl; [reflexivity | now rewrite IH]. Qed.

Lemma length_append (a b : string) :
  String.length (a ++ b) = (String.length a + String.length b)%nat.
Proof. induction a as [|x a IH]; simpl; [reflexivity | now rewrite IH]. Qed.

Lemma length_append_char (s : string) (c : ascii) :
  String.length (append_char s c) = S (String.length s).
Proof. unfold append_char. rewrite length_append. simpl. lia. Qed.

Lemma substring_all (n : nat) (s : string) :
  (String.length s <= n)%nat -> substring 0 n s = s.
Proof.
  revert n. induction s as [|c s IH]; intros [|n] H; simpl in *; try reflexivity; try lia.
  f_equal. apply IH. lia.
Qed.

Lemma all_chars_append (p : ascii -> bool) (a b : string) :
  all_chars p (a ++ b) = all_chars p a && all_chars p b.
Proof.
  induction a as [|c a IH]; simpl; [reflexivity|].
  rewrite IH. now rewrite andb_assoc.
Qed.

(** ** C2: the device identity *)

Lemma replicate_append_char (n : nat) (c : ascii) :
  append_char (replicate n c) c = String c (replicate n c).
Proof.
  unfold append_char. induction n as [|n IH]; simpl; [reflexivity | now rewrite IH].
Qed.

Lemma hexDigit_zero : hexDigit 0 = "0"%char.
Proof. reflexivity. Qed.

Lemma hexFixed_zero (n : nat) : hexFixed n 0 = replicate n "0".
Proof.
  induction n as [|n IH]; [reflexivity|].
  cbn [hexFixed]. rewrite Z.div_0_l by lia. rewrite IH, hexDigit_zero.
  apply replicate_append_char.
Qed.

Lemma length_hexFixed (n : nat) (v : Z) : String.length (hexFixed n v) = n.
Proof.
  revert v. induction n as [|n IH]; intro v; [reflexivity|].
  cbn [hexFixed]. rewrite length_append, IH. simpl. lia.
Qed.

Lemma length_hexDigits (fuel : nat) (k : nat) (v : Z) :
  0 <= v < 16 ^ Z.of_nat k -> (String.length (hexDigits fuel v) <= k)%nat.
Proof.
  revert k v. induction fuel as [|fuel IH]; intros k v Hv; simpl; [lia|].
  destruct (Z.eqb_spec v 0) as [->|Hnz]; simpl; [lia|].
  destruct k as [|k].
  - simpl in Hv. lia.
  - rewrite length_append_char. apply le_n_S, IH.
    rewrite Nat2Z.inj_succ, Z.pow_succ_r in Hv by lia.
    split; [apply Z.div_pos; lia | apply Z.div_lt_upper_bound; lia].
Qed.

(** Padding the shortest representation gives the fixed-width one. *)
Lemma pad_hexDigits (fuel k : nat) (v : Z) :
  (k <= fuel)%nat -> 0 <= v < 16 ^ Z.of_nat k ->
  replicate (k - String.length (hexDigits fuel v)) "0" ++ hexDigits fuel v = hexFixed k v.
Proof.
  revert k v. induction fuel as [|fuel IH]; intros k v Hk Hv.
  - assert (k = O) by lia. subst k. reflexivity.
  - cbn [hexDigits]. destruct (Z.eqb_spec v 0) as [->|Hnz].
    + simpl String.length. rewrite Nat.sub_0_r, append_nil_r. symmetry. apply hexFixed_zero.
    + destruct k as [|k]; [simpl in Hv; lia|].
      rewrite length_append_char. cbn [Nat.sub hexFixed].
      unfold append_char. rewrite <- append_assoc. f_equal.
      apply IH; [lia|].
      rewrite Nat2Z.inj_succ, Z.pow_succ_r in Hv by lia.
      split; [apply Z.div_pos; lia | apply Z.div_lt_upper_bound; lia].
Qed.

Lemma printf_0X_fixed (width : nat) (v : Z) :
  (1 <= width <= 8)%nat -> 0 <= v < 16 ^ Z.of_nat width ->
  printf_0X width v = hexFixed width v.
Proof.
  intros Hw Hv. unfold printf_0X.
  assert (Hu : u32 v = v).
  { unfold u32. apply Z.mod_small. split; [lia|].
    apply Z.lt_le_trans with (16 ^ Z.of_nat width); [lia|].
    change (2 ^ 32) with (16 ^ 8). apply Z.pow_le_mono_r; lia. }
  rewrite Hu. destruct (Z.eqb_spec v 0) as [->|Hnz].
  - rewrite hexFixed_zero. destruct width as [|w]; [lia|].
    simpl String.length. replace (S w - 1)%nat with w by lia.
    change (String "0" EmptyString) with (append_char EmptyString "0").
    unfold append_char. simpl.
    change (replicate w "0" ++ String "0" EmptyString) with (append_char (replicate w "0") "0").
    apply replicate_append_char.
  - apply pad_hexDigits; lia.
Qed.

Lemma is_upper_hex_hexDigit (d : Z) : is_upper_hex (hexDigit d) = true.
Proof.
  unfold hexDigit.
  assert (H : 0 <= d mod 16 < 16) by (apply Z.mod_pos_bound; lia).
  destruct (d mod 16) as [|p|p]; [reflexivity| |lia].
  do 4 (destruct p as [p|p|]; try reflexivity; try lia).
Qed.

Lemma upper_hex_value_hexDigit (d : Z) : upper_hex_value (hexDigit d) = d mod 16.
Proof.
  unfold hexDigit.
  assert (H : 0 <= d mod 16 < 16) by (apply Z.mod_pos_bound; lia).
  destruct (d mod 16) as [|p|p]; [reflexivity| |lia].
  do 4 (destruct p as [p|p|]; try reflexivity; try lia).
Qed.

Lemma all_upper_hex_hexFixed (n : nat) (v : Z) : all_chars is_upper_hex (hexFixed n v) = true.
Proof.
  revert v. induction n as [|n IH]; intro v; [reflexivity|].
  cbn [hexFixed]. rewrite all_chars_append, IH. simpl.
  now rewrite is_upper_hex_hexDigit.
Qed.

Lemma hex_number_append (acc : Z) (a b : string) :
  hex_number acc (a ++ b) = hex_number (hex_number acc a) b.
Proof. revert acc. induction a as [|c a IH]; intro acc; simpl; [reflexivity | apply IH]. Qed.

Lemma hex_number_hexFixed (n : nat) (acc v : Z) :
  hex_number acc (hexFixed n v) = acc * 16 ^ Z.of_nat n + v mod 16 ^ Z.of_nat n.
Proof.
  revert acc v. induction n as [|n IH]; intros acc v.
  - simpl. rewrite Z.mod_1_r. lia.
  - cbn [hexFixed]. rewrite hex_number_append, IH. cbn [hex_number].
    rewrite upper_hex_value_hexDigit.
    rewrite Nat2Z.inj_succ, Z.pow_succ_r by lia.
    rewrite (Z.rem_mul_r v 16 (16 ^ Z.of_nat n)) by lia. ring.
Qed.

(** C2 (as amended).  For every value of the hardware identifier,
    [readDeviceId] returns a string of exactly 12 uppercase hexadecimal
    digits: the 4 zero-padded digits of bits 32..47 of the identifier
    followed by the 8 zero-padded digits of its low 32 bits.  Read as a
    number the string is the identifier modulo 2^48: bits 48..63 do not
    take part. *)
Theorem readDeviceId_twelve_hex_digits (mac : Z) :
  readDeviceId mac
  = hexFixed 4 (Z.shiftr mac 32 mod 2 ^ 16) ++ hexFixed 8 (mac mod 2 ^ 32)
  /\ String.length (readDeviceId mac) = 12%nat
  /\ all_chars is_upper_hex (readDeviceId mac) = true
  /\ hex_number 0 (readDeviceId mac) = mac mod 2 ^ 48.
Proof.
  assert (Hhi : 0 <= u16 (Z.shiftr mac 32) < 16 ^ Z.of_nat 4).
  { unfold u16. change (16 ^ Z.of_nat 4) with (2 ^ 16). apply Z.mod_pos_bound. lia. }
  assert (Hlo : 0 <= u32 mac < 16 ^ Z.of_nat 8).
  { unfold u32. change (16 ^ Z.of_nat 8) with (2 ^ 32). apply Z.mod_pos_bound. lia. }
  assert (E : readDeviceId mac
              = hexFixed 4 (Z.shiftr mac 32 mod 2 ^ 16) ++ hexFixed 8 (mac mod 2 ^ 32)).
  { unfold readDeviceId, snprintf_truncate.
    rewrite (printf_0X_fixed 4) by (lia || exact Hhi).
    rewrite (printf_0X_fixed 8) by (lia || exact Hlo).
    unfold u16, u32. rewrite substring_all; [reflexivity|].
    rewrite length_append, !length_hexFixed. simpl. lia. }
  rewrite E. split; [reflexivity | split; [|split]].
  - rewrite length_append, !length_hexFixed. reflexivity.
  - rewrite all_chars_append, !all_upper_hex_hexFixed. reflexivity.
  - rewrite hex_number_append, !hex_number_hexFixed.
    change (16 ^ Z.of_nat 4) with (2 ^ 16). change (16 ^ Z.of_nat 8) with (2 ^ 32).
    rewrite !Z.mod_mod by lia. rewrite Z.shiftr_div_pow2 by lia.
    change (2 ^ 48) with (2 ^ 32 * 2 ^ 16).
    rewrite (Z.rem_mul_r mac (2 ^ 32) (2 ^ 16)) by lia. ring.
Qed.

(** C2 (as stated) fails: the identity of the identifier
    [0x0001ABCD12345678] has 12 characters, not 16, and the digits
    [0001] of its bits 48..63 are not part of it. *)
Lemma readDeviceId_not_sixteen_characters :
  readDeviceId 0x0001ABCD12345678 = "ABCD12345678"
  /\ String.length (readDeviceId 0x0001ABCD12345678) <> 16%nat.
Proof. split; [reflexivity | vm_compute; discriminate]. Qed.

(** ** The state and the monad *)

Lemma state_eta (s : State) :
  {| g_inputLine := g_inputLine s; g_deviceId := g_deviceId s;
     g_sessionKey := g_sessionKey s; g_bootLatched := g_bootLatched s;
     g_lastBootEdgeMs := g_lastBootEdgeMs s; wifiPolls := wifiPolls s;
     httpPosts := httpPosts s; effects := effects s |} = s.
Proof. destruct s; reflexivity. Qed.

Lemma observed_nil (s : State) : observed [] s = s.
Proof. unfold observed, with_effects. rewrite app_nil_r. apply state_eta. Qed.

Lemma observed_observed (a b : list Event) (s : State) :
  observed b (observed a s) = observed (a ++ b) s.
Proof. unfold observed, with_effects. simpl. now rewrite app_assoc. Qed.

Lemma polled_polled (a b : nat) (s : State) : polled b (polled a s) = polled (a + b) s.
Proof. unfold polled, with_wifiPolls. simpl. now rewrite Nat.add_assoc. Qed.

Lemma polled_observed (n : nat) (es : list Event) (s : State) :
  polled n (observed es s) = observed es (polled n s).
Proof. reflexivity. Qed.

Lemma bind_ret_l {A B} (a : A) (k : A -> M B) (s : State) : bind (ret a) k s = k a s.
Proof. reflexivity. Qed.

Lemma bind_gets {A B} (proj : State -> A) (k : A -> M B) (s : State) :
  bind (gets proj) k s = k (proj s) s.
Proof. reflexivity. Qed.

Lemma bind_modify {B} (f : State -> State) (k : unit -> M B) (s : State) :
  bind (modify f) k s = k tt (f s).
Proof. reflexivity. Qed.

Lemma bind_emit {B} (e : Event) (k : unit -> M B) (s : State) :
  bind (emit e) k s = k tt (observed [e] s).
Proof. reflexivity. Qed.

Lemma bind_bind {A B C} (m : M A) (f : A -> M B) (g : B -> M C) (s : State) :
  bind (bind m f) g s = bind m (fun a => bind (f a) g) s.
Proof. unfold bind. destruct (m s) as [[a s']|]; reflexivity. Qed.

Lemma bind_ext {A B} (m : M A) (k1 k2 : A -> M B) (s : State) :
  (forall a s', k1 a s' = k2 a s') -> bind m k1 s = bind m k2 s.
Proof. intro H. unfold bind. destruct (m s) as [[a s']|]; [apply H | reflexivity]. Qed.

Lemma bind_some {A B} (m : M A) (k : A -> M B) (s s' : State) (a : A) :
  m s = Some (a, s') -> bind m k s = k a s'.
Proof. intro H. unfold bind. now rewrite H. Qed.

(** One statement of a straight-line body. *)
Ltac fw_step :=
  first [ rewrite bind_bind | rewrite bind_emit | rewrite bind_modify
        | rewrite bind_gets | rewrite bind_ret_l ];
  cbv beta;
  cbn [g_inputLine g_deviceId g_sessionKey g_bootLatched g_lastBootEdgeMs wifiPolls
       httpPosts effects observed polled with_inputLine with_deviceId with_sessionKey
       with_bootEdge with_wifiPolls with_httpPosts with_effects].

(** ** C8: the Wi-Fi connection loop *)

Section Connectivity.

Variable cfg : Config.
Variable plat : Platform.

Lemma wifiPollLoop_connected (fuel : nat) (attempts : Z) (s : State) :
  wifiStatus plat (wifiPolls s) = true ->
  wifiPollLoop cfg plat fuel attempts s = Some (tt, polled 1 s).
Proof.
  intro H. destruct fuel; cbn; unfold bind, WiFi_connected; rewrite H;
    unfold polled; now rewrite Nat.add_1_r.
Qed.

Lemma wifiPollLoop_step (fuel : nat) (attempts : Z) (s : State) :
  wifiStatus plat (wifiPolls s) = false ->
  wifiPollLoop cfg plat (S fuel) attempts s
  = if u8 (attempts + 1) >=? 80
    then wifiPollLoop cfg plat fuel 0 (observed (poll_tick ++ retry_cycle cfg) (polled 1 s))
    else wifiPollLoop cfg plat fuel (u8 (attempts + 1)) (observed poll_tick (polled 1 s)).
Proof.
  intro H. cbn [wifiPollLoop]. unfold bind at 1. unfold WiFi_connected at 1. rewrite H.
  destruct (u8 (attempts + 1) >=? 80); cbn;
    unfold observed, polled; cbn; rewrite <- !app_assoc, Nat.add_1_r; reflexivity.
Qed.

Lemma wifiPollLoop_pending (attempts : Z) (s : State) :
  wifiStatus plat (wifiPolls s) = false ->
  wifiPollLoop cfg plat 0 attempts s = None.
Proof. intro H. cbn. unfold bind, WiFi_connected. now rewrite H. Qed.

Lemma succ_mod_80 (n : nat) :
  (S n mod 80 = if (n mod 80 + 1 =? 80) then 0 else n mod 80 + 1)%nat.
Proof.
  pose proof (Nat.div_mod_eq n 80) as E.
  pose proof (Nat.mod_upper_bound n 80 ltac:(lia)) as B.
  destruct (Nat.eqb_spec (n mod 80 + 1) 80) as [H|H]; symmetry.
  - apply (Nat.mod_unique (S n) 80 (S (n / 80)) 0); lia.
  - apply (Nat.mod_unique (S n) 80 (n / 80) (n mod 80 + 1)); lia.
Qed.

Lemma unsuccessful_polls_succ (first count : nat) :
  unsuccessful_polls cfg first (S count)
  = ((poll_tick ++ (if (first mod 80 =? 0)%nat then retry_cycle cfg else []))
     ++ unsuccessful_polls cfg (S first) count)%list.
Proof. reflexivity. Qed.

(** [k] unsuccessful polls and then a successful one, when [n] polls
    have been unsuccessful before and the counter stands at [n mod 80]. *)
Lemma wifiPollLoop_unsuccessful (k : nat) :
  forall (fuel n : nat) (s : State),
    (k <= fuel)%nat ->
    (forall i, (i < k)%nat -> wifiStatus plat (wifiPolls s + i) = false) ->
    wifiStatus plat (wifiPolls s + k) = true ->
    wifiPollLoop cfg plat fuel (Z.of_nat (n mod 80)) s
    = Some (tt, observed (unsuccessful_polls cfg (S n) k) (polled (S k) s)).
Proof.
  induction k as [|k IH]; intros fuel n s Hfuel Hfalse Htrue.
  - rewrite Nat.add_0_r in Htrue. rewrite wifiPollLoop_connected by exact Htrue.
    now rewrite observed_nil.
  - destruct fuel as [|fuel]; [lia|].
    assert (H0 : wifiStatus plat (wifiPolls s) = false).
    { rewrite <- (Nat.add_0_r (wifiPolls s)). apply Hfalse. lia. }
    rewrite wifiPollLoop_step by exact H0.
    pose proof (Nat.mod_upper_bound n 80 ltac:(lia)) as B.
    assert (Hu : u8 (Z.of_nat (n mod 80) + 1) = Z.of_nat (n mod 80 + 1)).
    { unfold u8. rewrite Z.mod_small; lia. }
    rewrite Hu, unsuccessful_polls_succ.
    assert (Hshift : forall es,
      wifiPollLoop cfg plat fuel (Z.of_nat (S n mod 80)) (observed es (polled 1 s))
      = Some (tt, observed (es ++ unsuccessful_polls cfg (S (S n)) k) (polled (S (S k)) s))).
    { intro es. rewrite IH.
      - rewrite polled_observed, polled_polled, observed_observed. reflexivity.
      - lia.
      - intros i Hi. cbn [wifiPolls polled observed with_effects with_wifiPolls].
        replace (wifiPolls s + 1 + i)%nat with (wifiPolls s + S i)%nat by lia.
        apply Hfalse. lia.
      - cbn [wifiPolls polled observed with_effects with_wifiPolls].
        replace (wifiPolls s + 1 + k)%nat with (wifiPolls s + S k)%nat by lia.
        exact Htrue. }
    rewrite (succ_mod_80 n) in *.
    destruct (Nat.eqb_spec (n mod 80 + 1) 80) as [E|E].
    + replace (Z.of_nat (n mod 80 + 1) >=? 80) with true
        by (rewrite Z.geb_leb; symmetry; apply Z.leb_le; lia).
      apply Hshift.
    + replace (Z.of_nat (n mod 80 + 1) >=? 80) with false
        by (rewrite Z.geb_leb; symmetry; apply Z.leb_gt; lia).
      rewrite Hshift.
      destruct (Nat.eqb_spec (n mod 80 + 1) 0) as [Z0|Z0]; [lia|].
      now rewrite app_nil_r.
Qed.

Lemma wifiPollLoop_never (fuel : nat) :
  forall (attempts : Z) (s : State),
    (forall i, (i <= fuel)%nat -> wifiStatus plat (wifiPolls s + i) = false) ->
    wifiPollLoop cfg plat fuel attempts s = None.
Proof.
  induction fuel as [|fuel IH]; intros attempts s Hfalse.
  - apply wifiPollLoop_pending. rewrite <- (Nat.add_0_r (wifiPolls s)). apply Hfalse. lia.
  - rewrite wifiPollLoop_step
      by (rewrite <- (Nat.add_0_r (wifiPolls s)); apply Hfalse; lia).
    destruct (u8 (attempts + 1) >=? 80); apply IH; intros i Hi;
      cbn [wifiPolls polled observed with_effects with_wifiPolls];
      (replace (wifiPolls s + 1 + i)%nat with (wifiPolls s + S i)%nat by lia);
      apply Hfalse; lia.
Qed.

Lemma wifiPollLoop_returns (fuel : nat) :
  forall (attempts : Z) (s : State) (u : unit) (s' : State),
    wifiPollLoop cfg plat fuel attempts s = Some (u, s') ->
    exists k, (k <= fuel)%nat
      /\ (forall i, (i < k)%nat -> wifiStatus plat (wifiPolls s + i) = false)
      /\ wifiStatus plat (wifiPolls s + k) = true.
Proof.
  induction fuel as [|fuel IH]; intros attempts s u s' H;
    destruct (wifiStatus plat (wifiPolls s)) eqn:E;
    try (exists O; rewrite Nat.add_0_r;
         split; [lia|]; split; [intros i Hi; lia | exact E]).
  - rewrite wifiPollLoop_pending in H by exact E. discriminate.
  - rewrite wifiPollLoop_step in H by exact E.
    assert (Hrec : exists es, wifiPollLoop cfg plat fuel
                (if u8 (attempts + 1) >=? 80 then 0 else u8 (attempts + 1))
                (observed es (polled 1 s)) = Some (u, s')).
    { destruct (u8 (attempts + 1) >=? 80); eexists; exact H. }
    destruct Hrec as [es Hrec].
    apply IH in Hrec. destruct Hrec as (k & Hk & Hfalse & Htrue).
    cbn [wifiPolls polled observed with_effects with_wifiPolls] in *.
    exists (S k). split; [lia|]. split.
    + intros [|i] Hi; [now rewrite Nat.add_0_r|].
      replace (wifiPolls s + S i)%nat with (wifiPolls s + 1 + i)%nat by lia.
      apply Hfalse. lia.
    + replace (wifiPolls s + S k)%nat with (wifiPolls s + 1 + k)%nat by lia. exact Htrue.
Qed.

Lemma connectWifiBlocking_unfold (fuel : nat) (s : State) :
  connectWifiBlocking cfg plat fuel s
  = if wifiStatus plat (wifiPolls s) then Some (tt, polled 1 s)
    else match wifiPollLoop cfg plat fuel 0 (observed (association cfg) (polled 1 s)) with
         | Some (_, s') => Some (tt, observed (connected_banner plat) s')
         | None => None
         end.
Proof.
  unfold connectWifiBlocking. unfold bind at 1. unfold WiFi_connected at 1.
  destruct (wifiStatus plat (wifiPolls s)).
  - unfold polled. now rewrite Nat.add_1_r.
  - unfold Serial_print, emit, modify, bind.
    match goal with
    | |- context [wifiPollLoop cfg plat fuel 0 ?x] =>
        replace x with (observed (association cfg) (polled 1 s))
    end.
    + destruct (wifiPollLoop cfg plat fuel 0 _) as [[[] s']|]; reflexivity.
    + unfold observed, association, polled. cbn.
      rewrite <- !app_assoc, Nat.add_1_r. reflexivity.
Qed.

(** How a call that finds the link down ends, when the [k] polls of the
    loop after the first check fail and the next one succeeds. *)
Lemma connectWifiBlocking_after (fuel k : nat) (s : State) :
  (k <= fuel)%nat ->
  (forall i, (i <= k)%nat -> wifiStatus plat (wifiPolls s + i) = false) ->
  wifiStatus plat (wifiPolls s + S k) = true ->
  connectWifiBlocking cfg plat fuel s
  = Some (tt, observed (association cfg ++ unsuccessful_polls cfg 1 k ++ connected_banner plat)
                (polled (k + 2) s)).
Proof.
  intros Hk Hfalse Htrue. rewrite connectWifiBlocking_unfold.
  replace (wifiStatus plat (wifiPolls s)) with false
    by (symmetry; rewrite <- (Nat.add_0_r (wifiPolls s)); apply Hfalse; lia).
  change 0 with (Z.of_nat (0 mod 80)).
  rewrite (wifiPollLoop_unsuccessful k).
  - rewrite polled_observed, polled_polled, !observed_observed.
    replace (1 + S k)%nat with (k + 2)%nat by lia. now rewrite <- ?app_assoc.
  - exact Hk.
  - intros i Hi. cbn [wifiPolls polled observed with_effects with_wifiPolls].
    replace (wifiPolls s + 1 + i)%nat with (wifiPolls s + S i)%nat by lia.
    apply Hfalse. lia.
  - cbn [wifiPolls polled observed with_effects with_wifiPolls].
    replace (wifiPolls s + 1 + k)%nat with (wifiPolls s + S k)%nat by lia. exact Htrue.
Qed.

(** A call returns only when a status reading says "connected", and
    then it has changed nothing but the console and the Wi-Fi driver. *)
Lemma connectWifiBlocking_returns (fuel : nat) (s : State) (u : unit) (s' : State) :
  connectWifiBlocking cfg plat fuel s = Some (u, s') ->
  exists n es,
    (forall i, (i < n)%nat -> wifiStatus plat (wifiPolls s + i) = false)
    /\ wifiStatus plat (wifiPolls s + n) = true
    /\ s' = observed es (polled (S n) s).
Proof.
  intro H. destruct (wifiStatus plat (wifiPolls s)) eqn:E.
  - rewrite connectWifiBlocking_unfold, E in H. injection H as _ <-.
    exists O, []. rewrite Nat.add_0_r, observed_nil.
    split; [intros i Hi; lia|]. split; [exact E | reflexivity].
  - pose proof H as H'. rewrite connectWifiBlocking_unfold, E in H'.
    destruct (wifiPollLoop cfg plat fuel 0 _) as [[[] s1]|] eqn:L; [|discriminate].
    apply wifiPollLoop_returns in L. destruct L as (k & Hk & Hfalse & Htrue).
    cbn [wifiPolls polled observed with_effects with_wifiPolls] in Hfalse, Htrue.
    assert (Hall : forall i, (i <= k)%nat -> wifiStatus plat (wifiPolls s + i) = false).
    { intros [|i] Hi; [now rewrite Nat.add_0_r|].
      replace (wifiPolls s + S i)%nat with (wifiPolls s + 1 + i)%nat by lia.
      apply Hfalse. lia. }
    assert (Hlast : wifiStatus plat (wifiPolls s + S k) = true).
    { replace (wifiPolls s + S k)%nat with (wifiPolls s + 1 + k)%nat by lia. exact Htrue. }
    rewrite (connectWifiBlocking_after fuel k s Hk Hall Hlast) in H. injection H as _ <-.
    exists (S k). eexists. split; [|split; [exact Hlast|]].
    + intros i Hi. apply Hall. lia.
    + replace (k + 2)%nat with (S (S k)) by lia. reflexivity.
Qed.

Lemma first_true (f : nat -> bool) (k : nat) :
  f k = true ->
  exists n, (n <= k)%nat /\ f n = true /\ forall i, (i < n)%nat -> f i = false.
Proof.
  induction k as [k IH] using lt_wf_ind. intro Hk.
  destruct (existsb f (seq 0 k)) eqn:E.
  - apply existsb_exists in E. destruct E as (j & Hj & Hfj). apply in_seq in Hj.
    destruct (IH j ltac:(lia) Hfj) as (n & Hn & Hfn & Hbefore).
    exists n. split; [lia|]. split; assumption.
  - exists k. split; [lia|]. split; [exact Hk|].
    intros i Hi. destruct (f i) eqn:Fi; [|reflexivity].
    rewrite <- E. symmetry. apply existsb_exists. exists i. split; [|exact Fi].
    apply in_seq. lia.
Qed.

(** With a "connected" reading within reach of the fuel the call returns. *)
Lemma connectWifiBlocking_terminates (fuel k : nat) (s : State) :
  (k <= S fuel)%nat -> wifiStatus plat (wifiPolls s + k) = true ->
  exists n es, connectWifiBlocking cfg plat fuel s = Some (tt, observed es (polled (S n) s)).
Proof.
  intros Hk Htrue.
  destruct (first_true (fun i => wifiStatus plat (wifiPolls s + i)) k Htrue)
    as (n & Hn & Hfn & Hbefore).
  destruct n as [|n].
  - exists O, []. rewrite Nat.add_0_r in Hfn.
    rewrite connectWifiBlocking_unfold, Hfn, observed_nil. reflexivity.
  - exists (S n). eexists. rewrite (connectWifiBlocking_after fuel n).
    + replace (n + 2)%nat with (S (S n)) by lia. reflexivity.
    + lia.
    + intros i Hi. apply Hbefore. lia.
    + exact Hfn.
Qed.

End Connectivity.

(** C8.  [connectWifiBlocking] is a no-op when the first status reading
    says "connected".  Otherwise it starts the association and polls:
    every unsuccessful poll waits 500 ms, and after every 80th in a row
    comes a retry cycle (disconnect with both flags set, wait 500 ms,
    begin again), with no bound on their number.  It returns, without a
    result that could be an error, at the first reading that says
    "connected", and not before: while the readings say "disconnected"
    it is still running. *)
Theorem connectWifiBlocking_retries_until_connected
    (cfg : Config) (plat : Platform) (fuel : nat) (s : State) :
  (wifiStatus plat (wifiPolls s) = true ->
   connectWifiBlocking cfg plat fuel s = Some (tt, polled 1 s))
  /\ (forall k : nat,
        (k <= fuel)%nat ->
        (forall i, (i <= k)%nat -> wifiStatus plat (wifiPolls s + i) = false) ->
        wifiStatus plat (wifiPolls s + S k) = true ->
        connectWifiBlocking cfg plat fuel s
        = Some (tt, observed (association cfg ++ unsuccessful_polls cfg 1 k
                              ++ connected_banner plat)
                      (polled (k + 2) s)))
  /\ ((forall i, (i <= S fuel)%nat -> wifiStatus plat (wifiPolls s + i) = false) ->
      connectWifiBlocking cfg plat fuel s = None)
  /\ (forall (u : unit) (s' : State),
        connectWifiBlocking cfg plat fuel s = Some (u, s') ->
        exists n,
          (forall i, (i < n)%nat -> wifiStatus plat (wifiPolls s + i) = false)
          /\ wifiStatus plat (wifiPolls s + n) = true
          /\ wifiPolls s' = (wifiPolls s + S n)%nat)
  /\ unsuccessful_polls cfg 1 79 = flat_map (fun _ => poll_tick) (seq 1 79)
  /\ unsuccessful_polls cfg 1 80
     = (flat_map (fun _ => poll_tick) (seq 1 80) ++ retry_cycle cfg)%list
  /\ unsuccessful_polls cfg 1 160
     = (flat_map (fun _ => poll_tick) (seq 1 80) ++ retry_cycle cfg
        ++ flat_map (fun _ => poll_tick) (seq 81 80) ++ retry_cycle cfg)%list.
Proof.
  split; [|split; [|split; [|split; [|split; [|split]]]]]; try reflexivity.
  - intro H. now rewrite connectWifiBlocking_unfold, H.
  - intros k. apply connectWifiBlocking_after.
  - intro Hfalse. rewrite connectWifiBlocking_unfold.
    replace (wifiStatus plat (wifiPolls s)) with false
      by (symmetry; rewrite <- (Nat.add_0_r (wifiPolls s)); apply Hfalse; lia).
    rewrite wifiPollLoop_never; [reflexivity|].
    intros i Hi. cbn [wifiPolls polled observed with_effects with_wifiPolls].
    replace (wifiPolls s + 1 + i)%nat with (wifiPolls s + S i)%nat by lia.
    apply Hfalse. lia.
  - intros u s' H. apply connectWifiBlocking_returns in H.
    destruct H as (n & es & Hfalse & Htrue & ->).
    exists n. split; [exact Hfalse|]. split; [exact Htrue|]. reflexivity.
Qed.

Lemma connectWifiBlocking_retries_until_connected_witness :
  connectWifiBlocking example_config
    (textPlatform 0 (fun n => (161 <=? n)%nat) "10.0.0.7" (fun _ => true) (fun _ => true)
       (fun _ _ => (200, EmptyString)))
    200 initial_state
  = Some (tt, observed (association example_config ++ unsuccessful_polls example_config 1 160
                        ++ connected_banner
                             (textPlatform 0 (fun n => (161 <=? n)%nat) "10.0.0.7"
                                (fun _ => true) (fun _ => true)
                                (fun _ _ => (200, EmptyString))))
                (polled 162 initial_state)).
Proof.
  apply (proj1 (proj2 (connectWifiBlocking_retries_until_connected example_config
                         (textPlatform 0 (fun n => (161 <=? n)%nat) "10.0.0.7"
                            (fun _ => true) (fun _ => true)
                            (fun _ _ => (200, EmptyString)))
                         200 initial_state)) 160%nat).
  - lia.
  - intros i Hi. apply Nat.leb_gt. simpl. lia.
  - reflexivity.
Defined.

(** ** C3: the session key *)

(** C3.  Whatever the configured agent id and the hardware identifier,
    [setup] leaves in [g_sessionKey] the concatenation of ["agent:"], the
    agent id, [":openai:esp32-"] and the device identity it has just
    computed into [g_deviceId]; for the agent id ["main"] and the
    identity ["0001ABCD12345678"] the expression gives
    ["agent:main:openai:esp32-0001ABCD12345678"].  ([setup] returns once
    the Wi-Fi link is up, which is assumed to happen within the fuel.) *)
Theorem setup_session_key (cfg : Config) (plat : Platform) (fuel k : nat) (s : State) :
  (k <= S fuel)%nat -> wifiStatus plat (wifiPolls s + k) = true ->
  (exists s',
      setup cfg plat fuel s = Some (tt, s')
      /\ g_deviceId s' = readDeviceId (getEfuseMac plat)
      /\ g_sessionKey s' = "agent:" ++ OPENCLAW_AGENT_ID cfg ++ ":openai:esp32-" ++ g_deviceId s')
  /\ (forall agentId deviceId,
        sessionKeyOf agentId deviceId = "agent:" ++ agentId ++ ":openai:esp32-" ++ deviceId)
  /\ sessionKeyOf "main" "0001ABCD12345678" = "agent:main:openai:esp32-0001ABCD12345678".
Proof.
  intros Hk Htrue.
  assert (Hkey : forall agentId deviceId,
             sessionKeyOf agentId deviceId = "agent:" ++ agentId ++ ":openai:esp32-" ++ deviceId).
  { intros a d. unfold sessionKeyOf. now rewrite !append_assoc. }
  split; [|split; [exact Hkey | reflexivity]].
  unfold setup, printBoardProbe, i2cResponds, Serial_println, Serial_print, delay.
  repeat fw_step.
  match goal with
  | |- context [bind (connectWifiBlocking cfg plat fuel) _ ?x] =>
      destruct (connectWifiBlocking_terminates cfg plat fuel k x Hk Htrue) as (n & es & E);
      rewrite (bind_some _ _ _ _ _ E)
  end.
  repeat fw_step. unfold emit, modify.
  eexists. split; [reflexivity|]. split; [reflexivity|].
  cbn [g_sessionKey g_deviceId observed polled with_effects with_wifiPolls].
  apply Hkey.
Qed.

Lemma setup_session_key_witness :
  exists s',
    setup example_config
      (textPlatform 0xABCD12345678 (fun _ => true) "10.0.0.7" (fun _ => true) (fun _ => true)
         (fun _ _ => (200, EmptyString)))
      0 initial_state = Some (tt, s')
    /\ g_deviceId s' = "ABCD12345678"
    /\ g_sessionKey s' = "agent:main:openai:esp32-ABCD12345678".
Proof.
  destruct (proj1 (setup_session_key example_config
              (textPlatform 0xABCD12345678 (fun _ => true) "10.0.0.7" (fun _ => true)
                 (fun _ => true) (fun _ _ => (200, EmptyString)))
              0 0 initial_state ltac:(lia) eq_refl)) as (s' & Hrun & Hid & Hkey).
  exists s'. split; [exact Hrun|]. split; [exact Hid|].
  rewrite Hkey, Hid. reflexivity.
Defined.

(** ** C1: the classification of an exchange *)

(** Lines 149-156 against the specification's classification. *)
Lemma classification_refines (plat : Platform) (code : Z) (raw : string) :
  (if code <=? 0 then "[http-error] POST failed: " ++ decimal code
   else if code >=? 400 then (("[http-" ++ decimal code) ++ "] ") ++ raw
   else extractAssistantText plat raw)
  = display (classify (deserializeJson plat) code raw).
Proof.
  unfold classify, extractAssistantText, error_message, reply_content.
  rewrite Z.geb_leb.
  destruct (code <=? 0); [reflexivity|].
  destruct (400 <=? code); [cbn [display]; now rewrite !append_assoc|].
  destruct (deserializeJson plat raw) as [err doc].
  destruct err; cbn [is_error display error_c_str]; try reflexivity.
  destruct (as_c_str (member "message" (member "error" doc))); [reflexivity|].
  destruct (as_c_str _); reflexivity.
Qed.

(** One exchange: with the link up and the HTTP client initialised,
    [askOpenClaw] posts [gatewayRequest] and returns the string of the
    classified answer. *)
Lemma askOpenClaw_exchange
    (cfg : Config) (plat : Platform) (fuel : nat) (prompt : string) (s s1 : State) :
  connectWifiBlocking cfg plat fuel s = Some (tt, s1) ->
  httpBegin plat (buildGatewayUrl cfg) = true ->
  let request := gatewayRequest cfg plat (g_sessionKey s1) prompt in
  let response := httpPOST plat (httpPosts s1) request in
  askOpenClaw cfg plat fuel prompt s
  = Some (display (classify (deserializeJson plat) (fst response) (snd response)),
          posted request s1).
Proof.
  intros Hlink Hbegin request response.
  unfold askOpenClaw. unfold bind at 1. rewrite Hlink, Hbegin. cbn [negb].
  unfold bind, gets, http_POST.
  change (httpPOST plat (httpPosts s1) _) with response.
  destruct response as [code raw]. cbn [fst snd].
  unfold ret. rewrite <- classification_refines.
  destruct (code <=? 0); [reflexivity|]. destruct (code >=? 400); reflexivity.
Qed.

(** When the HTTP client cannot be initialised nothing is posted. *)
Lemma askOpenClaw_begin_failure
    (cfg : Config) (plat : Platform) (fuel : nat) (prompt : string) (s s1 : State) :
  connectWifiBlocking cfg plat fuel s = Some (tt, s1) ->
  httpBegin plat (buildGatewayUrl cfg) = false ->
  askOpenClaw cfg plat fuel prompt s
  = Some (if OPENCLAW_USE_TLS cfg
          then "[http-error] failed to initialize TLS HTTP client"
          else "[http-error] failed to initialize HTTP client", s1).
Proof.
  intros Hlink Hbegin. unfold askOpenClaw. unfold bind at 1.
  now rewrite Hlink, Hbegin.
Qed.

(** *** The readings of the answer *)

Lemma lookup_find (name : string) (members : list (string * JsonVariant)) :
  lookup name members
  = match option_map snd (find (fun m => String.eqb name (fst m)) members) with
    | Some v => v
    | None => JNull
    end.
Proof.
  induction members as [|[k v] rest IH]; [reflexivity|].
  cbn [lookup find fst]. rewrite (String.eqb_sym name k).
  destruct (String.eqb k name); [reflexivity | exact IH].
Qed.

Lemma member_field (name : string) (v : JsonVariant) :
  member name v = match Answer.field name v with Some x => x | None => JNull end.
Proof. destruct v; try reflexivity. apply lookup_find. Qed.

Lemma element_first (v : JsonVariant) :
  element 0 v = match Answer.first_element v with Some x => x | None => JNull end.
Proof. destruct v as [| | | |[|x rest]|]; reflexivity. Qed.

Lemma as_c_str_text (v : JsonVariant) : as_c_str v = option_map c_str (Answer.text v).
Proof. destruct v; reflexivity. Qed.

Lemma error_message_reading (doc : JsonVariant) :
  error_message doc
  = option_map c_str (Answer.string_in (Answer.error_message_field doc)).
Proof.
  unfold error_message, Answer.string_in, Answer.error_message_field, Answer.and_then.
  rewrite as_c_str_text, !member_field.
  destruct (Answer.field "error" doc) as [e|]; [|reflexivity].
  destruct (Answer.field "message" e); reflexivity.
Qed.

Lemma reply_content_reading (doc : JsonVariant) :
  reply_content doc
  = option_map c_str (Answer.string_in (Answer.content_field doc)).
Proof.
  unfold reply_content, Answer.string_in, Answer.content_field, Answer.and_then.
  rewrite as_c_str_text, !member_field, element_first.
  destruct (Answer.field "choices" doc) as [choices|]; [|reflexivity].
  destruct (Answer.first_element choices) as [choice|]; [|reflexivity].
  destruct (Answer.field "message" choice) as [message|]; [|reflexivity].
  destruct (Answer.field "content" message); reflexivity.
Qed.

Lemma c_str_append (m rest : string) :
  all_chars (fun c => negb (Ascii.eqb c zero)) m = true ->
  c_str (m ++ rest) = m ++ c_str rest.
Proof.
  induction m as [|c m IH]; intro H; [reflexivity|].
  cbn [all_chars] in H. apply andb_true_iff in H. destruct H as [Hc Hm].
  cbn [append c_str]. apply negb_true_iff in Hc. rewrite Hc. now rewrite IH.
Qed.

Lemma c_str_nul_free (s : string) :
  all_chars (fun c => negb (Ascii.eqb c zero)) (c_str s) = true.
Proof.
  induction s as [|c s IH]; [reflexivity|].
  cbn [c_str]. destruct (Ascii.eqb c zero) eqn:E; [reflexivity|].
  cbn [all_chars]. now rewrite E, IH.
Qed.

Lemma c_str_prefix (s : string) :
  s = c_str s \/ exists rest, s = c_str s ++ String zero rest.
Proof.
  induction s as [|c s IH]; [now left|].
  cbn [c_str]. destruct (Ascii.eqb c zero) eqn:E.
  - apply Ascii.eqb_eq in E. subst c. right. now exists s.
  - destruct IH as [IH|[rest IH]].
    + left. now rewrite <- IH.
    + right. exists rest. cbn [append]. now rewrite <- IH.
Qed.

(** The C string of a text is what [c_str] returns, and nothing else. *)
Lemma c_string_of_c_str (s m : string) : Answer.c_string_of s m <-> m = c_str s.
Proof.
  unfold Answer.c_string_of. split.
  - intros [Hfree [->|[rest ->]]].
    + rewrite <- (append_nil_r m) at 2. rewrite (c_str_append m EmptyString Hfree).
      cbn [c_str]. now rewrite append_nil_r.
    + rewrite (c_str_append m _ Hfree). cbn [c_str Ascii.eqb Bool.eqb zero].
      now rewrite append_nil_r.
  - intros ->. split; [apply c_str_nul_free | apply c_str_prefix].
Qed.

Lemma read_digits_step (acc : Z) (c : ascii) (rest : string) (d : Z) :
  Answer.digit_value c = Some d ->
  Answer.read_digits acc (String c rest) = Answer.read_digits (acc * 10 + d) rest.
Proof. intro H. cbn [Answer.read_digits]. now rewrite H. Qed.

Lemma read_digits_of_uint_acc (d : Decimal.uint) :
  forall acc : positive,
    Answer.read_digits (Z.pos acc) (NilEmpty.string_of_uint d)
    = Some (Z.pos (Pos.of_uint_acc d acc)).
Proof.
  induction d; intro acc; cbn [NilEmpty.string_of_uint Pos.of_uint_acc];
    [reflexivity|..];
    erewrite read_digits_step by reflexivity;
    rewrite <- IHd; f_equal;
    match goal with
    | |- context [Z.of_N (N_of_ascii ?c) - 48] =>
        let v := eval vm_compute in (Z.of_N (N_of_ascii c) - 48) in
        change (Z.of_N (N_of_ascii c) - 48) with v
    end; lia.
Qed.

Lemma read_digits_of_uint (d : Decimal.uint) :
  Answer.read_digits 0 (NilEmpty.string_of_uint d) = Some (Z.of_N (Pos.of_uint d)).
Proof.
  induction d; cbn [NilEmpty.string_of_uint Pos.of_uint];
    [reflexivity|..]; erewrite read_digits_step by reflexivity;
    [exact IHd|..]; apply (read_digits_of_uint_acc d).
Qed.

(** What [String(int)] prints reads back as the number printed. *)
Lemma read_decimal_decimal (v : Z) : Answer.read_decimal (decimal v) = Some v.
Proof.
  unfold decimal. destruct v as [|p|p]; [reflexivity| |];
    cbn [Z.to_int NilZero.string_of_int];
    pose proof (Unsigned.of_to p) as Hp;
    pose proof (read_digits_of_uint (Pos.to_uint p)) as Hd; rewrite Hp in Hd.
  - destruct (Pos.to_uint p) eqn:E; try (cbn in Hp; discriminate Hp);
      cbn [NilZero.string_of_uint NilEmpty.string_of_uint Answer.read_decimal] in *;
      exact Hd.
  - destruct (Pos.to_uint p) eqn:E; try (cbn in Hp; discriminate Hp);
      cbn [NilZero.string_of_uint NilEmpty.string_of_uint Answer.read_decimal
           Ascii.eqb Bool.eqb] in *;
      rewrite Hd; reflexivity.
Qed.

(** C1 (as amended).  Once the link is up [askOpenClaw] returns, and what
    it returns is settled in this order.  When the HTTP client cannot be
    initialised it is the fixed failure text, and nothing is posted.
    Otherwise the request is posted once, and with [code] and [raw] the
    status code and the body of the answer:
    - [code <= 0]: the transport failure text, ending in digits that
      read back as [code];
    - [400 <= code]: the HTTP failure text, with digits that read back
      as [code], followed by the body as received, whatever the JSON
      parser would say about it;
    - otherwise the body is parsed, and a parser error gives the parse
      failure text with the parser's diagnostic;
    - otherwise a string at [error.message] gives the gateway error text
      with that string, taken as a C string, whether or not the answer
      has a reply as well;
    - otherwise, that is with [error.message] absent or not a string, a
      [choices[0].message.content] that is absent or not a string gives
      the missing-content text;
    - and only otherwise the result is the string at
      [choices[0].message.content], taken as a C string.
    The fields are read by [Answer], the digits by [Answer.read_decimal]. *)
Theorem askOpenClaw_outcome
    (cfg : Config) (plat : Platform) (fuel : nat) (prompt : string) (s s1 : State) :
  connectWifiBlocking cfg plat fuel s = Some (tt, s1) ->
  let request := gatewayRequest cfg plat (g_sessionKey s1) prompt in
  let code := fst (httpPOST plat (httpPosts s1) request) in
  let raw := snd (httpPOST plat (httpPosts s1) request) in
  exists (r : string) (s' : State),
    askOpenClaw cfg plat fuel prompt s = Some (r, s')
    /\ (httpBegin plat (buildGatewayUrl cfg) = false ->
        s' = s1
        /\ r = if OPENCLAW_USE_TLS cfg
               then "[http-error] failed to initialize TLS HTTP client"
               else "[http-error] failed to initialize HTTP client")
    /\ (httpBegin plat (buildGatewayUrl cfg) = true ->
        s' = posted request s1
        /\ (code <= 0 ->
            exists digits,
              Answer.read_decimal digits = Some code
              /\ r = "[http-error] POST failed: " ++ digits)
        /\ (400 <= code ->
            exists digits,
              Answer.read_decimal digits = Some code
              /\ r = "[http-" ++ digits ++ "] " ++ raw)
        /\ (0 < code < 400 ->
            forall err doc, deserializeJson plat raw = (err, doc) ->
              (err <> Ok -> r = "[json-parse-error] " ++ error_c_str err)
              /\ (err = Ok ->
                  (forall message,
                     Answer.string_in (Answer.error_message_field doc) = Some message ->
                     exists m, Answer.c_string_of message m
                               /\ r = "[openclaw-error] " ++ m)
                  /\ (Answer.string_in (Answer.error_message_field doc) = None ->
                      (Answer.string_in (Answer.content_field doc) = None ->
                       r = "[openclaw-error] missing choices[0].message.content")
                      /\ (forall content,
                            Answer.string_in (Answer.content_field doc) = Some content ->
                            Answer.c_string_of content r))))).
Proof.
  intros Hlink request code raw.
  destruct (httpBegin plat (buildGatewayUrl cfg)) eqn:Hbegin.
  - exists (display (classify (deserializeJson plat) code raw)), (posted request s1).
    split; [exact (askOpenClaw_exchange cfg plat fuel prompt s s1 Hlink Hbegin)|].
    split; [discriminate|]. intros _. split; [reflexivity|].
    unfold classify. split; [|split].
    + intro H. apply Z.leb_le in H. rewrite H.
      exists (decimal code). split; [apply read_decimal_decimal | reflexivity].
    + intro H.
      assert (H0 : (code <=? 0) = false) by (apply Z.leb_gt; lia).
      apply Z.leb_le in H. rewrite H0, H.
      exists (decimal code). split; [apply read_decimal_decimal | reflexivity].
    + intros [H0 H400] err doc Hparse.
      apply Z.leb_gt in H0. apply Z.leb_gt in H400. rewrite H0, H400, Hparse.
      rewrite error_message_reading, reply_content_reading.
      split.
      * intro Herr. destruct err; [contradiction| | | | |]; reflexivity.
      * intros ->. split.
        -- intros message ->. exists (c_str message).
           split; [now apply c_string_of_c_str | reflexivity].
        -- intros ->. split.
           ++ intros ->. reflexivity.
           ++ intros content ->. now apply c_string_of_c_str.
  - exists (if OPENCLAW_USE_TLS cfg
            then "[http-error] failed to initialize TLS HTTP client"
            else "[http-error] failed to initialize HTTP client"), s1.
    split; [exact (askOpenClaw_begin_failure cfg plat fuel prompt s s1 Hlink Hbegin)|].
    split; [intros _; split; reflexivity | discriminate].
Qed.

Lemma askOpenClaw_outcome_witness :
  askOpenClaw example_config
    (answering 200
       (dq "{'choices':[{'message':{'content':'first'}},{'message':{'content':'second'}}]}"))
    0 "status?" initial_state
  = Some ("first",
          posted (gatewayRequest example_config
                    (answering 200
                       (dq "{'choices':[{'message':{'content':'first'}},{'message':{'content':'second'}}]}"))
                    EmptyString "status?")
                 (polled 1 initial_state)).
Proof.
  destruct (askOpenClaw_outcome example_config
              (answering 200
                 (dq "{'choices':[{'message':{'content':'first'}},{'message':{'content':'second'}}]}"))
              0 "status?" initial_state (polled 1 initial_state) eq_refl)
    as (r & s' & Hrun & _ & Hposted).
  destruct (Hposted eq_refl) as (-> & _ & _ & Hparsed).
  destruct (Hparsed (conj eq_refl eq_refl) Ok _ eq_refl) as (_ & Hok).
  destruct (Hok eq_refl) as (_ & Hreply).
  destruct (Hreply eq_refl) as (_ & Hcontent).
  pose proof (proj1 (c_string_of_c_str _ _) (Hcontent "first" eq_refl)) as Hr.
  subst r. exact Hrun.
Defined.

(** C1 (as stated) fails.  The first answer below has a field at
    [error.message], the number 42, beside a reply; with the status 200
    [askOpenClaw] returns the reply, not a gateway error.  The second
    answer has a field at [choices[0].message.content], the number 7;
    the result is the missing-content text, not a reply.  A field that
    holds no string counts as absent. *)
Lemma askOpenClaw_field_without_string_counts_as_absent :
  (exists doc,
     JsonText.deserialize
       (dq "{'error':{'message':42},'choices':[{'message':{'content':'hi'}}]}")
     = (Ok, doc)
     /\ Answer.error_message_field doc = Some (JNumber "42")
     /\ option_map fst
          (askOpenClaw example_config
             (answering 200
                (dq "{'error':{'message':42},'choices':[{'message':{'content':'hi'}}]}"))
             0 "status?" initial_state)
        = Some "hi")
  /\ (exists doc,
        JsonText.deserialize (dq "{'choices':[{'message':{'content':7}}]}") = (Ok, doc)
        /\ Answer.content_field doc = Some (JNumber "7")
        /\ option_map fst
             (askOpenClaw example_config
                (answering 200 (dq "{'choices':[{'message':{'content':7}}]}"))
                0 "status?" initial_state)
           = Some "[openclaw-error] missing choices[0].message.content").
Proof.
  split; eexists; (split; [vm_compute; reflexivity|]); split; vm_compute; reflexivity.
Qed.

(** What [askOpenClaw] returns on the answers of section 8 of the
    specification, and where the reading of the answer shows: the status
    code in digits, the element [[0]] and no other, the text up to a NUL. *)
Example askOpenClaw_internal_error :
  option_map fst
    (askOpenClaw example_config (answering 500 "internal error") 0 "status?" initial_state)
  = Some "[http-500] internal error".
Proof. vm_compute. reflexivity. Qed.

Example askOpenClaw_transport_failure :
  option_map fst
    (askOpenClaw example_config (answering (-11) EmptyString) 0 "status?" initial_state)
  = Some "[http-error] POST failed: -11".
Proof. vm_compute. reflexivity. Qed.

Example askOpenClaw_error_body_is_not_parsed :
  option_map fst
    (askOpenClaw example_config
       (answering 429 (dq "{'error':{'message':'rate limited'}}")) 0 "status?" initial_state)
  = Some ("[http-429] " ++ dq "{'error':{'message':'rate limited'}}").
Proof. vm_compute. reflexivity. Qed.

Example askOpenClaw_not_json :
  option_map fst
    (askOpenClaw example_config (answering 200 "not json") 0 "status?" initial_state)
  = Some "[json-parse-error] InvalidInput".
Proof. vm_compute. reflexivity. Qed.

Example askOpenClaw_error_before_reply :
  option_map fst
    (askOpenClaw example_config
       (answering 200
          (dq "{'choices':[{'message':{'content':'hi'}}],'error':{'message':'overloaded'}}"))
       0 "status?" initial_state)
  = Some "[openclaw-error] overloaded".
Proof. vm_compute. reflexivity. Qed.

Example askOpenClaw_reads_the_first_choice_only :
  option_map fst
    (askOpenClaw example_config
       (answering 200 (dq "{'choices':[{},{'message':{'content':'second'}}]}"))
       0 "status?" initial_state)
  = Some "[openclaw-error] missing choices[0].message.content".
Proof. vm_compute. reflexivity. Qed.

Example askOpenClaw_reply_up_to_nul :
  option_map fst
    (askOpenClaw example_config
       (answering 200 (dq "{'choices':[{'message':{'content':'up\u0000to'}}]}"))
       0 "status?" initial_state)
  = Some "up".
Proof. vm_compute. reflexivity. Qed.

(** The classification on the answers of section 8 of the specification. *)
Example classify_rate_limited :
  classify JsonText.deserialize 200 (dq "{'error':{'message':'rate limited'}}")
  = GatewayError "rate limited".
Proof. reflexivity. Qed.

Example classify_internal_error :
  classify JsonText.deserialize 500 "internal error" = HttpError 500 "internal error"
  /\ display (HttpError 500 "internal error") = "[http-500] internal error".
Proof. split; reflexivity. Qed.

Example classify_not_json :
  classify JsonText.deserialize 200 "not json" = ParseError "InvalidInput".
Proof. reflexivity. Qed.

Example classify_missing_content :
  classify JsonText.deserialize 200 (dq "{'choices':[{}]}") = SchemaError.
Proof. reflexivity. Qed.

Example classify_error_before_reply :
  classify JsonText.deserialize 200
    (dq "{'choices':[{'message':{'content':'hi'}}],'error':{'message':'overloaded'}}")
  = GatewayError "overloaded".
Proof. reflexivity. Qed.

Example classify_transport_failure :
  classify JsonText.deserialize (-11) EmptyString = TransportError (-11)
  /\ display (TransportError (-11)) = "[http-error] POST failed: -11".
Proof. split; reflexivity. Qed.

(** ** C7: the request body and the reply *)

Import JsonText.

Lemma requestDocument_shape (cfg : Config) (prompt : string) :
  requestDocument cfg prompt = chatRequest (OPENCLAW_MODEL cfg) (OPENCLAW_USER cfg) prompt.
Proof. reflexivity. Qed.

Lemma serialize_chatRequest (model user prompt : string) :
  serialize (chatRequest model user prompt)
  = dq "{'model':" ++ literal model ++ dq ",'user':" ++ literal user
    ++ dq ",'messages':[{'role':'user','content':" ++ literal prompt ++ "}]}".
Proof.
  cbn. unfold literal. repeat first [rewrite append_assoc | progress cbn]. reflexivity.
Qed.

Lemma parse_escape_char (c : ascii) (tail rest : string) (decoded : string) :
  parse_string_body tail = Done decoded rest ->
  parse_string_body (escape_char c ++ tail) = Done (String c decoded) rest.
Proof.
  intro H.
  destruct c as [[] [] [] [] [] [] [] []]; cbn; rewrite H; reflexivity.
Qed.

(** The characters of a literal decode to the string it was made from. *)
Lemma parse_escape (s rest : string) :
  parse_string_body (escape s ++ String quote rest) = Done s rest.
Proof.
  induction s as [|c s IH]; [reflexivity|].
  cbn [escape]. rewrite append_assoc. now apply parse_escape_char.
Qed.

Lemma escape_char_printable (c : ascii) :
  all_chars (fun x => 32 <=? code x) (escape_char c) = true.
Proof. destruct c as [[] [] [] [] [] [] [] []]; reflexivity. Qed.

Lemma escape_printable (s : string) :
  all_chars (fun x => 32 <=? code x) (escape s) = true.
Proof.
  induction s as [|c s IH]; [reflexivity|].
  cbn [escape]. now rewrite all_chars_append, escape_char_printable, IH.
Qed.

Lemma parse_value_literal (fuel : nat) (s rest : string) :
  parse_value (S fuel) (literal s ++ rest) = Done (JString s) rest.
Proof.
  unfold literal. cbn. rewrite append_assoc. cbn. now rewrite parse_escape.
Qed.

Lemma parse_members_entry (fuel : nat) (key body : string) (acc : list (string * JsonVariant)) :
  parse_members (S fuel) (literal key ++ String ":" body) acc
  = match parse_value fuel body with
    | Failed e => Failed e
    | Done v s4 =>
        match skip_spaces s4 with
        | EmptyString => Failed IncompleteInput
        | String c s5 =>
            if Ascii.eqb c "," then parse_members fuel s5 (assign key v acc)
            else if Ascii.eqb c "}" then Done (assign key v acc) s5
            else Failed InvalidInput
        end
    end.
Proof.
  unfold literal. cbn. rewrite append_assoc. cbn. rewrite parse_escape. cbn. reflexivity.
Qed.

Lemma parse_value_object (fuel : nat) (rest : string) :
  parse_value (S fuel) (String "{" rest)
  = match skip_spaces rest with
    | String "}" rest' => Done (JObject []) rest'
    | _ => map_done JObject (parse_members fuel rest [])
    end.
Proof. reflexivity. Qed.

Lemma parse_value_array (fuel : nat) (rest : string) :
  parse_value (S fuel) (String "[" rest)
  = match skip_spaces rest with
    | String "]" rest' => Done (JArray []) rest'
    | _ => map_done JArray (parse_elements fuel rest)
    end.
Proof. reflexivity. Qed.

Lemma parse_elements_step (fuel : nat) (s : string) :
  parse_elements (S fuel) s
  = match parse_value fuel s with
    | Failed e => Failed e
    | Done v rest =>
        match skip_spaces rest with
        | EmptyString => Failed IncompleteInput
        | String c rest' =>
            if Ascii.eqb c "," then map_done (cons v) (parse_elements fuel rest')
            else if Ascii.eqb c "]" then Done [v] rest'
            else Failed InvalidInput
        end
    end.
Proof. reflexivity. Qed.

Lemma parse_members_at (fuel : nat) (key body text : string)
    (acc : list (string * JsonVariant)) :
  text = literal key ++ String ":" body ->
  parse_members (S fuel) text acc
  = match parse_value fuel body with
    | Failed e => Failed e
    | Done v s4 =>
        match skip_spaces s4 with
        | EmptyString => Failed IncompleteInput
        | String c s5 =>
            if Ascii.eqb c "," then parse_members fuel s5 (assign key v acc)
            else if Ascii.eqb c "}" then Done (assign key v acc) s5
            else Failed InvalidInput
        end
    end.
Proof. intros ->. apply parse_members_entry. Qed.

Lemma parse_value_literal_at (fuel : nat) (s rest text : string) :
  text = literal s ++ rest -> parse_value (S fuel) text = Done (JString s) rest.
Proof. intros ->. apply parse_value_literal. Qed.

Ltac json_tokens :=
  cbn [skip_spaces is_space Ascii.eqb Bool.eqb orb andb negb map_done append].

(** The parser reads back the document a request body was written from,
    whatever the model name, the user label and the prompt. *)
Lemma deserialize_serialize_chatRequest (model user prompt : string) :
  deserialize (serialize (chatRequest model user prompt))
  = (Ok, chatRequest model user prompt).
Proof.
  unfold deserialize.
  remember (serialize (chatRequest model user prompt)) as text eqn:Etext.
  assert (Hlen : exists n, (2 * String.length text + 2 = 10 + n)%nat).
  { exists (2 * String.length text - 8)%nat. subst text. cbn. lia. }
  destruct Hlen as [n ->]. subst text. rewrite serialize_chatRequest.
  cbn [dq list_ascii_of_string map string_of_list_ascii Nat.add]. json_tokens.
  rewrite parse_value_object. json_tokens.
  erewrite (parse_members_at _ "model") by reflexivity.
  rewrite parse_value_literal. json_tokens.
  erewrite (parse_members_at _ "user") by reflexivity.
  rewrite parse_value_literal. json_tokens.
  erewrite (parse_members_at _ "messages") by reflexivity.
  rewrite parse_value_array. json_tokens.
  rewrite parse_elements_step, parse_value_object. json_tokens.
  erewrite (parse_members_at _ "role") by reflexivity.
  erewrite (parse_value_literal_at _ "user") by reflexivity. json_tokens.
  erewrite (parse_members_at _ "content") by reflexivity.
  rewrite parse_value_literal. json_tokens.
  reflexivity.
Qed.

(** C7.  The document [askOpenClaw] builds for a prompt is the chat
    request of the wire protocol: the model, the user label and one
    message with role ["user"] and the prompt as its content; serialized,
    it is the text [{"model":M,"user":U,"messages":[{"role":"user","content":P}]}]
    in which [M], [U] and [P] are string literals.  A literal has every
    quote, backslash and control character escaped (no character below
    32 is left in it) and decodes to the string it was made from, so the
    parser reads the document back from the body, whatever the prompt.
    For the prompt [hello "world"] the body carries [hello \"world\"].
    The answer [{"choices":[{"message":{"content":"hi"}}]}] to a status
    code of the success range is classified as [Reply "hi"], and
    [askOpenClaw] returns ["hi"] for it. *)
Theorem chat_request_round_trip :
  (forall cfg prompt,
      requestDocument cfg prompt
      = chatRequest (OPENCLAW_MODEL cfg) (OPENCLAW_USER cfg) prompt)
  /\ (forall model user prompt,
        serialize (chatRequest model user prompt)
        = dq "{'model':" ++ literal model ++ dq ",'user':" ++ literal user
          ++ dq ",'messages':[{'role':'user','content':" ++ literal prompt ++ "}]}")
  /\ (forall s rest, parse_string_body (escape s ++ String quote rest) = Done s rest)
  /\ (forall s, all_chars (fun c => 32 <=? code c) (escape s) = true)
  /\ (forall model user prompt,
        deserialize (serialize (chatRequest model user prompt))
        = (Ok, chatRequest model user prompt))
  /\ serialize (requestDocument example_config (dq "hello 'world'"))
     = dq ("{'model':'openclaw','user':'esp32-speaker',"
           ++ "'messages':[{'role':'user','content':'hello \'world\''}]}")
  /\ (forall code, 0 < code < 400 ->
        classify deserialize code (dq "{'choices':[{'message':{'content':'hi'}}]}")
        = Reply "hi")
  /\ (forall cfg mac wifi ip i2c begin post fuel prompt s s1 code,
        let plat := textPlatform mac wifi ip i2c begin post in
        let request := gatewayRequest cfg plat (g_sessionKey s1) prompt in
        connectWifiBlocking cfg plat fuel s = Some (tt, s1) ->
        begin (buildGatewayUrl cfg) = true ->
        post (httpPosts s1) request = (code, dq "{'choices':[{'message':{'content':'hi'}}]}") ->
        0 < code < 400 ->
        askOpenClaw cfg plat fuel prompt s = Some ("hi", posted request s1)
        /\ req_body request = serialize (requestDocument cfg prompt)).
Proof.
  assert (Hhi : forall code, 0 < code < 400 ->
            classify deserialize code (dq "{'choices':[{'message':{'content':'hi'}}]}")
            = Reply "hi").
  { intros code [H0 H400]. unfold classify.
    apply Z.leb_gt in H0. apply Z.leb_gt in H400. now rewrite H0, H400. }
  split; [exact requestDocument_shape|].
  split; [exact serialize_chatRequest|].
  split; [exact parse_escape|].
  split; [exact escape_printable|].
  split; [exact deserialize_serialize_chatRequest|].
  split; [reflexivity|].
  split; [exact Hhi|].
  intros cfg mac wifi ip i2c begin post fuel prompt s s1 code plat request Hlink Hbegin Hpost Hcode.
  split; [|reflexivity].
  rewrite (askOpenClaw_exchange cfg plat fuel prompt s s1 Hlink Hbegin).
  cbn [httpPOST plat textPlatform deserializeJson].
  fold plat. fold request. rewrite Hpost. cbn [fst snd]. now rewrite (Hhi code Hcode).
Qed.

Lemma chat_request_round_trip_witness :
  askOpenClaw example_config
    (textPlatform 0 (fun _ => true) "10.0.0.7" (fun _ => true) (fun _ => true)
       (fun _ _ => (200, dq "{'choices':[{'message':{'content':'hi'}}]}")))
    0 (dq "hello 'world'") initial_state
  = Some ("hi",
          posted (gatewayRequest example_config
                    (textPlatform 0 (fun _ => true) "10.0.0.7" (fun _ => true) (fun _ => true)
                       (fun _ _ => (200, dq "{'choices':[{'message':{'content':'hi'}}]}")))
                    EmptyString (dq "hello 'world'"))
                 (polled 1 initial_state)).
Proof.
  exact (proj1 (proj2 (proj2 (proj2 (proj2 (proj2 (proj2 (proj2 chat_request_round_trip))))))
                 example_config 0 (fun _ => true) "10.0.0.7" (fun _ => true) (fun _ => true)
                 (fun _ _ => (200, dq "{'choices':[{'message':{'content':'hi'}}]}"))
                 0%nat (dq "hello 'world'") initial_state (polled 1 initial_state) 200
                 eq_refl eq_refl eq_refl (conj eq_refl eq_refl))).
Defined.

(** ** C4, C5: the serial line producer *)

Lemma with_inputLine_same (s : State) : with_inputLine (g_inputLine s) s = s.
Proof. destruct s; reflexivity. Qed.

Lemma take_zero (s : string) : take 0 s = EmptyString.
Proof. destruct s; reflexivity. Qed.

Lemma take_empty (n : nat) : take n EmptyString = EmptyString.
Proof. destruct n; reflexivity. Qed.

Lemma take_succ (n : nat) (c : ascii) (s : string) :
  take (S n) (String c s) = String c (take n s).
Proof. reflexivity. Qed.

Lemma length_take (n : nat) (s : string) :
  String.length (take n s) = Nat.min n (String.length s).
Proof.
  revert n. induction s as [|c s IH]; intros [|n]; try reflexivity.
  rewrite take_succ. simpl. now rewrite IH.
Qed.

Lemma discard_cr_none (s : string) : no_carriage_return s -> discard_cr s = s.
Proof.
  unfold no_carriage_return, discard_cr.
  induction s as [|c s IH]; [reflexivity|]. simpl. intro H.
  apply andb_prop in H. destruct H as [Hc Hs]. rewrite Hc. f_equal. now apply IH.
Qed.

Section SerialProducer.

Variable consume : string -> M unit.

Lemma serialProducer_append (a b : string) (s : State) :
  serialProducer consume (a ++ b) s
  = bind (serialProducer consume a) (fun _ => serialProducer consume b) s.
Proof.
  revert s. induction a as [|c a IH]; intro s; [reflexivity|].
  cbn [append serialProducer].
  destruct (Ascii.eqb c "013"); [apply IH|].
  destruct (Ascii.eqb c "010").
  - repeat first [rewrite bind_bind | rewrite bind_gets | rewrite bind_modify]; cbv beta.
    apply bind_ext. intros _ s'. apply IH.
  - repeat first [rewrite bind_bind | rewrite bind_gets]; cbv beta.
    apply bind_ext. intros _ s'. apply IH.
Qed.

(** A newline submits the pending line and empties the buffer. *)
Lemma serialProducer_newline (rest : string) (s : State) :
  serialProducer consume (String "010" rest) s
  = bind (consume (g_inputLine s)) (fun _ => serialProducer consume rest)
         (with_inputLine EmptyString s).
Proof. reflexivity. Qed.

(** Without a newline nothing is submitted: the characters other than
    carriage returns are appended while there is room. *)
Lemma serialProducer_accumulates (rx : string) :
  forall s : State,
    no_newline rx -> (String.length (g_inputLine s) <= 512)%nat ->
    serialProducer consume rx s
    = Some (tt, with_inputLine
                  (g_inputLine s
                   ++ take (512 - String.length (g_inputLine s)) (discard_cr rx)) s).
Proof.
  unfold no_newline, discard_cr.
  induction rx as [|c rx IH]; intros s Hnl Hlen.
  - cbn [serialProducer filter_chars].
    rewrite take_empty, append_nil_r, with_inputLine_same. reflexivity.
  - cbn [all_chars] in Hnl. apply andb_prop in Hnl. destruct Hnl as [Hc Hnl].
    unfold is_newline in Hc. apply negb_true_iff in Hc.
    cbn [serialProducer filter_chars]. unfold is_carriage_return at 1.
    destruct (Ascii.eqb c "013"); cbn [negb]; [now apply IH|].
    rewrite Hc, bind_gets.
    destruct (Nat.ltb_spec (String.length (g_inputLine s)) 512) as [Hroom|Hfull].
    + rewrite bind_modify, IH; [|exact Hnl|].
      * cbn [g_inputLine with_inputLine]. rewrite length_append_char.
        replace (512 - String.length (g_inputLine s))%nat
          with (S (512 - S (String.length (g_inputLine s))))%nat by lia.
        rewrite take_succ. unfold append_char. rewrite append_assoc. reflexivity.
      * cbn [g_inputLine with_inputLine]. rewrite length_append_char. lia.
    + rewrite bind_ret_l, IH by assumption.
      replace (512 - String.length (g_inputLine s))%nat with 0%nat by lia.
      now rewrite !take_zero.
Qed.

(** A whole line: the characters up to the newline, then the newline. *)
Lemma serialProducer_line (cs : string) (s : State) :
  g_inputLine s = EmptyString -> no_newline cs ->
  serialProducer consume (cs ++ LF) s
  = consume (take 512 (discard_cr cs)) (with_inputLine EmptyString s).
Proof.
  intros Hempty Hnl. rewrite serialProducer_append.
  erewrite bind_some; [|apply serialProducer_accumulates; [exact Hnl | rewrite Hempty; simpl; lia]].
  unfold LF. rewrite serialProducer_newline.
  cbn [g_inputLine with_inputLine serialProducer]. rewrite Hempty.
  cbn [String.length append Nat.sub]. rewrite ?Nat.sub_0_r.
  unfold bind. destruct (consume _ _) as [[[] s']|]; reflexivity.
Qed.

End SerialProducer.

Section Frame.

Variable cfg : Config.
Variable plat : Platform.

Lemma connectWifiBlocking_line (fuel : nat) (s : State) (u : unit) (s' : State) :
  connectWifiBlocking cfg plat fuel s = Some (u, s') -> g_inputLine s' = g_inputLine s.
Proof.
  intro H. apply connectWifiBlocking_returns in H.
  destruct H as (n & es & _ & _ & ->). reflexivity.
Qed.

Lemma askOpenClaw_line (fuel : nat) (prompt : string) (s : State) (r : string) (s' : State) :
  askOpenClaw cfg plat fuel prompt s = Some (r, s') -> g_inputLine s' = g_inputLine s.
Proof.
  unfold askOpenClaw. unfold bind at 1.
  destruct (connectWifiBlocking cfg plat fuel s) as [[u s1]|] eqn:E; [|discriminate].
  apply connectWifiBlocking_line in E. rewrite <- E.
  destruct (negb (httpBegin plat (buildGatewayUrl cfg))).
  - intro H. injection H as _ <-. reflexivity.
  - rewrite bind_gets. unfold bind, http_POST.
    destruct (httpPOST plat _ _) as [code raw].
    destruct (code <=? 0); [|destruct (code >=? 400)];
      intro H; injection H as _ <-; reflexivity.
Qed.

Lemma runPrompt_preserves_line (fuel : nat) : preserves_line (runPrompt cfg plat fuel).
Proof.
  intros prompt s u s'. unfold runPrompt.
  destruct (String.length prompt =? 0)%nat.
  - intro H. injection H as _ <-. reflexivity.
  - unfold Serial_println, Serial_print. rewrite !bind_emit.
    unfold bind at 1.
    destruct (askOpenClaw cfg plat fuel prompt _) as [[r s1]|] eqn:E; [|discriminate].
    apply askOpenClaw_line in E. rewrite !bind_emit. unfold emit, modify.
    intro H. injection H as _ <-. exact E.
Qed.

End Frame.

(** The pending line never grows beyond the cap. *)
Lemma serialProducer_bounded (consume : string -> M unit) (rx : string) :
  preserves_line consume ->
  forall (s : State) (u : unit) (s' : State),
    (String.length (g_inputLine s) <= 512)%nat ->
    serialProducer consume rx s = Some (u, s') ->
    (String.length (g_inputLine s') <= 512)%nat.
Proof.
  intro Hframe. induction rx as [|c rx IH]; intros s u s' Hlen H.
  - injection H as _ <-. exact Hlen.
  - cbn [serialProducer] in H.
    destruct (Ascii.eqb c "013"); [now apply (IH s u s')|].
    destruct (Ascii.eqb c "010").
    + rewrite bind_gets, bind_modify in H. unfold bind in H.
      destruct (consume _ _) as [[[] s1]|] eqn:E; [|discriminate].
      apply Hframe in E. apply (IH s1 u s'); [|exact H].
      rewrite E. simpl. lia.
    + rewrite bind_gets in H.
      destruct (Nat.ltb_spec (String.length (g_inputLine s)) 512) as [Hroom|Hfull].
      * rewrite bind_modify in H. apply (IH _ u s') in H; [exact H|].
        cbn [g_inputLine with_inputLine]. rewrite length_append_char. lia.
      * rewrite bind_ret_l in H. now apply (IH s u s').
Qed.

(** With the recording consumer the producer always returns, and what
    it has submitted are lines of at most 512 characters. *)
Lemma serialProducer_record_bounded (rx : string) :
  forall s : State,
    (String.length (g_inputLine s) <= 512)%nat ->
    exists (s' : State) (prompts : list string),
      serialProducer record rx s = Some (tt, s')
      /\ effects s' = (effects s ++ map SerialWrite prompts)%list
      /\ Forall (fun p => (String.length p <= 512)%nat) prompts
      /\ (String.length (g_inputLine s') <= 512)%nat.
Proof.
  induction rx as [|c rx IH]; intros s Hlen.
  - exists s, []. cbn. rewrite app_nil_r. repeat split; [constructor | exact Hlen].
  - cbn [serialProducer].
    destruct (Ascii.eqb c "013"); [now apply IH|].
    destruct (Ascii.eqb c "010").
    + rewrite bind_gets, bind_modify. unfold record at 1. rewrite bind_emit.
      destruct (IH (observed [SerialWrite (g_inputLine s)] (with_inputLine EmptyString s)))
        as (s' & prompts & Hrun & Heff & Hall & Hlen'); [simpl; lia|].
      exists s', (g_inputLine s :: prompts). split; [exact Hrun|].
      split; [|split; [constructor; assumption | exact Hlen']].
      rewrite Heff. cbn. now rewrite <- app_assoc.
    + rewrite bind_gets.
      destruct (Nat.ltb_spec (String.length (g_inputLine s)) 512) as [Hroom|Hfull].
      * rewrite bind_modify.
        destruct (IH (with_inputLine (append_char (g_inputLine s) c) s))
          as (s' & prompts & Hrun & Heff & Hall & Hlen').
        { cbn [g_inputLine with_inputLine]. rewrite length_append_char. lia. }
        exists s', prompts. repeat split; assumption.
      * rewrite bind_ret_l. now apply IH.
Qed.

(** C4.  Let the characters typed on the serial console contain no
    newline and, carriage returns apart, make a prompt [P] of at most 512
    characters.  Fed to the serial producer with a newline after them,
    into an empty buffer, they make it call the consumer exactly once,
    with [P], the buffer being empty at that moment; carriage returns are
    not part of [P], and without any [P] is what was typed.  Recorded,
    the run shows the single prompt [P] and an empty buffer at the end;
    in the firmware the run is one call of [runPrompt] with [P], and
    the buffer is empty when it returns. *)
Theorem serial_line_submits_one_prompt
    (consume : string -> M unit) (typed : string) (s : State) :
  g_inputLine s = EmptyString ->
  no_newline typed ->
  (String.length (discard_cr typed) <= 512)%nat ->
  serialProducer consume (typed ++ LF) s = consume (discard_cr typed) s
  /\ (no_carriage_return typed -> discard_cr typed = typed)
  /\ serialProducer record (typed ++ LF) s
     = Some (tt, observed [SerialWrite (discard_cr typed)] s)
  /\ g_inputLine (observed [SerialWrite (discard_cr typed)] s) = EmptyString
  /\ (forall cfg plat fuel,
        handleSerialInput cfg plat fuel (typed ++ LF) s
        = runPrompt cfg plat fuel (discard_cr typed) s
        /\ (forall u s', handleSerialInput cfg plat fuel (typed ++ LF) s = Some (u, s') ->
                         g_inputLine s' = EmptyString)).
Proof.
  intros Hempty Hnl Hlen.
  assert (Hline : forall c, serialProducer c (typed ++ LF) s = c (discard_cr typed) s).
  { intro c. rewrite serialProducer_line by assumption.
    unfold take. rewrite substring_all by exact Hlen.
    rewrite <- Hempty at 1. now rewrite with_inputLine_same. }
  split; [apply Hline|]. split; [apply discard_cr_none|].
  split; [apply Hline|]. split; [exact Hempty|].
  intros cfg plat fuel. split; [apply Hline|].
  intros u s' Hrun. unfold handleSerialInput in Hrun. rewrite Hline in Hrun.
  apply runPrompt_preserves_line in Hrun. now rewrite Hrun.
Qed.

Lemma serial_line_submits_one_prompt_witness :
  serialProducer record (("hello" ++ String "013" EmptyString) ++ LF) initial_state
  = Some (tt, observed [SerialWrite "hello"] initial_state).
Proof.
  apply (proj1 (proj2 (proj2
           (serial_line_submits_one_prompt record ("hello" ++ String "013" EmptyString)
              initial_state eq_refl eq_refl ltac:(simpl; lia))))).
Defined.

(** C5.  Whatever is typed before a newline, the prompt submitted at the
    newline is made of the first 512 characters that are not carriage
    returns: what arrives once the buffer holds 512 characters is
    dropped, and the next line starts from an empty buffer.  The pending
    line never holds more than 512 characters, and no prompt is longer:
    this holds after any input, for the recorded run (which always
    returns) and for the firmware's [handleSerialInput] whenever it
    returns. *)
Theorem serial_line_is_capped
    (consume : string -> M unit) (typed : string) (s : State) :
  g_inputLine s = EmptyString ->
  no_newline typed ->
  serialProducer consume (typed ++ LF) s = consume (take 512 (discard_cr typed)) s
  /\ String.length (take 512 (discard_cr typed))
     = Nat.min 512 (String.length (discard_cr typed))
  /\ (forall rx s0,
        (String.length (g_inputLine s0) <= 512)%nat ->
        exists (s' : State) (prompts : list string),
          serialProducer record rx s0 = Some (tt, s')
          /\ effects s' = (effects s0 ++ map SerialWrite prompts)%list
          /\ Forall (fun p => (String.length p <= 512)%nat) prompts
          /\ (String.length (g_inputLine s') <= 512)%nat)
  /\ (forall cfg plat fuel rx s0 u s',
        (String.length (g_inputLine s0) <= 512)%nat ->
        handleSerialInput cfg plat fuel rx s0 = Some (u, s') ->
        (String.length (g_inputLine s') <= 512)%nat).
Proof.
  intros Hempty Hnl. split; [|split; [|split]].
  - rewrite serialProducer_line by assumption.
    rewrite <- Hempty at 1. now rewrite with_inputLine_same.
  - apply length_take.
  - intros rx s0. apply serialProducer_record_bounded.
  - intros cfg plat fuel rx s0 u s' Hlen Hrun.
    apply (serialProducer_bounded (runPrompt cfg plat fuel) rx
             (runPrompt_preserves_line cfg plat fuel) s0 u s' Hlen Hrun).
Qed.

Lemma serial_line_is_capped_witness :
  serialProducer record (replicate 600 "a" ++ LF) initial_state
  = Some (tt, observed [SerialWrite (replicate 512 "a")] initial_state).
Proof.
  apply (proj1 (serial_line_is_capped record (replicate 600 "a") initial_state
                  eq_refl ltac:(vm_compute; reflexivity))).
Defined.

(** ** C6, C10: the debounced button *)

Section ButtonProducer.

Variable cfg : Config.
Variable consume : string -> M unit.

(** The guard of both branches is the elapsed time on the 32-bit clock. *)
Lemma button_guard (millis : Z) (s : State) :
  (u32 (u32 millis - g_lastBootEdgeMs s) >? 60)
  = (debounce_ms <? elapsed_ms (g_lastBootEdgeMs s) (u32 millis)).
Proof. unfold elapsed_ms, debounce_ms, u32. apply Z.gtb_ltb. Qed.

Lemma buttonProducer_cases (level millis : Z) (s : State) :
  buttonProducer cfg consume level millis s
  = if (level =? LOW) && negb (g_bootLatched s)
       && (debounce_ms <? elapsed_ms (g_lastBootEdgeMs s) (u32 millis))
    then consume (OPENCLAW_BUTTON_PROMPT cfg) (with_bootEdge true (u32 millis) s)
    else if (level =? HIGH) && g_bootLatched s
            && (debounce_ms <? elapsed_ms (g_lastBootEdgeMs s) (u32 millis))
    then Some (tt, with_bootEdge false (u32 millis) s)
    else Some (tt, s).
Proof.
  unfold buttonProducer. rewrite !bind_gets, button_guard.
  destruct (_ && _ && _); [now rewrite bind_modify|].
  destruct (_ && _ && _); reflexivity.
Qed.

Lemma buttonProducer_press (millis : Z) (s : State) :
  g_bootLatched s = false ->
  debounce_ms < elapsed_ms (g_lastBootEdgeMs s) (u32 millis) ->
  buttonProducer cfg consume LOW millis s
  = consume (OPENCLAW_BUTTON_PROMPT cfg) (with_bootEdge true (u32 millis) s).
Proof.
  intros Hl Hg. rewrite buttonProducer_cases, Hl.
  apply Z.ltb_lt in Hg. now rewrite Hg.
Qed.

Lemma buttonProducer_release (millis : Z) (s : State) :
  g_bootLatched s = true ->
  debounce_ms < elapsed_ms (g_lastBootEdgeMs s) (u32 millis) ->
  buttonProducer cfg consume HIGH millis s = Some (tt, with_bootEdge false (u32 millis) s).
Proof.
  intros Hl Hg. rewrite buttonProducer_cases, Hl.
  apply Z.ltb_lt in Hg. now rewrite Hg.
Qed.

(** While the latch is set the consumer is not called. *)
Lemma buttonProducer_latched (level millis : Z) (s : State) :
  g_bootLatched s = true ->
  buttonProducer cfg consume level millis s
  = Some (tt, if (level =? HIGH) && (debounce_ms <? elapsed_ms (g_lastBootEdgeMs s) (u32 millis))
              then with_bootEdge false (u32 millis) s
              else s).
Proof.
  intro Hl. rewrite buttonProducer_cases, Hl.
  rewrite andb_false_r. cbn [andb]. rewrite andb_true_r.
  destruct (_ && _); reflexivity.
Qed.

(** Within the window nothing is recognised, whatever the level. *)
Lemma buttonProducer_within_window (level millis : Z) (s : State) :
  elapsed_ms (g_lastBootEdgeMs s) (u32 millis) <= debounce_ms ->
  buttonProducer cfg consume level millis s = Some (tt, s).
Proof.
  intro Hg. rewrite buttonProducer_cases.
  apply Z.ltb_ge in Hg. now rewrite Hg, !andb_false_r.
Qed.

Lemma buttonPolls_within_window (polls : list (Z * Z)) (s : State) :
  Forall (fun p => elapsed_ms (g_lastBootEdgeMs s) (u32 (snd p)) <= debounce_ms) polls ->
  buttonPolls cfg consume polls s = Some (tt, s).
Proof.
  induction 1 as [|[level millis] polls Hp _ IH]; [reflexivity|].
  cbn [buttonPolls]. erewrite bind_some; [exact IH|].
  now apply buttonProducer_within_window.
Qed.

Lemma buttonPolls_held (polls : list (Z * Z)) (s : State) :
  g_bootLatched s = true ->
  Forall (fun p => fst p <> HIGH) polls ->
  buttonPolls cfg consume polls s = Some (tt, s).
Proof.
  intro Hl. induction 1 as [|[level millis] polls Hp _ IH]; [reflexivity|].
  cbn [buttonPolls]. erewrite bind_some; [exact IH|].
  rewrite buttonProducer_latched by exact Hl.
  cbn [fst] in Hp. apply Z.eqb_neq in Hp. now rewrite Hp.
Qed.

(** The latch stays set, and nothing is submitted, as long as no poll
    reads a high level outside the window. *)
Lemma buttonPolls_latch_kept (polls : list (Z * Z)) (s : State) :
  g_bootLatched s = true ->
  Forall (fun p => fst p <> HIGH
                   \/ elapsed_ms (g_lastBootEdgeMs s) (u32 (snd p)) <= debounce_ms) polls ->
  buttonPolls cfg consume polls s = Some (tt, s).
Proof.
  intro Hl. induction 1 as [|[level millis] polls Hp _ IH]; [reflexivity|].
  cbn [buttonPolls]. erewrite bind_some; [exact IH|].
  rewrite buttonProducer_latched by exact Hl. cbn [fst snd] in Hp.
  destruct Hp as [Hp|Hp].
  - apply Z.eqb_neq in Hp. now rewrite Hp.
  - apply Z.ltb_ge in Hp. now rewrite Hp, andb_false_r.
Qed.

Lemma buttonPolls_append (a b : list (Z * Z)) (s : State) :
  buttonPolls cfg consume (a ++ b) s
  = bind (buttonPolls cfg consume a) (fun _ => buttonPolls cfg consume b) s.
Proof.
  revert s. induction a as [|[level millis] a IH]; intro s; [reflexivity|].
  cbn [app buttonPolls]. rewrite bind_bind. apply bind_ext. intros _ s'. apply IH.
Qed.

End ButtonProducer.

(** While no poll reads a high level, at most one prompt is submitted. *)
Lemma buttonPolls_one_press (cfg : Config) (polls : list (Z * Z)) :
  Forall (fun p => fst p <> HIGH) polls ->
  forall s : State,
    exists s' : State,
      buttonPolls cfg record polls s = Some (tt, s')
      /\ (effects s' = effects s
          \/ effects s' = (effects s ++ [SerialWrite (OPENCLAW_BUTTON_PROMPT cfg)])%list).
Proof.
  induction 1 as [|[level millis] polls Hp Hrest IH]; intro s.
  - exists s. split; [reflexivity | now left].
  - cbn [fst] in Hp.
    pose proof (buttonProducer_cases cfg record level millis s) as E.
    replace (level =? HIGH) with false in E by (symmetry; now apply Z.eqb_neq).
    cbn [andb] in E.
    destruct (_ && _ && _).
    + exists (observed [SerialWrite (OPENCLAW_BUTTON_PROMPT cfg)]
                (with_bootEdge true (u32 millis) s)).
      split; [|now right].
      cbn [buttonPolls]. rewrite (bind_some _ _ _ _ _ E).
      now apply buttonPolls_held.
    + destruct (IH s) as (s' & Hrun & Heff). exists s'. split; [|exact Heff].
      cbn [buttonPolls]. now rewrite (bind_some _ _ _ _ _ E).
Qed.

(** C6 (as amended).  A low level read while the latch is clear and
    more than 60 ms after the last recognised edge (on the 32-bit
    millisecond clock) sets the latch, takes the time as the new edge and
    submits the configured button prompt, once.  Whatever is read during
    the 60 ms that follow, a second falling transition included, is
    ignored: the recorded run shows exactly one prompt.  A high level
    read while the latch is set and more than 60 ms after the last
    recognised edge clears the latch and submits nothing. *)
Theorem button_press_is_debounced (cfg : Config) (consume : string -> M unit) :
  (forall millis s,
      g_bootLatched s = false ->
      debounce_ms < elapsed_ms (g_lastBootEdgeMs s) (u32 millis) ->
      buttonProducer cfg consume LOW millis s
      = consume (OPENCLAW_BUTTON_PROMPT cfg) (with_bootEdge true (u32 millis) s))
  /\ (forall millis polls s,
        g_bootLatched s = false ->
        debounce_ms < elapsed_ms (g_lastBootEdgeMs s) (u32 millis) ->
        Forall (fun p => elapsed_ms (u32 millis) (u32 (snd p)) <= debounce_ms) polls ->
        buttonPolls cfg record ((LOW, millis) :: polls) s
        = Some (tt, observed [SerialWrite (OPENCLAW_BUTTON_PROMPT cfg)]
                      (with_bootEdge true (u32 millis) s)))
  /\ (forall millis s,
        g_bootLatched s = true ->
        debounce_ms < elapsed_ms (g_lastBootEdgeMs s) (u32 millis) ->
        buttonProducer cfg consume HIGH millis s
        = Some (tt, with_bootEdge false (u32 millis) s)).
Proof.
  split; [|split].
  - intros millis s. apply buttonProducer_press.
  - intros millis polls s Hl Hg Hwindow.
    cbn [buttonPolls]. erewrite bind_some.
    + apply buttonPolls_within_window. exact Hwindow.
    + rewrite buttonProducer_press by assumption. reflexivity.
  - intros millis s. apply buttonProducer_release.
Qed.

Lemma button_press_is_debounced_witness :
  buttonPolls example_config record [(LOW, 1000); (HIGH, 1010); (LOW, 1030)] initial_state
  = Some (tt, observed [SerialWrite "Give me a short status update."]
                (with_bootEdge true 1000 initial_state)).
Proof.
  apply (proj1 (proj2 (button_press_is_debounced example_config record))
           1000 [(HIGH, 1010); (LOW, 1030)] initial_state eq_refl eq_refl).
  repeat constructor; vm_compute; discriminate.
Defined.

(** C6 (as stated) fails at the boundary: 60 ms after the last
    recognised edge, with the latch clear, a low level submits nothing
    and leaves the latch clear. *)
Lemma button_press_after_60ms_is_ignored :
  g_bootLatched initial_state = false
  /\ elapsed_ms (g_lastBootEdgeMs initial_state) 60 >= 60
  /\ buttonProducer example_config record LOW 60 initial_state = Some (tt, initial_state)
  /\ buttonProducer example_config record LOW 60 initial_state
     <> record (OPENCLAW_BUTTON_PROMPT example_config) (with_bootEdge true 60 initial_state).
Proof.
  split; [reflexivity|]. split; [vm_compute; discriminate|].
  split; [reflexivity | vm_compute; discriminate].
Qed.

(** C10.  While the latch is set a poll never calls the consumer: it
    clears the latch when it reads a high level more than 60 ms after the
    last recognised edge, and does nothing otherwise.  So a held button
    submits nothing however many polls are made and whatever the clock
    says; the latch can only be cleared by such a high level; and a
    press-and-release cycle, low levels followed by a high one, submits
    at most one prompt. *)
Theorem button_latch_blocks_prompts (cfg : Config) (consume : string -> M unit) :
  (forall level millis s,
      g_bootLatched s = true ->
      buttonProducer cfg consume level millis s
      = Some (tt, if (level =? HIGH)
                     && (debounce_ms <? elapsed_ms (g_lastBootEdgeMs s) (u32 millis))
                  then with_bootEdge false (u32 millis) s
                  else s))
  /\ (forall polls s,
        g_bootLatched s = true ->
        Forall (fun p => fst p <> HIGH
                         \/ elapsed_ms (g_lastBootEdgeMs s) (u32 (snd p)) <= debounce_ms)
               polls ->
        buttonPolls cfg consume polls s = Some (tt, s))
  /\ (forall level millis s u s',
        g_bootLatched s = true ->
        buttonProducer cfg consume level millis s = Some (u, s') ->
        g_bootLatched s' = false ->
        level = HIGH /\ debounce_ms < elapsed_ms (g_lastBootEdgeMs s) (u32 millis))
  /\ (forall held release s,
        Forall (fun p => fst p <> HIGH) held ->
        exists s',
          buttonPolls cfg record (held ++ [(HIGH, release)]) s = Some (tt, s')
          /\ (effects s' = effects s
              \/ effects s'
                 = (effects s ++ [SerialWrite (OPENCLAW_BUTTON_PROMPT cfg)])%list)).
Proof.
  split; [|split; [|split]].
  - intros level millis s. apply buttonProducer_latched.
  - intros polls s. apply buttonPolls_latch_kept.
  - intros level millis s u s' Hl Hrun Hclear.
    rewrite buttonProducer_latched in Hrun by exact Hl.
    destruct (level =? HIGH) eqn:Hlevel; cbn [andb] in Hrun.
    + destruct (debounce_ms <? _) eqn:Hg.
      * split; [now apply Z.eqb_eq | now apply Z.ltb_lt].
      * injection Hrun as _ <-. congruence.
    + injection Hrun as _ <-. congruence.
  - intros held release s Hheld.
    destruct (buttonPolls_one_press cfg held Hheld s) as (s1 & Hrun & Heff).
    pose proof (buttonProducer_cases cfg record HIGH release s1) as E.
    change (HIGH =? LOW) with false in E. cbn [andb] in E.
    assert (Hlast : exists s', buttonProducer cfg record HIGH release s1 = Some (tt, s')
                               /\ effects s' = effects s1).
    { destruct (_ && _ && _); eexists; (split; [exact E | reflexivity]). }
    destruct Hlast as (s' & Hlast & Hsame). exists s'. split.
    + rewrite buttonPolls_append, (bind_some _ _ _ _ _ Hrun).
      cbn [buttonPolls]. now rewrite (bind_some _ _ _ _ _ Hlast).
    + now rewrite Hsame.
Qed.

Lemma button_latch_blocks_prompts_witness :
  buttonPolls example_config record
    [(LOW, 1010); (LOW, 2000); (LOW, 4294967295); (HIGH, 1050); (LOW, 7)]
    (with_bootEdge true 1000 initial_state)
  = Some (tt, with_bootEdge true 1000 initial_state).
Proof.
  apply (proj1 (proj2 (button_latch_blocks_prompts example_config record))
           [(LOW, 1010); (LOW, 2000); (LOW, 4294967295); (HIGH, 1050); (LOW, 7)]
           (with_bootEdge true 1000 initial_state) eq_refl).
  repeat (apply Forall_cons;
          [first [ left; vm_compute; discriminate | right; vm_compute; discriminate ]|]).
  apply Forall_nil.
Defined.

(** ** C9: the empty prompt *)

(** C9.  For the empty prompt [runPrompt] returns at once and leaves
    the state as it was: nothing is printed, the Wi-Fi status is not
    read, no request is posted (and the call returns even when the link
    is down for good).  So a newline on an empty serial line changes
    nothing, and with an empty button prompt a poll of the button does
    no more than move the latch. *)
Theorem runPrompt_empty_is_noop
    (cfg : Config) (plat : Platform) (fuel : nat) (s : State) :
  runPrompt cfg plat fuel EmptyString s = Some (tt, s)
  /\ (g_inputLine s = EmptyString ->
      handleSerialInput cfg plat fuel LF s = Some (tt, s))
  /\ (OPENCLAW_BUTTON_PROMPT cfg = EmptyString ->
      forall level millis,
      exists s',
        handleBootButton cfg plat fuel level millis s = Some (tt, s')
        /\ effects s' = effects s
        /\ httpPosts s' = httpPosts s
        /\ wifiPolls s' = wifiPolls s
        /\ g_inputLine s' = g_inputLine s).
Proof.
  split; [reflexivity|]. split.
  - intro Hempty. unfold handleSerialInput, LF.
    rewrite serialProducer_newline, Hempty.
    rewrite <- Hempty at 2. rewrite with_inputLine_same. reflexivity.
  - intros Hprompt level millis. unfold handleBootButton.
    pose proof (buttonProducer_cases cfg (runPrompt cfg plat fuel) level millis s) as E.
    rewrite Hprompt in E. change (runPrompt cfg plat fuel EmptyString ?x) with (Some (tt, x)) in E.
    destruct (_ && _ && _); [|destruct (_ && _ && _)];
      eexists; (split; [exact E|]); repeat split.
Qed.

Lemma runPrompt_empty_is_noop_witness :
  handleSerialInput example_config
    (textPlatform 0 (fun _ => false) "0.0.0.0" (fun _ => true) (fun _ => true)
       (fun _ _ => (200, EmptyString)))
    0 LF initial_state
  = Some (tt, initial_state).
Proof.
  apply (proj1 (proj2 (runPrompt_empty_is_noop example_config
                         (textPlatform 0 (fun _ => false) "0.0.0.0" (fun _ => true)
                            (fun _ => true) (fun _ _ => (200, EmptyString)))
                         0 initial_state)) eq_refl).
Defined.

(** * Further properties of the firmware *)

(** ** The device identity and the session key *)

Lemma readDeviceId_digits (mac : Z) :
  readDeviceId mac
  = hexFixed 4 (Z.shiftr mac 32 mod 2 ^ 16) ++ hexFixed 8 (mac mod 2 ^ 32).
Proof.
  unfold readDeviceId, snprintf_truncate.
  rewrite (printf_0X_fixed 4).
  - rewrite (printf_0X_fixed 8).
    + unfold u16, u32. rewrite substring_all; [reflexivity|].
      rewrite length_append, !length_hexFixed. simpl. lia.
    + lia.
    + unfold u32. change (16 ^ Z.of_nat 8) with (2 ^ 32). apply Z.mod_pos_bound. lia.
  - lia.
  - unfold u16. change (16 ^ Z.of_nat 4) with (2 ^ 16). apply Z.mod_pos_bound. lia.
Qed.

Lemma readDeviceId_number (mac : Z) : hex_number 0 (readDeviceId mac) = mac mod 2 ^ 48.
Proof.
  rewrite readDeviceId_digits, hex_number_append, !hex_number_hexFixed.
  change (16 ^ Z.of_nat 4) with (2 ^ 16). change (16 ^ Z.of_nat 8) with (2 ^ 32).
  rewrite !Z.mod_mod by lia. rewrite Z.shiftr_div_pow2 by lia.
  change (2 ^ 48) with (2 ^ 32 * 2 ^ 16).
  rewrite (Z.rem_mul_r mac (2 ^ 32) (2 ^ 16)) by lia. ring.
Qed.

Lemma readDeviceId_low_48 (mac : Z) : readDeviceId (mac mod 2 ^ 48) = readDeviceId mac.
Proof.
  rewrite !readDeviceId_digits, !Z.shiftr_div_pow2 by lia.
  change (2 ^ 48) with (2 ^ 32 * 2 ^ 16).
  rewrite (Z.rem_mul_r mac (2 ^ 32) (2 ^ 16)) by lia.
  pose proof (Z.mod_pos_bound mac (2 ^ 32) ltac:(lia)) as Hr.
  pose proof (Z.mod_pos_bound (mac / 2 ^ 32) (2 ^ 16) ltac:(lia)) as Hq.
  set (r := mac mod 2 ^ 32) in *. set (q := (mac / 2 ^ 32) mod 2 ^ 16) in *.
  assert (Hdiv : (r + 2 ^ 32 * q) / 2 ^ 32 = q).
  { symmetry. apply (Z.div_unique _ _ q r); lia. }
  assert (Hmod : (r + 2 ^ 32 * q) mod 2 ^ 32 = r).
  { symmetry. apply (Z.mod_unique _ _ q r); lia. }
  rewrite Hdiv, Hmod. rewrite (Z.mod_small q) by lia. reflexivity.
Qed.

(** X1.  Two hardware identifiers get the same device identity exactly
    when they agree on their low 48 bits: the identity tells apart any
    two 48-bit hardware addresses, and nothing above bit 47 shows in it. *)
Theorem readDeviceId_identifies_low_48_bits (mac1 mac2 : Z) :
  readDeviceId mac1 = readDeviceId mac2 <-> mac1 mod 2 ^ 48 = mac2 mod 2 ^ 48.
Proof.
  split; intro H.
  - rewrite <- (readDeviceId_number mac1), <- (readDeviceId_number mac2). now rewrite H.
  - rewrite <- (readDeviceId_low_48 mac1), <- (readDeviceId_low_48 mac2). now rewrite H.
Qed.

Lemma readDeviceId_identifies_low_48_bits_witness :
  readDeviceId 0x0001ABCD12345678 = readDeviceId 0xABCD12345678.
Proof.
  apply (proj2 (readDeviceId_identifies_low_48_bits 0x0001ABCD12345678 0xABCD12345678)).
  reflexivity.
Defined.

Lemma append_cancel_l (p a b : string) : p ++ a = p ++ b -> a = b.
Proof. induction p as [|c p IH]; simpl; intro H; [exact H|]. injection H as H. now apply IH. Qed.

Lemma sessionKeyOf_cancel (agentId d1 d2 : string) :
  sessionKeyOf agentId d1 = sessionKeyOf agentId d2 -> d1 = d2.
Proof. unfold sessionKeyOf. apply append_cancel_l. Qed.

(** ** Whole calls of [connectWifiBlocking] *)

Section Link.

Variable cfg : Config.
Variable plat : Platform.

Lemma connectWifiBlocking_link_up (fuel n : nat) (s : State) :
  link_up_after plat (wifiPolls s) n -> (n <= S fuel)%nat ->
  connectWifiBlocking cfg plat fuel s
  = Some (tt, observed (connect_effects cfg plat n) (polled (S n) s)).
Proof.
  intros [Hfalse Htrue] Hn. destruct n as [|k].
  - rewrite Nat.add_0_r in Htrue.
    rewrite connectWifiBlocking_unfold, Htrue. cbn [connect_effects].
    now rewrite observed_nil.
  - rewrite (connectWifiBlocking_after cfg plat fuel k s).
    + replace (k + 2)%nat with (S (S k)) by lia. reflexivity.
    + lia.
    + intros i Hi. apply Hfalse. lia.
    + exact Htrue.
Qed.

Lemma connectWifiBlocking_link_down (fuel : nat) (s : State) :
  (forall i, (i <= S fuel)%nat -> wifiStatus plat (wifiPolls s + i) = false) ->
  connectWifiBlocking cfg plat fuel s = None.
Proof.
  intro Hfalse. rewrite connectWifiBlocking_unfold.
  replace (wifiStatus plat (wifiPolls s)) with false
    by (symmetry; rewrite <- (Nat.add_0_r (wifiPolls s)); apply Hfalse; lia).
  rewrite wifiPollLoop_never; [reflexivity|].
  intros i Hi. cbn [wifiPolls polled observed with_effects with_wifiPolls].
  replace (wifiPolls s + 1 + i)%nat with (wifiPolls s + S i)%nat by lia.
  apply Hfalse. lia.
Qed.

Lemma connectWifiBlocking_returned (fuel : nat) (s : State) (u : unit) (s' : State) :
  connectWifiBlocking cfg plat fuel s = Some (u, s') ->
  exists n,
    link_up_after plat (wifiPolls s) n /\ (n <= S fuel)%nat
    /\ s' = observed (connect_effects cfg plat n) (polled (S n) s).
Proof.
  intro H. pose proof H as H'. apply connectWifiBlocking_returns in H'.
  destruct H' as (n & es & Hfalse & Htrue & _).
  assert (Hn : (n <= S fuel)%nat).
  { destruct (Nat.le_gt_cases n (S fuel)) as [Hle|Hgt]; [exact Hle|].
    rewrite connectWifiBlocking_link_down in H; [discriminate|].
    intros i Hi. apply Hfalse. lia. }
  exists n. split; [split; assumption|]. split; [exact Hn|].
  rewrite (connectWifiBlocking_link_up fuel n s (conj Hfalse Htrue) Hn) in H.
  now injection H as <-.
Qed.

Lemma posts_of_app (a b : list Event) : posts_of (a ++ b) = (posts_of a ++ posts_of b)%list.
Proof.
  induction a as [|e a IH]; [reflexivity|].
  destruct e; cbn [app posts_of]; rewrite IH; reflexivity.
Qed.

Lemma posts_of_unsuccessful_polls (count : nat) :
  forall first, posts_of (unsuccessful_polls cfg first count) = [].
Proof.
  induction count as [|count IH]; intro first; [reflexivity|].
  rewrite unsuccessful_polls_succ, posts_of_app, IH.
  destruct (first mod 80 =? 0)%nat; reflexivity.
Qed.

Lemma posts_of_connect_effects (n : nat) : posts_of (connect_effects cfg plat n) = [].
Proof.
  destruct n as [|k]; [reflexivity|].
  cbn [connect_effects]. now rewrite !posts_of_app, posts_of_unsuccessful_polls.
Qed.

End Link.

Lemma succ_div_80 (n : nat) :
  (S n / 80 = n / 80 + if (S n mod 80 =? 0) then 1 else 0)%nat.
Proof.
  pose proof (Nat.div_mod_eq n 80) as E.
  pose proof (Nat.mod_upper_bound n 80 ltac:(lia)) as B.
  rewrite succ_mod_80.
  destruct (Nat.eqb_spec (n mod 80 + 1) 80) as [H|H].
  - cbn [Nat.eqb]. symmetry. apply (Nat.div_unique (S n) 80 (n / 80 + 1) 0); lia.
  - destruct (Nat.eqb_spec (n mod 80 + 1) 0) as [H0|H0]; [lia|].
    symmetry. apply (Nat.div_unique (S n) 80 (n / 80 + 0) (n mod 80 + 1)); lia.
Qed.

Lemma total_delay_app (a b : list Event) :
  total_delay (a ++ b) = total_delay a + total_delay b.
Proof.
  induction a as [|e a IH]; [reflexivity|].
  destruct e; cbn [app total_delay]; rewrite IH; lia.
Qed.

Lemma unsuccessful_polls_last (cfg : Config) (k : nat) :
  unsuccessful_polls cfg 1 (S k)
  = (unsuccessful_polls cfg 1 k
     ++ poll_tick ++ (if (S k mod 80 =? 0)%nat then retry_cycle cfg else []))%list.
Proof.
  unfold unsuccessful_polls. rewrite seq_S, flat_map_app. cbn [flat_map].
  now rewrite app_nil_r.
Qed.

Lemma total_delay_unsuccessful_polls (cfg : Config) (k : nat) :
  total_delay (unsuccessful_polls cfg 1 k) = 500 * Z.of_nat (k + k / 80).
Proof.
  induction k as [|k IH]; [reflexivity|].
  rewrite unsuccessful_polls_last, !total_delay_app, IH, succ_div_80.
  destruct (S k mod 80 =? 0)%nat; cbn [total_delay poll_tick retry_cycle]; lia.
Qed.

(** X2.  A call of [connectWifiBlocking] that finds the link up at its
    first reading spends no time in [delay]; one whose loop sees [k]
    failed polls before the link comes up spends 500 ms for each of them
    and 500 ms more for each full run of 80: 500 * (k + k / 80) ms in
    all, that is 40.5 s for every retry cycle. *)
Theorem connectWifiBlocking_blocking_time
    (cfg : Config) (plat : Platform) (fuel : nat) (s : State) :
  (link_up_after plat (wifiPolls s) 0 ->
   exists s', connectWifiBlocking cfg plat fuel s = Some (tt, s')
              /\ total_delay (effects s') = total_delay (effects s))
  /\ (forall k, link_up_after plat (wifiPolls s) (S k) -> (k <= fuel)%nat ->
        exists s', connectWifiBlocking cfg plat fuel s = Some (tt, s')
                   /\ total_delay (effects s')
                      = total_delay (effects s) + 500 * Z.of_nat (k + k / 80)).
Proof.
  split.
  - intro Hup. rewrite (connectWifiBlocking_link_up cfg plat fuel 0 s Hup) by lia.
    eexists. split; [reflexivity|].
    cbn [effects observed polled with_effects with_wifiPolls connect_effects].
    now rewrite app_nil_r.
  - intros k Hup Hk. rewrite (connectWifiBlocking_link_up cfg plat fuel (S k) s Hup) by lia.
    eexists. split; [reflexivity|].
    cbn [effects observed polled with_effects with_wifiPolls connect_effects].
    rewrite !total_delay_app, total_delay_unsuccessful_polls.
    cbn [total_delay association connected_banner]. lia.
Qed.

Lemma connectWifiBlocking_blocking_time_witness :
  exists s',
    connectWifiBlocking example_config
      (textPlatform 0 (fun n => (161 <=? n)%nat) "10.0.0.7" (fun _ => true) (fun _ => true)
         (fun _ _ => (200, EmptyString)))
      200 initial_state = Some (tt, s')
    /\ total_delay (effects s') = 81000.
Proof.
  apply (proj2 (connectWifiBlocking_blocking_time example_config
                  (textPlatform 0 (fun n => (161 <=? n)%nat) "10.0.0.7" (fun _ => true)
                     (fun _ => true) (fun _ _ => (200, EmptyString)))
                  200 initial_state) 160%nat).
  - split; [intros i Hi; apply Nat.leb_gt; simpl; lia | reflexivity].
  - lia.
Defined.

(** ** The peripheral probe and [setup] *)

Lemma printBoardProbe_run (plat : Platform) (s : State) :
  printBoardProbe plat s = Some (tt, observed (probe_report plat) s).
Proof.
  unfold printBoardProbe, i2cResponds, Serial_println, Serial_print.
  repeat fw_step. unfold emit, modify.
  cbn [effects observed with_effects]. rewrite <- !app_assoc. reflexivity.
Qed.

(** X3.  [printBoardProbe] is a diagnostic and no more: whatever the
    three peripherals answer it returns, having addressed 0x20, 0x18 and
    0x40 once each, in this order, and printed for each a line that says
    [ok] when the address was acknowledged and [missing] when not; no
    global changes, nothing is read from the network or sent to it. *)
Theorem printBoardProbe_reports_and_returns (plat : Platform) (s : State) :
  exists s',
    printBoardProbe plat s = Some (tt, s')
    /\ effects s' = (effects s ++ probe_report plat)%list
    /\ written (probe_report plat)
       = [CRLF;
          "I2C probe (expected on Waveshare ESP32-S3-AUDIO):" ++ CRLF;
          "  0x20 (TCA9555 IO expander): " ++ (if i2cAck plat 32 then "ok" else "missing") ++ LF;
          "  0x18 (ES8311 speaker codec): " ++ (if i2cAck plat 24 then "ok" else "missing") ++ LF;
          "  0x40 (ES7210 mic ADC): " ++ (if i2cAck plat 64 then "ok" else "missing") ++ LF;
          CRLF]
    /\ with_effects (effects s) s' = s.
Proof.
  exists (observed (probe_report plat) s).
  split; [apply printBoardProbe_run|]. split; [reflexivity|]. split; [reflexivity|].
  destruct s; reflexivity.
Qed.

Section Setup.

Variable cfg : Config.
Variable plat : Platform.

Lemma setup_unfold (fuel : nat) (s : State) :
  setup cfg plat fuel s
  = bind (connectWifiBlocking cfg plat fuel)
         (fun _ => modify (observed ready_banner)) (booted cfg plat s).
Proof.
  unfold setup. unfold Serial_println, Serial_print, delay.
  repeat fw_step.
  unfold bind at 1. rewrite printBoardProbe_run.
  match goal with
  | |- bind ?m ?k ?x = bind ?m ?k' ?y => replace y with x
  end.
  - apply bind_ext. intros _ s'. repeat fw_step. unfold emit, modify.
    cbn [effects observed with_effects]. now rewrite <- !app_assoc.
  - unfold booted, observed. cbn [effects with_effects with_sessionKey with_deviceId].
    rewrite <- !app_assoc. reflexivity.
Qed.

Lemma setup_run (fuel n : nat) (s : State) :
  link_up_after plat (wifiPolls s) n -> (n <= S fuel)%nat ->
  setup cfg plat fuel s
  = Some (tt, observed (connect_effects cfg plat n ++ ready_banner) (polled (S n) (booted cfg plat s))).
Proof.
  intros Hup Hn. rewrite setup_unfold.
  rewrite (bind_some _ _ _ _ _ (connectWifiBlocking_link_up cfg plat fuel n (booted cfg plat s) Hup Hn)).
  unfold modify. now rewrite observed_observed.
Qed.

Lemma setup_returned (fuel : nat) (s : State) (u : unit) (s' : State) :
  setup cfg plat fuel s = Some (u, s') ->
  exists n,
    link_up_after plat (wifiPolls s) n /\ (n <= S fuel)%nat
    /\ s' = observed (connect_effects cfg plat n ++ ready_banner) (polled (S n) (booted cfg plat s)).
Proof.
  intro H. rewrite setup_unfold in H. unfold bind in H.
  destruct (connectWifiBlocking cfg plat fuel (booted cfg plat s)) as [[[] s1]|] eqn:E; [|discriminate].
  apply connectWifiBlocking_returned in E. destruct E as (n & Hup & Hn & ->).
  exists n. split; [exact Hup|]. split; [exact Hn|].
  unfold modify in H. injection H as _ <-. now rewrite observed_observed.
Qed.

End Setup.

(** X4.  [setup] first prints the banner with the device identity, the
    session key and the gateway URL, then probes the peripherals, then
    waits for the link, and prints the three "ready" lines only when the
    link is up; while the link is down it does not return.  On return the
    identity and the session key are set, the pending line, the button
    latch and its timestamp are as before, and nothing has been posted. *)
Theorem setup_boot_sequence (cfg : Config) (plat : Platform) (fuel : nat) (s : State) :
  (forall n, link_up_after plat (wifiPolls s) n -> (n <= S fuel)%nat ->
     exists s',
       setup cfg plat fuel s = Some (tt, s')
       /\ effects s'
          = (effects s ++ boot_banner cfg (readDeviceId (getEfuseMac plat))
             ++ probe_report plat ++ connect_effects cfg plat n ++ ready_banner)%list
       /\ g_deviceId s' = readDeviceId (getEfuseMac plat)
       /\ g_sessionKey s' = sessionKeyOf (OPENCLAW_AGENT_ID cfg) (g_deviceId s')
       /\ g_inputLine s' = g_inputLine s
       /\ g_bootLatched s' = g_bootLatched s
       /\ g_lastBootEdgeMs s' = g_lastBootEdgeMs s
       /\ httpPosts s' = httpPosts s
       /\ posts_of (effects s') = posts_of (effects s))
  /\ ((forall i, (i <= S fuel)%nat -> wifiStatus plat (wifiPolls s + i) = false) ->
      setup cfg plat fuel s = None).
Proof.
  split.
  - intros n Hup Hn. rewrite (setup_run cfg plat fuel n s Hup Hn).
    eexists. split; [reflexivity|].
    cbn [effects g_deviceId g_sessionKey g_inputLine g_bootLatched g_lastBootEdgeMs httpPosts
          observed polled booted with_effects with_wifiPolls with_sessionKey with_deviceId].
    split; [now rewrite <- !app_assoc|].
    repeat (split; [reflexivity|]).
    rewrite !posts_of_app, posts_of_connect_effects. cbn. now rewrite !app_nil_r.
  - intro Hdown. rewrite setup_unfold.
    unfold bind. now rewrite connectWifiBlocking_link_down.
Qed.

Lemma setup_boot_sequence_witness :
  exists s',
    setup example_config
      (textPlatform 0xABCD12345678 (fun n => (3 <=? n)%nat) "10.0.0.7" (fun a => a =? 24)
         (fun _ => true) (fun _ _ => (200, EmptyString)))
      5 initial_state = Some (tt, s')
    /\ g_sessionKey s' = "agent:main:openai:esp32-ABCD12345678"
    /\ length (effects s') = 29%nat
    /\ posts_of (effects s') = [].
Proof.
  destruct (proj1 (setup_boot_sequence example_config
              (textPlatform 0xABCD12345678 (fun n => (3 <=? n)%nat) "10.0.0.7"
                 (fun a => a =? 24) (fun _ => true) (fun _ _ => (200, EmptyString)))
              5 initial_state) 3%nat)
    as (s' & Hrun & Heff & Hid & Hkey & _ & _ & _ & _ & Hposts).
  - split; [intros i Hi; apply Nat.leb_gt; simpl; lia | reflexivity].
  - lia.
  - exists s'. split; [exact Hrun|]. split; [rewrite Hkey, Hid; reflexivity|].
    split; [rewrite Heff; vm_compute; reflexivity | exact Hposts].
Defined.

(** X5.  The session keys two boards compute at boot under the same
    configuration are equal exactly when their hardware identifiers agree
    on the low 48 bits: each 48-bit hardware address has a session key of
    its own. *)
Theorem session_key_identifies_device
    (cfg : Config) (plat1 plat2 : Platform) (fuel1 fuel2 : nat)
    (s1 s2 : State) (u1 u2 : unit) (s1' s2' : State) :
  setup cfg plat1 fuel1 s1 = Some (u1, s1') ->
  setup cfg plat2 fuel2 s2 = Some (u2, s2') ->
  (g_sessionKey s1' = g_sessionKey s2'
   <-> getEfuseMac plat1 mod 2 ^ 48 = getEfuseMac plat2 mod 2 ^ 48).
Proof.
  intros H1 H2.
  apply setup_returned in H1. destruct H1 as (n1 & _ & _ & ->).
  apply setup_returned in H2. destruct H2 as (n2 & _ & _ & ->).
  cbn [g_sessionKey observed polled booted with_effects with_wifiPolls with_sessionKey].
  split; intro H.
  - apply sessionKeyOf_cancel in H.
    rewrite <- (readDeviceId_number (getEfuseMac plat1)),
            <- (readDeviceId_number (getEfuseMac plat2)).
    now rewrite H.
  - rewrite <- (readDeviceId_low_48 (getEfuseMac plat1)),
            <- (readDeviceId_low_48 (getEfuseMac plat2)).
    now rewrite H.
Qed.

Lemma session_key_identifies_device_witness :
  exists s1' s2',
    setup example_config
      (textPlatform 0x0001ABCD12345678 (fun _ => true) "10.0.0.7" (fun _ => true)
         (fun _ => true) (fun _ _ => (200, EmptyString)))
      0 initial_state = Some (tt, s1')
    /\ setup example_config
         (textPlatform 0xABCD12345678 (fun _ => true) "10.0.0.8" (fun _ => true)
            (fun _ => true) (fun _ _ => (200, EmptyString)))
         0 initial_state = Some (tt, s2')
    /\ g_sessionKey s1' = g_sessionKey s2'.
Proof.
  destruct (setup example_config
              (textPlatform 0x0001ABCD12345678 (fun _ => true) "10.0.0.7" (fun _ => true)
                 (fun _ => true) (fun _ _ => (200, EmptyString)))
              0 initial_state) as [[[] s1']|] eqn:E1; [|vm_compute in E1; discriminate].
  destruct (setup example_config
              (textPlatform 0xABCD12345678 (fun _ => true) "10.0.0.8" (fun _ => true)
                 (fun _ => true) (fun _ _ => (200, EmptyString)))
              0 initial_state) as [[[] s2']|] eqn:E2; [|vm_compute in E2; discriminate].
  exists s1', s2'. split; [reflexivity|]. split; [reflexivity|].
  apply (proj2 (session_key_identifies_device _ _ _ _ _ _ _ _ _ _ _ E1 E2)).
  vm_compute. reflexivity.
Defined.

(** ** Whole calls of [askOpenClaw] and [runPrompt] *)

Section Exchange.

Variable cfg : Config.
Variable plat : Platform.

Lemma askOpenClaw_link (fuel : nat) (prompt : string) (s s1 : State) :
  connectWifiBlocking cfg plat fuel s = Some (tt, s1) ->
  askOpenClaw cfg plat fuel prompt s
  = Some (exchange_reply cfg plat (httpPosts s1) (g_sessionKey s1) prompt,
          exchanged cfg plat (g_sessionKey s1) prompt s1).
Proof.
  intro Hlink. unfold exchange_reply, exchanged.
  destruct (httpBegin plat (buildGatewayUrl cfg)) eqn:Hbegin.
  - now apply askOpenClaw_exchange.
  - now apply askOpenClaw_begin_failure.
Qed.

Lemma askOpenClaw_run (fuel n : nat) (prompt : string) (s : State) :
  link_up_after plat (wifiPolls s) n -> (n <= S fuel)%nat ->
  askOpenClaw cfg plat fuel prompt s
  = Some (exchange_reply cfg plat (httpPosts s) (g_sessionKey s) prompt,
          exchanged cfg plat (g_sessionKey s) prompt
            (observed (connect_effects cfg plat n) (polled (S n) s))).
Proof.
  intros Hup Hn.
  now rewrite (askOpenClaw_link fuel prompt s _ (connectWifiBlocking_link_up cfg plat fuel n s Hup Hn)).
Qed.

Lemma askOpenClaw_returned (fuel : nat) (prompt : string) (s : State) (r : string) (s' : State) :
  askOpenClaw cfg plat fuel prompt s = Some (r, s') ->
  exists n,
    link_up_after plat (wifiPolls s) n /\ (n <= S fuel)%nat
    /\ r = exchange_reply cfg plat (httpPosts s) (g_sessionKey s) prompt
    /\ s' = exchanged cfg plat (g_sessionKey s) prompt
              (observed (connect_effects cfg plat n) (polled (S n) s)).
Proof.
  intro H.
  destruct (connectWifiBlocking cfg plat fuel s) as [[[] s1]|] eqn:E.
  - apply connectWifiBlocking_returned in E. destruct E as (n & Hup & Hn & ->).
    rewrite (askOpenClaw_run fuel n prompt s Hup Hn) in H. injection H as <- <-.
    exists n. split; [exact Hup|]. split; [exact Hn|]. split; reflexivity.
  - unfold askOpenClaw in H. unfold bind at 1 in H. rewrite E in H. discriminate.
Qed.

Lemma askOpenClaw_link_down (fuel : nat) (prompt : string) (s : State) :
  (forall i, (i <= S fuel)%nat -> wifiStatus plat (wifiPolls s + i) = false) ->
  askOpenClaw cfg plat fuel prompt s = None.
Proof.
  intro Hdown. unfold askOpenClaw. unfold bind at 1.
  now rewrite connectWifiBlocking_link_down.
Qed.

Lemma posts_of_exchanged (key prompt : string) (s : State) :
  posts_of (effects (exchanged cfg plat key prompt s))
  = (posts_of (effects s)
     ++ if httpBegin plat (buildGatewayUrl cfg)
        then [gatewayRequest cfg plat key prompt] else [])%list.
Proof.
  unfold exchanged. destruct (httpBegin plat (buildGatewayUrl cfg)).
  - cbn [posted effects with_httpPosts observed with_effects]. now rewrite posts_of_app.
  - now rewrite app_nil_r.
Qed.

End Exchange.

(** X6.  A call of [askOpenClaw] made while the link comes up posts
    exactly one request when the HTTP client can be initialised and none
    when it cannot, and returns in both cases, whatever the answer: a
    failed or refused POST is not tried again.  The request goes to the
    gateway URL with the session key of the state as
    [x-openclaw-session-key], and carries an [Authorization] header, the
    bearer token, exactly when the configured token is not empty.  While
    the link stays down the call does not return. *)
Theorem askOpenClaw_posts_at_most_once
    (cfg : Config) (plat : Platform) (fuel : nat) (prompt : string) (s : State) :
  let request := gatewayRequest cfg plat (g_sessionKey s) prompt in
  (forall n, link_up_after plat (wifiPolls s) n -> (n <= S fuel)%nat ->
     exists r s',
       askOpenClaw cfg plat fuel prompt s = Some (r, s')
       /\ posts_of (effects s')
          = (posts_of (effects s)
             ++ if httpBegin plat (buildGatewayUrl cfg) then [request] else [])%list
       /\ httpPosts s'
          = (httpPosts s + if httpBegin plat (buildGatewayUrl cfg) then 1 else 0)%nat)
  /\ req_url request = buildGatewayUrl cfg
  /\ header "x-openclaw-session-key" (req_headers request) = Some (g_sessionKey s)
  /\ header "x-openclaw-agent-id" (req_headers request) = Some (OPENCLAW_AGENT_ID cfg)
  /\ header "Authorization" (req_headers request)
     = match OPENCLAW_TOKEN cfg with
       | EmptyString => None
       | token => Some ("Bearer " ++ token)
       end
  /\ ((forall i, (i <= S fuel)%nat -> wifiStatus plat (wifiPolls s + i) = false) ->
      askOpenClaw cfg plat fuel prompt s = None).
Proof.
  intro request. split; [|split; [|split; [|split; [|split]]]]; try reflexivity.
  - intros n Hup Hn. rewrite (askOpenClaw_run cfg plat fuel n prompt s Hup Hn).
    eexists. eexists. split; [reflexivity|]. split.
    + rewrite posts_of_exchanged.
      cbn [effects observed polled with_effects with_wifiPolls].
      now rewrite posts_of_app, posts_of_connect_effects, app_nil_r.
    + unfold exchanged. destruct (httpBegin plat (buildGatewayUrl cfg)); cbn; lia.
  - unfold request, gatewayRequest, requestHeaders. cbn [req_headers].
    destruct (OPENCLAW_TOKEN cfg); reflexivity.
  - apply askOpenClaw_link_down.
Qed.

Lemma askOpenClaw_posts_at_most_once_witness :
  exists r s',
    askOpenClaw example_config
      (textPlatform 0 (fun n => (2 <=? n)%nat) "10.0.0.7" (fun _ => true) (fun _ => true)
         (fun _ _ => (-1, EmptyString)))
      5 "status?" initial_state = Some (r, s')
    /\ length (posts_of (effects s')) = 1%nat
    /\ httpPosts s' = 1%nat.
Proof.
  destruct (proj1 (askOpenClaw_posts_at_most_once example_config
              (textPlatform 0 (fun n => (2 <=? n)%nat) "10.0.0.7" (fun _ => true)
                 (fun _ => true) (fun _ _ => (-1, EmptyString)))
              5 "status?" initial_state) 2%nat)
    as (r & s' & Hrun & Hposts & Hcount).
  - split; [intros i Hi; apply Nat.leb_gt; simpl; lia | reflexivity].
  - lia.
  - exists r, s'. split; [exact Hrun|]. split; [now rewrite Hposts | exact Hcount].
Defined.

Section Prompt.

Variable cfg : Config.
Variable plat : Platform.

Lemma runPrompt_nonempty (fuel : nat) (prompt : string) (s : State) :
  prompt <> EmptyString ->
  runPrompt cfg plat fuel prompt s
  = bind (askOpenClaw cfg plat fuel prompt)
         (fun reply => modify (observed (reply_echo reply)))
         (observed (prompt_echo prompt) s).
Proof.
  intro Hne. unfold runPrompt.
  destruct prompt as [|c prompt]; [contradiction|]. cbn [String.length Nat.eqb].
  unfold Serial_println, Serial_print. repeat fw_step.
  match goal with
  | |- bind ?m ?k ?x = bind ?m ?k' ?y => replace y with x
  end.
  - apply bind_ext. intros reply s'. repeat fw_step. unfold emit, modify.
    cbn [effects observed with_effects]. now rewrite <- !app_assoc.
  - unfold observed. cbn [effects with_effects]. now rewrite <- !app_assoc.
Qed.

Lemma runPrompt_run (fuel n : nat) (prompt : string) (s : State) :
  prompt <> EmptyString ->
  link_up_after plat (wifiPolls s) n -> (n <= S fuel)%nat ->
  runPrompt cfg plat fuel prompt s
  = Some (tt, observed (reply_echo (exchange_reply cfg plat (httpPosts s) (g_sessionKey s) prompt))
                (exchanged cfg plat (g_sessionKey s) prompt
                   (observed (prompt_echo prompt ++ connect_effects cfg plat n)
                      (polled (S n) s)))).
Proof.
  intros Hne Hup Hn. rewrite runPrompt_nonempty by exact Hne.
  erewrite bind_some; [|apply (askOpenClaw_run cfg plat fuel n); assumption].
  unfold modify. cbn [httpPosts g_sessionKey observed with_effects].
  now rewrite polled_observed, observed_observed.
Qed.

Lemma runPrompt_returned (fuel : nat) (prompt : string) (s : State) (u : unit) (s' : State) :
  runPrompt cfg plat fuel prompt s = Some (u, s') ->
  (prompt = EmptyString /\ s' = s)
  \/ (prompt <> EmptyString
      /\ exists n,
           link_up_after plat (wifiPolls s) n /\ (n <= S fuel)%nat
           /\ s' = observed (reply_echo (exchange_reply cfg plat (httpPosts s)
                                            (g_sessionKey s) prompt))
                     (exchanged cfg plat (g_sessionKey s) prompt
                        (observed (prompt_echo prompt ++ connect_effects cfg plat n)
                           (polled (S n) s)))).
Proof.
  intro H. destruct prompt as [|c prompt].
  - left. injection H as _ <-. split; reflexivity.
  - right. split; [discriminate|].
    pose proof H as H'. rewrite runPrompt_nonempty in H' by discriminate.
    unfold bind in H'.
    destruct (askOpenClaw cfg plat fuel (String c prompt) _) as [[r s1]|] eqn:E; [|discriminate].
    apply askOpenClaw_returned in E. destruct E as (n & Hup & Hn & _ & _).
    exists n. split; [exact Hup|]. split; [exact Hn|].
    rewrite (runPrompt_run fuel n (String c prompt) s) in H by (discriminate || assumption).
    now injection H as <-.
Qed.

Lemma runPrompt_link_down (fuel : nat) (prompt : string) (s : State) :
  prompt <> EmptyString ->
  (forall i, (i <= S fuel)%nat -> wifiStatus plat (wifiPolls s + i) = false) ->
  runPrompt cfg plat fuel prompt s = None.
Proof.
  intros Hne Hdown. rewrite runPrompt_nonempty by exact Hne.
  unfold bind. now rewrite askOpenClaw_link_down.
Qed.

End Prompt.

(** X7.  For a prompt that is not empty, [runPrompt] made while the
    link comes up prints a blank line, the prompt after [You: ] and the
    "thinking" line, then makes the exchange, then prints after
    [OpenClaw: ] what [askOpenClaw] returned, reply or error text alike,
    and a blank line, and returns: no outcome of the exchange stops it.
    The globals are left as they were.  While the link stays down it
    does not return. *)
Theorem runPrompt_prints_the_exchange
    (cfg : Config) (plat : Platform) (fuel : nat) (prompt : string) (s : State) :
  prompt <> EmptyString ->
  (forall n, link_up_after plat (wifiPolls s) n -> (n <= S fuel)%nat ->
     exists s',
       runPrompt cfg plat fuel prompt s = Some (tt, s')
       /\ effects s'
          = (effects s ++ prompt_echo prompt ++ connect_effects cfg plat n
             ++ (if httpBegin plat (buildGatewayUrl cfg)
                 then [HttpPost (gatewayRequest cfg plat (g_sessionKey s) prompt)] else [])
             ++ reply_echo (exchange_reply cfg plat (httpPosts s) (g_sessionKey s) prompt))%list
       /\ g_inputLine s' = g_inputLine s
       /\ g_deviceId s' = g_deviceId s
       /\ g_sessionKey s' = g_sessionKey s
       /\ g_bootLatched s' = g_bootLatched s
       /\ g_lastBootEdgeMs s' = g_lastBootEdgeMs s)
  /\ ((forall i, (i <= S fuel)%nat -> wifiStatus plat (wifiPolls s + i) = false) ->
      runPrompt cfg plat fuel prompt s = None).
Proof.
  intro Hne. split.
  - intros n Hup Hn. rewrite (runPrompt_run cfg plat fuel n prompt s Hne Hup Hn).
    eexists. split; [reflexivity|]. unfold exchanged.
    destruct (httpBegin plat (buildGatewayUrl cfg));
      cbn [effects g_inputLine g_deviceId g_sessionKey g_bootLatched g_lastBootEdgeMs
           observed polled posted with_effects with_wifiPolls with_httpPosts];
      (split; [rewrite <- ?app_assoc; reflexivity|]); repeat split.
  - now apply runPrompt_link_down.
Qed.

Lemma runPrompt_prints_the_exchange_witness :
  exists s',
    runPrompt example_config
      (textPlatform 0 (fun _ => true) "10.0.0.7" (fun _ => true) (fun _ => true)
         (fun _ _ => (500, "internal error")))
      0 "status?" initial_state = Some (tt, s')
    /\ written (effects s')
       = [CRLF; "You: status?" ++ LF; "OpenClaw: thinking..." ++ CRLF;
          "OpenClaw: [http-500] internal error" ++ LF; CRLF].
Proof.
  destruct (proj1 (runPrompt_prints_the_exchange example_config
              (textPlatform 0 (fun _ => true) "10.0.0.7" (fun _ => true) (fun _ => true)
                 (fun _ _ => (500, "internal error")))
              0 "status?" initial_state ltac:(discriminate)) 0%nat)
    as (s' & Hrun & Heff & _).
  - split; [intros i Hi; lia | reflexivity].
  - lia.
  - exists s'. split; [exact Hrun|]. rewrite Heff. vm_compute. reflexivity.
Defined.

(** ** What a run of [loop] keeps *)

Section Trail.

Variable cfg : Config.
Variable plat : Platform.

Lemma trail_refl (s : State) : trail cfg plat s s.
Proof.
  split; [reflexivity|]. split; [reflexivity|]. exists [].
  cbn [map length]. rewrite app_nil_r, Nat.add_0_r. repeat split. constructor.
Qed.

Lemma trail_trans (s1 s2 s3 : State) :
  trail cfg plat s1 s2 -> trail cfg plat s2 s3 -> trail cfg plat s1 s3.
Proof.
  intros (Hd1 & Hk1 & p1 & Hp1 & Hn1 & Ha1) (Hd2 & Hk2 & p2 & Hp2 & Hn2 & Ha2).
  split; [congruence|]. split; [congruence|]. exists (p1 ++ p2)%list.
  rewrite Hp2, Hp1, Hn2, Hn1, Hk1, map_app, length_app, <- app_assoc.
  split; [reflexivity|]. split; [lia|]. apply Forall_app. split; assumption.
Qed.

(** A step that posts nothing and keeps the identity. *)
Lemma trail_quiet (s s' : State) :
  g_deviceId s' = g_deviceId s -> g_sessionKey s' = g_sessionKey s ->
  effects s' = effects s -> httpPosts s' = httpPosts s ->
  trail cfg plat s s'.
Proof.
  intros Hd Hk He Hn. split; [exact Hd|]. split; [exact Hk|]. exists [].
  cbn [map length]. rewrite app_nil_r, Nat.add_0_r, He, Hn. repeat split. constructor.
Qed.

Lemma runPrompt_trail (fuel : nat) (prompt : string) (s : State) (u : unit) (s' : State) :
  prompt = OPENCLAW_BUTTON_PROMPT cfg \/ (String.length prompt <= 512)%nat ->
  runPrompt cfg plat fuel prompt s = Some (u, s') ->
  trail cfg plat s s'
  /\ g_inputLine s' = g_inputLine s
  /\ g_bootLatched s' = g_bootLatched s
  /\ g_lastBootEdgeMs s' = g_lastBootEdgeMs s.
Proof.
  intros Hkind H. apply runPrompt_returned in H.
  destruct H as [[_ ->]|(Hne & n & _ & _ & ->)].
  - split; [apply trail_refl|]. repeat split.
  - split; [|unfold exchanged; destruct (httpBegin plat _); repeat split].
    split; [unfold exchanged; destruct (httpBegin plat _); reflexivity|].
    split; [unfold exchanged; destruct (httpBegin plat _); reflexivity|].
    exists (if httpBegin plat (buildGatewayUrl cfg) then [prompt] else []).
    cbn [effects observed with_effects]. rewrite posts_of_app, posts_of_exchanged.
    cbn [effects observed polled with_effects with_wifiPolls].
    rewrite !posts_of_app, posts_of_connect_effects. cbn [posts_of prompt_echo reply_echo app].
    rewrite !app_nil_r. unfold exchanged.
    destruct (httpBegin plat (buildGatewayUrl cfg)); cbn [map length httpPosts posted
      observed polled with_effects with_wifiPolls with_httpPosts].
    + split; [reflexivity|]. split; [lia|].
      apply Forall_cons; [split; assumption | apply Forall_nil].
    + split; [reflexivity|]. split; [lia|]. apply Forall_nil.
Qed.

Lemma serialProducer_trail (fuel : nat) (rx : string) :
  forall (s : State) (u : unit) (s' : State),
    (String.length (g_inputLine s) <= 512)%nat ->
    serialProducer (runPrompt cfg plat fuel) rx s = Some (u, s') ->
    trail cfg plat s s'
    /\ (String.length (g_inputLine s') <= 512)%nat
    /\ g_bootLatched s' = g_bootLatched s
    /\ g_lastBootEdgeMs s' = g_lastBootEdgeMs s.
Proof.
  induction rx as [|c rx IH]; intros s u s' Hlen H.
  - injection H as _ <-. split; [apply trail_refl|]. repeat split. exact Hlen.
  - cbn [serialProducer] in H.
    destruct (Ascii.eqb c "013"); [now apply (IH s u s')|].
    destruct (Ascii.eqb c "010").
    + rewrite bind_gets, bind_modify in H. unfold bind in H.
      destruct (runPrompt cfg plat fuel _ _) as [[[] s1]|] eqn:E; [|discriminate].
      apply runPrompt_trail in E; [|now right].
      destruct E as (Ht & Hline & Hl & He).
      cbn [g_inputLine g_bootLatched g_lastBootEdgeMs with_inputLine] in Hline, Hl, He.
      destruct (IH s1 u s') as (Ht' & Hlen' & Hl' & He'); [rewrite Hline; simpl; lia | exact H |].
      split; [|split; [exact Hlen' | split; congruence]].
      apply (trail_trans s (with_inputLine EmptyString s)); [now apply trail_quiet|].
      now apply (trail_trans _ s1).
    + rewrite bind_gets in H.
      destruct (Nat.ltb_spec (String.length (g_inputLine s)) 512) as [Hroom|Hfull].
      * rewrite bind_modify in H. apply IH in H.
        -- destruct H as (Ht & Hlen' & Hl & He).
           split; [|split; [exact Hlen' | split; assumption]].
           apply (trail_trans s (with_inputLine (append_char (g_inputLine s) c) s));
             [now apply trail_quiet | exact Ht].
        -- cbn [g_inputLine with_inputLine]. rewrite length_append_char. lia.
      * rewrite bind_ret_l in H. now apply (IH s u s').
Qed.

Lemma buttonProducer_trail (fuel : nat) (level millis : Z) (s : State) (u : unit) (s' : State) :
  buttonProducer cfg (runPrompt cfg plat fuel) level millis s = Some (u, s') ->
  trail cfg plat s s' /\ g_inputLine s' = g_inputLine s.
Proof.
  rewrite buttonProducer_cases.
  destruct (_ && _ && _).
  - intro H. apply runPrompt_trail in H; [|now left].
    destruct H as (Ht & Hline & _ & _). split; [|exact Hline].
    apply (trail_trans s (with_bootEdge true (u32 millis) s)); [now apply trail_quiet | exact Ht].
  - destruct (_ && _ && _); intro H; injection H as _ <-.
    + split; [now apply trail_quiet | reflexivity].
    + split; [apply trail_refl | reflexivity].
Qed.

Lemma loop_trail (fuel : nat) (rx : string) (level millis : Z) (s : State) (u : unit) (s' : State) :
  (String.length (g_inputLine s) <= 512)%nat ->
  loop cfg plat fuel rx level millis s = Some (u, s') ->
  trail cfg plat s s' /\ (String.length (g_inputLine s') <= 512)%nat.
Proof.
  intros Hlen H. unfold loop, handleSerialInput, handleBootButton, delay in H.
  unfold bind at 1 in H.
  destruct (serialProducer _ rx s) as [[[] s1]|] eqn:E1; [|discriminate].
  apply serialProducer_trail in E1; [|exact Hlen]. destruct E1 as (Ht1 & Hlen1 & _ & _).
  unfold bind at 1 in H.
  destruct (buttonProducer cfg _ level millis s1) as [[[] s2]|] eqn:E2; [|discriminate].
  apply buttonProducer_trail in E2. destruct E2 as (Ht2 & Hline2).
  injection H as _ <-. split.
  - apply (trail_trans s s1); [exact Ht1|]. apply (trail_trans s1 s2); [exact Ht2|].
    destruct Ht2 as (_ & _ & _). split; [reflexivity|]. split; [reflexivity|].
    exists []. cbn [effects observed with_effects map length httpPosts].
    rewrite posts_of_app. cbn [posts_of]. rewrite !app_nil_r, Nat.add_0_r.
    repeat split. constructor.
  - cbn [g_inputLine observed with_effects]. now rewrite Hline2.
Qed.

Lemma ticks_trail (fuel : nat) (inputs : list (string * Z * Z)) :
  forall (s : State) (u : unit) (s' : State),
    (String.length (g_inputLine s) <= 512)%nat ->
    ticks cfg plat fuel inputs s = Some (u, s') ->
    trail cfg plat s s' /\ (String.length (g_inputLine s') <= 512)%nat.
Proof.
  induction inputs as [|[[rx level] millis] inputs IH]; intros s u s' Hlen H.
  - injection H as _ <-. split; [apply trail_refl | exact Hlen].
  - cbn [ticks] in H. unfold bind in H.
    destruct (loop cfg plat fuel rx level millis s) as [[[] s1]|] eqn:E; [|discriminate].
    apply loop_trail in E; [|exact Hlen]. destruct E as (Ht & Hlen1).
    apply IH in H; [|exact Hlen1]. destruct H as (Ht' & Hlen').
    split; [now apply (trail_trans s s1) | exact Hlen'].
Qed.

End Trail.

Lemma firmware_returned (cfg : Config) (plat : Platform) (fuel : nat)
    (inputs : list (string * Z * Z)) (u : unit) (s' : State) :
  firmware cfg plat fuel inputs = Some (u, s') ->
  exists n s,
    s = observed (connect_effects cfg plat n ++ ready_banner)
          (polled (S n) (booted cfg plat initial_state))
    /\ ticks cfg plat fuel inputs s = Some (u, s')
    /\ trail cfg plat s s'.
Proof.
  unfold firmware. intro H. unfold bind in H.
  destruct (setup cfg plat fuel initial_state) as [[[] s]|] eqn:E; [|discriminate].
  apply setup_returned in E. destruct E as (n & _ & _ & Hs).
  exists n, s. split; [exact Hs|]. split; [exact H|].
  apply ticks_trail in H; [apply H|]. rewrite Hs. simpl. lia.
Qed.

(** X8.  The device identity and the session key are written once, by
    [setup], and never again: after any number of iterations of [loop],
    whatever they read from the console, the button and the gateway, the
    identity is still the one of the hardware identifier and the session
    key the one composed from it at boot. *)
Theorem identity_is_set_once (cfg : Config) (plat : Platform) (fuel : nat)
    (inputs : list (string * Z * Z)) (u : unit) (s' : State) :
  firmware cfg plat fuel inputs = Some (u, s') ->
  g_deviceId s' = readDeviceId (getEfuseMac plat)
  /\ g_sessionKey s'
     = "agent:" ++ OPENCLAW_AGENT_ID cfg ++ ":openai:esp32-" ++ readDeviceId (getEfuseMac plat).
Proof.
  intro H. apply firmware_returned in H.
  destruct H as (n & s & Hs & _ & Hd & Hk & _).
  rewrite Hd, Hk, Hs.
  cbn [g_deviceId g_sessionKey observed polled booted with_effects with_wifiPolls
       with_sessionKey with_deviceId].
  split; [reflexivity|]. unfold sessionKeyOf. now rewrite !append_assoc.
Qed.

(** X9.  Every request the firmware ever posts is the gateway request,
    under the session key composed at boot, of a prompt that is not
    empty and is either the configured button prompt or a serial line of
    at most 512 characters; and the count of POST calls is the number of
    these requests. *)
Theorem every_request_is_a_gateway_request (cfg : Config) (plat : Platform) (fuel : nat)
    (inputs : list (string * Z * Z)) (u : unit) (s' : State) :
  firmware cfg plat fuel inputs = Some (u, s') ->
  exists prompts,
    posts_of (effects s')
    = map (gatewayRequest cfg plat
             (sessionKeyOf (OPENCLAW_AGENT_ID cfg) (readDeviceId (getEfuseMac plat))))
          prompts
    /\ Forall (submitted_prompt cfg) prompts
    /\ httpPosts s' = length prompts.
Proof.
  intro H. apply firmware_returned in H.
  destruct H as (n & s & Hs & _ & _ & _ & prompts & Hposts & Hcount & Hall).
  exists prompts. rewrite Hposts, Hcount, Hs.
  cbn [g_sessionKey effects httpPosts observed polled booted with_effects with_wifiPolls
       with_sessionKey with_deviceId initial_state].
  rewrite !posts_of_app, posts_of_connect_effects. cbn [app].
  split; [|split; [exact Hall | reflexivity]].
  reflexivity.
Qed.

Lemma identity_is_set_once_witness :
  exists s',
    firmware example_config
      (textPlatform 0xABCD12345678 (fun _ => true) "10.0.0.7" (fun _ => true) (fun _ => true)
         (fun _ _ => (200, dq "{'choices':[{'message':{'content':'hi'}}]}")))
      0 [("hi" ++ LF, HIGH, 1000); (EmptyString, LOW, 2000)] = Some (tt, s')
    /\ g_sessionKey s' = "agent:main:openai:esp32-ABCD12345678".
Proof.
  destruct (firmware example_config
              (textPlatform 0xABCD12345678 (fun _ => true) "10.0.0.7" (fun _ => true)
                 (fun _ => true)
                 (fun _ _ => (200, dq "{'choices':[{'message':{'content':'hi'}}]}")))
              0 [("hi" ++ LF, HIGH, 1000); (EmptyString, LOW, 2000)])
    as [[[] s']|] eqn:E; [|vm_compute in E; discriminate].
  exists s'. split; [reflexivity|].
  exact (proj2 (identity_is_set_once _ _ _ _ _ _ E)).
Defined.

Lemma every_request_is_a_gateway_request_witness :
  exists s',
    firmware example_config
      (textPlatform 0xABCD12345678 (fun _ => true) "10.0.0.7" (fun _ => true) (fun _ => true)
         (fun _ _ => (200, dq "{'choices':[{'message':{'content':'hi'}}]}")))
      0 [("hi" ++ LF, HIGH, 1000); (EmptyString, LOW, 2000)] = Some (tt, s')
    /\ exists prompts,
         posts_of (effects s')
         = map (gatewayRequest example_config
                  (textPlatform 0xABCD12345678 (fun _ => true) "10.0.0.7" (fun _ => true)
                     (fun _ => true)
                     (fun _ _ => (200, dq "{'choices':[{'message':{'content':'hi'}}]}")))
                  "agent:main:openai:esp32-ABCD12345678")
               prompts
         /\ Forall (submitted_prompt example_config) prompts
         /\ httpPosts s' = length prompts.
Proof.
  destruct (firmware example_config
              (textPlatform 0xABCD12345678 (fun _ => true) "10.0.0.7" (fun _ => true)
                 (fun _ => true)
                 (fun _ _ => (200, dq "{'choices':[{'message':{'content':'hi'}}]}")))
              0 [("hi" ++ LF, HIGH, 1000); (EmptyString, LOW, 2000)])
    as [[[] s']|] eqn:E; [|vm_compute in E; discriminate].
  exists s'. split; [reflexivity|].
  exact (every_request_is_a_gateway_request _ _ _ _ _ _ E).
Defined.

(** ** With the link up every tick returns *)

Section Ready.

Variable cfg : Config.
Variable plat : Platform.
Hypothesis always_up : forall i, wifiStatus plat i = true.

Lemma link_is_up (s : State) : link_up_after plat (wifiPolls s) 0.
Proof. split; [intros i Hi; lia | apply always_up]. Qed.

Lemma runPrompt_ready (fuel : nat) (prompt : string) (s : State) :
  exists s', runPrompt cfg plat fuel prompt s = Some (tt, s').
Proof.
  destruct prompt as [|c prompt]; [now exists s|].
  rewrite (runPrompt_run cfg plat fuel 0 (String c prompt) s);
    [eexists; reflexivity | discriminate | apply link_is_up | lia].
Qed.

Lemma serialProducer_ready (fuel : nat) (rx : string) :
  forall s, exists s', serialProducer (runPrompt cfg plat fuel) rx s = Some (tt, s').
Proof.
  induction rx as [|c rx IH]; intro s; [now exists s|].
  cbn [serialProducer].
  destruct (Ascii.eqb c "013"); [apply IH|].
  destruct (Ascii.eqb c "010").
  - rewrite bind_gets, bind_modify.
    destruct (runPrompt_ready fuel (g_inputLine s) (with_inputLine EmptyString s)) as [s1 E].
    rewrite (bind_some _ _ _ _ _ E). apply IH.
  - rewrite bind_gets. destruct (String.length (g_inputLine s) <? 512)%nat.
    + rewrite bind_modify. apply IH.
    + rewrite bind_ret_l. apply IH.
Qed.

Lemma buttonProducer_ready (fuel : nat) (level millis : Z) (s : State) :
  exists s', buttonProducer cfg (runPrompt cfg plat fuel) level millis s = Some (tt, s').
Proof.
  rewrite buttonProducer_cases.
  destruct (_ && _ && _); [apply runPrompt_ready|].
  destruct (_ && _ && _); eexists; reflexivity.
Qed.

Lemma loop_ready (fuel : nat) (rx : string) (level millis : Z) (s : State) :
  exists s', loop cfg plat fuel rx level millis s = Some (tt, s').
Proof.
  unfold loop, handleSerialInput, handleBootButton.
  destruct (serialProducer_ready fuel rx s) as [s1 E1]. rewrite (bind_some _ _ _ _ _ E1).
  destruct (buttonProducer_ready fuel level millis s1) as [s2 E2].
  rewrite (bind_some _ _ _ _ _ E2). eexists. reflexivity.
Qed.

Lemma ticks_ready (fuel : nat) (inputs : list (string * Z * Z)) :
  forall s, exists s', ticks cfg plat fuel inputs s = Some (tt, s').
Proof.
  induction inputs as [|[[rx level] millis] inputs IH]; intro s; [now exists s|].
  cbn [ticks]. destruct (loop_ready fuel rx level millis s) as [s1 E].
  rewrite (bind_some _ _ _ _ _ E). apply IH.
Qed.

Lemma firmware_ready (fuel : nat) (inputs : list (string * Z * Z)) :
  exists s', firmware cfg plat fuel inputs = Some (tt, s').
Proof.
  unfold firmware.
  rewrite (bind_some _ _ _ _ _ (setup_run cfg plat fuel 0 initial_state
                                  (link_is_up initial_state) ltac:(lia))).
  apply ticks_ready.
Qed.

End Ready.

(** X10.  With the link up at every reading the firmware never gets
    stuck: [setup] returns and so does every iteration of [loop],
    whatever arrives on the console, however the button moves and
    whatever the gateway or the HTTP client answers: a transport failure,
    an HTTP error, a body that is not JSON or has not the expected shape
    ends the exchange, not the program. *)
Theorem firmware_stays_ready (cfg : Config) (plat : Platform) (fuel : nat)
    (inputs : list (string * Z * Z)) :
  (forall i, wifiStatus plat i = true) ->
  exists s',
    firmware cfg plat fuel inputs = Some (tt, s')
    /\ (String.length (g_inputLine s') <= 512)%nat.
Proof.
  intro Hup. destruct (firmware_ready cfg plat Hup fuel inputs) as [s' H].
  exists s'. split; [exact H|].
  pose proof H as H'. apply firmware_returned in H'.
  destruct H' as (n & s & Hs & Hticks & _).
  apply ticks_trail in Hticks; [apply Hticks|]. rewrite Hs. simpl. lia.
Qed.

Lemma firmware_stays_ready_witness :
  exists s',
    firmware example_config
      (textPlatform 0 (fun _ => true) "10.0.0.7" (fun _ => false) (fun _ => true)
         (fun n _ => if (n =? 0)%nat then (-1, EmptyString) else (200, "not json")))
      0 [("one" ++ LF ++ "two" ++ LF, HIGH, 1000); (EmptyString, LOW, 2000)] = Some (tt, s')
    /\ (String.length (g_inputLine s') <= 512)%nat.
Proof.
  apply (firmware_stays_ready example_config
           (textPlatform 0 (fun _ => true) "10.0.0.7" (fun _ => false) (fun _ => true)
              (fun n _ => if (n =? 0)%nat then (-1, EmptyString) else (200, "not json")))
           0 [("one" ++ LF ++ "two" ++ LF, HIGH, 1000); (EmptyString, LOW, 2000)]).
  reflexivity.
Defined.

(** ** Serial input over several polls and several lines *)

(** X11.  How the characters are spread over the polls makes no
    difference: polls that find the pieces of a text one after the other
    do what a single poll does that finds the whole text, so a line
    begun in one poll is completed by the next ones; this holds for the
    firmware's [handleSerialInput] as for every consumer. *)
Theorem serial_input_may_arrive_in_pieces
    (consume : string -> M unit) (chunks : list string) (s : State) :
  serialPolls consume chunks s = serialProducer consume (concat_chunks chunks) s
  /\ (forall cfg plat fuel a b,
        handleSerialInput cfg plat fuel (a ++ b) s
        = (handleSerialInput cfg plat fuel a ;; handleSerialInput cfg plat fuel b) s).
Proof.
  split.
  - revert s. induction chunks as [|rx chunks IH]; intro s; [reflexivity|].
    cbn [serialPolls concat_chunks]. rewrite serialProducer_append.
    apply bind_ext. intros _ s'. apply IH.
  - intros cfg plat fuel a b. apply serialProducer_append.
Qed.

Lemma bind_after {A B} (m : M A) (k1 k2 : A -> M B) (s : State) :
  (forall a s', m s = Some (a, s') -> k1 a s' = k2 a s') -> bind m k1 s = bind m k2 s.
Proof. intro H. unfold bind. destruct (m s) as [[a s']|]; [now apply H | reflexivity]. Qed.

Section Lines.

Variable consume : string -> M unit.
Hypothesis consume_keeps_line : preserves_line consume.

Lemma serialProducer_first_line (line rest : string) (s : State) :
  g_inputLine s = EmptyString -> no_newline line ->
  serialProducer consume (line ++ LF ++ rest) s
  = bind (consume (line_prompt line)) (fun _ => serialProducer consume rest) s.
Proof.
  intros Hempty Hnl. rewrite serialProducer_append.
  erewrite bind_some; [|apply serialProducer_accumulates; [exact Hnl | rewrite Hempty; simpl; lia]].
  unfold LF at 1. cbn [append]. rewrite serialProducer_newline.
  cbn [g_inputLine with_inputLine]. rewrite Hempty.
  cbn [String.length append Nat.sub]. rewrite ?Nat.sub_0_r.
  assert (Hs : with_inputLine EmptyString s = s)
    by (rewrite <- Hempty; apply with_inputLine_same).
  change (with_inputLine EmptyString (with_inputLine ?x s)) with (with_inputLine EmptyString s).
  now rewrite Hs.
Qed.

Lemma serialProducer_lines (lines : list string) (tail : string) :
  Forall no_newline lines -> no_newline tail ->
  forall s, g_inputLine s = EmptyString ->
    serialProducer consume (lines_text lines ++ tail) s
    = bind (submit_all consume (map line_prompt lines))
           (fun _ => modify (with_inputLine (line_prompt tail))) s.
Proof.
  intros Hlines Htail. induction Hlines as [|line lines Hline _ IH]; intros s Hempty.
  - cbn [lines_text map submit_all append]. rewrite bind_ret_l.
    rewrite serialProducer_accumulates by (exact Htail || (rewrite Hempty; simpl; lia)).
    rewrite Hempty. cbn [String.length append Nat.sub]. rewrite ?Nat.sub_0_r. reflexivity.
  - cbn [lines_text map submit_all]. rewrite !append_assoc.
    rewrite serialProducer_first_line by assumption.
    rewrite bind_bind. apply bind_after. intros [] s1 E.
    apply IH. apply consume_keeps_line in E. now rewrite E.
Qed.

End Lines.

Lemma submit_all_record (prompts : list string) :
  forall s, submit_all record prompts s = Some (tt, observed (map SerialWrite prompts) s).
Proof.
  induction prompts as [|p prompts IH]; intro s.
  - cbn. now rewrite observed_nil.
  - cbn [submit_all map]. unfold record at 1. rewrite bind_emit, IH.
    now rewrite observed_observed.
Qed.

(** X12.  Complete lines found on the console, however many in one
    poll, are submitted in the order typed, each as its first 512
    characters that are not carriage returns, each from an empty buffer;
    what follows the last newline stays in the buffer, capped in the
    same way.  This holds for every consumer that leaves the buffer
    alone, as [runPrompt] does; recorded, the run shows the prompts of
    the lines, an empty line giving an empty prompt. *)
Theorem serial_lines_are_submitted_in_order
    (consume : string -> M unit) (lines : list string) (tail : string) (s : State) :
  preserves_line consume ->
  Forall no_newline lines -> no_newline tail ->
  g_inputLine s = EmptyString ->
  serialProducer consume (lines_text lines ++ tail) s
  = bind (submit_all consume (map line_prompt lines))
         (fun _ => modify (with_inputLine (line_prompt tail))) s
  /\ serialProducer record (lines_text lines ++ tail) s
     = Some (tt, with_inputLine (line_prompt tail)
                   (observed (map SerialWrite (map line_prompt lines)) s))
  /\ (forall cfg plat fuel,
        handleSerialInput cfg plat fuel (lines_text lines ++ tail) s
        = bind (submit_all (runPrompt cfg plat fuel) (map line_prompt lines))
               (fun _ => modify (with_inputLine (line_prompt tail))) s).
Proof.
  intros Hkeep Hlines Htail Hempty. split; [|split].
  - now apply serialProducer_lines.
  - rewrite (serialProducer_lines record) by
      (assumption || (intros p s0 u s1 H; injection H as _ <-; reflexivity)).
    unfold bind. now rewrite submit_all_record.
  - intros cfg plat fuel. unfold handleSerialInput.
    apply serialProducer_lines; try assumption. apply runPrompt_preserves_line.
Qed.

Lemma serial_lines_are_submitted_in_order_witness :
  serialProducer record
    (lines_text ["first" ++ String "013" EmptyString; EmptyString; "third"] ++ "partial")
    initial_state
  = Some (tt, with_inputLine "partial"
                (observed [SerialWrite "first"; SerialWrite EmptyString; SerialWrite "third"]
                   initial_state)).
Proof.
  apply (proj1 (proj2 (serial_lines_are_submitted_in_order record
                         ["first" ++ String "013" EmptyString; EmptyString; "third"] "partial"
                         initial_state
                         ltac:(intros p s0 u s1 H; injection H as _ <-; reflexivity)
                         ltac:(repeat constructor) eq_refl eq_refl))).
Defined.

(** ** The button over a clock that wraps *)

Lemma elapsed_ms_after (since t : Z) : elapsed_ms since (u32 (since + t)) = t mod 2 ^ 32.
Proof.
  unfold elapsed_ms, u32. rewrite Zminus_mod_idemp_l.
  f_equal. ring.
Qed.

(** X13.  The debounce measures time on the 32-bit millisecond clock and
    is not disturbed when the clock wraps: [t] ms after the last
    recognised edge, for any [t] above 60 and below 2^32, a low level
    with the latch clear is a press and a high level with the latch set
    is a release, whether or not the clock has passed 2^32 - 1 in
    between; up to 60 ms after the edge nothing is recognised; and since
    only the low 32 bits of the time count, the same holds 2^32 ms
    later.  The time stored for the new edge is again a 32-bit value. *)
Theorem button_debounce_survives_clock_wrap
    (cfg : Config) (consume : string -> M unit) (s : State) (t : Z) :
  60 < t < 2 ^ 32 ->
  let now := (g_lastBootEdgeMs s + t) mod 2 ^ 32 in
  (g_bootLatched s = false ->
   buttonProducer cfg consume LOW (g_lastBootEdgeMs s + t) s
   = consume (OPENCLAW_BUTTON_PROMPT cfg) (with_bootEdge true now s))
  /\ (g_bootLatched s = true ->
      buttonProducer cfg consume HIGH (g_lastBootEdgeMs s + t) s
      = Some (tt, with_bootEdge false now s))
  /\ 0 <= now < 2 ^ 32
  /\ (forall level d, 0 <= d <= 60 ->
        buttonProducer cfg consume level (g_lastBootEdgeMs s + d) s = Some (tt, s)
        /\ buttonProducer cfg consume level (g_lastBootEdgeMs s + 2 ^ 32 + d) s = Some (tt, s)).
Proof.
  intros Ht now.
  assert (Hg : debounce_ms < elapsed_ms (g_lastBootEdgeMs s) (u32 (g_lastBootEdgeMs s + t))).
  { rewrite elapsed_ms_after, Z.mod_small by lia. unfold debounce_ms. lia. }
  split; [|split; [|split]].
  - intro Hl. now apply buttonProducer_press.
  - intro Hl. now apply buttonProducer_release.
  - apply Z.mod_pos_bound. lia.
  - intros level d Hd. split; apply buttonProducer_within_window.
    + rewrite elapsed_ms_after, Z.mod_small by lia. unfold debounce_ms. lia.
    + replace (g_lastBootEdgeMs s + 2 ^ 32 + d) with (g_lastBootEdgeMs s + (d + 1 * 2 ^ 32)) by ring.
      rewrite elapsed_ms_after, Z.mod_add, Z.mod_small by lia. unfold debounce_ms. lia.
Qed.

Lemma button_debounce_survives_clock_wrap_witness :
  buttonProducer example_config record LOW 4294967356
    (with_bootEdge false 4294967286 initial_state)
  = Some (tt, observed [SerialWrite "Give me a short status update."]
                (with_bootEdge true 60 initial_state)).
Proof.
  apply (proj1 (button_debounce_survives_clock_wrap example_config record
                  (with_bootEdge false 4294967286 initial_state) 70
                  ltac:(lia)) eq_refl).
Defined.

(** ** Presses and releases *)

Lemma buttonPolls_count (cfg : Config) (polls : list (Z * Z)) :
  forall s : State,
    exists (s' : State) (k : nat),
      buttonPolls cfg record polls s = Some (tt, s')
      /\ effects s' = (effects s ++ repeat (SerialWrite (OPENCLAW_BUTTON_PROMPT cfg)) k)%list
      /\ (k <= high_reads polls + if g_bootLatched s then 0 else 1)%nat.
Proof.
  induction polls as [|[level millis] polls IH]; intro s.
  - exists s, O. cbn. rewrite app_nil_r. split; [reflexivity|]. split; [reflexivity | lia].
  - pose proof (buttonProducer_cases cfg record level millis s) as E.
    destruct ((level =? LOW) && negb (g_bootLatched s)
              && (debounce_ms <? elapsed_ms (g_lastBootEdgeMs s) (u32 millis))) eqn:Cpress.
    + apply andb_prop in Cpress. destruct Cpress as [Cpress _].
      apply andb_prop in Cpress. destruct Cpress as [_ Hl]. apply negb_true_iff in Hl.
      destruct (IH (observed [SerialWrite (OPENCLAW_BUTTON_PROMPT cfg)]
                      (with_bootEdge true (u32 millis) s)))
        as (s' & k & Hrun & Heff & Hk).
      exists s', (S k). split; [|split].
      * cbn [buttonPolls]. now rewrite (bind_some _ _ _ _ _ E).
      * rewrite Heff. cbn [effects observed with_effects with_bootEdge repeat].
        now rewrite <- app_assoc.
      * cbn [g_bootLatched observed with_effects with_bootEdge] in Hk.
        rewrite Hl. cbn [high_reads]. lia.
    + destruct ((level =? HIGH) && g_bootLatched s
                && (debounce_ms <? elapsed_ms (g_lastBootEdgeMs s) (u32 millis))) eqn:Crel.
      * apply andb_prop in Crel. destruct Crel as [Crel _].
        apply andb_prop in Crel. destruct Crel as [Hhigh Hl].
        destruct (IH (with_bootEdge false (u32 millis) s)) as (s' & k & Hrun & Heff & Hk).
        exists s', k. split; [|split].
        -- cbn [buttonPolls]. now rewrite (bind_some _ _ _ _ _ E).
        -- exact Heff.
        -- cbn [g_bootLatched with_bootEdge] in Hk. rewrite Hl. cbn [high_reads].
           rewrite Hhigh. lia.
      * destruct (IH s) as (s' & k & Hrun & Heff & Hk).
        exists s', k. split; [|split].
        -- cbn [buttonPolls]. now rewrite (bind_some _ _ _ _ _ E).
        -- exact Heff.
        -- cbn [high_reads]. destruct (level =? HIGH); lia.
Qed.

(** X14.  However the level and the clock move, the button submits at
    most one prompt more than the number of high levels read (and no
    more than that number when the latch is set at the start): a second
    prompt needs a release between it and the first.  What it submits is
    the configured button prompt each time. *)
Theorem button_prompts_need_releases (cfg : Config) (polls : list (Z * Z)) (s : State) :
  exists (s' : State) (k : nat),
    buttonPolls cfg record polls s = Some (tt, s')
    /\ effects s' = (effects s ++ repeat (SerialWrite (OPENCLAW_BUTTON_PROMPT cfg)) k)%list
    /\ (k <= high_reads polls + 1)%nat
    /\ (g_bootLatched s = true -> (k <= high_reads polls)%nat).
Proof.
  destruct (buttonPolls_count cfg polls s) as (s' & k & Hrun & Heff & Hk).
  exists s', k. split; [exact Hrun|]. split; [exact Heff|].
  split; [destruct (g_bootLatched s); lia|].
  intro Hl. rewrite Hl in Hk. lia.
Qed.

Lemma button_prompts_need_releases_witness :
  exists (s' : State) (k : nat),
    buttonPolls example_config record
      [(LOW, 100); (HIGH, 200); (LOW, 230); (LOW, 300); (HIGH, 400); (HIGH, 500); (LOW, 600)]
      (with_bootEdge true 0 initial_state) = Some (tt, s')
    /\ effects s' = repeat (SerialWrite "Give me a short status update.") k
    /\ (k <= 3)%nat.
Proof.
  destruct (button_prompts_need_releases example_config
              [(LOW, 100); (HIGH, 200); (LOW, 230); (LOW, 300); (HIGH, 400); (HIGH, 500);
               (LOW, 600)]
              (with_bootEdge true 0 initial_state)) as (s' & k & Hrun & Heff & _ & Hk).
  exists s', k. split; [exact Hrun|]. split; [exact Heff|]. exact (Hk eq_refl).
Defined.

(** ** One iteration of [loop] *)

Section Tick.

Variable cfg : Config.
Variable plat : Platform.

Lemma runPrompt_keeps_button (fuel : nat) (prompt : string) (s : State) (u : unit) (s' : State) :
  runPrompt cfg plat fuel prompt s = Some (u, s') ->
  g_bootLatched s' = g_bootLatched s /\ g_lastBootEdgeMs s' = g_lastBootEdgeMs s.
Proof.
  intro H. apply runPrompt_returned in H.
  destruct H as [[_ ->]|(_ & n & _ & _ & ->)]; [split; reflexivity|].
  unfold exchanged. destruct (httpBegin plat _); split; reflexivity.
Qed.

Lemma loop_idle (fuel : nat) (level millis : Z) (s : State) :
  (level = HIGH /\ g_bootLatched s = false) \/ (level = LOW /\ g_bootLatched s = true) ->
  loop cfg plat fuel EmptyString level millis s = Some (tt, observed [DelayMs 10] s).
Proof.
  intro H. unfold loop, handleSerialInput, handleBootButton. cbn [serialProducer].
  rewrite bind_ret_l. erewrite bind_some; [reflexivity|].
  rewrite buttonProducer_cases.
  destruct H as [[-> Hl]|[-> Hl]]; rewrite Hl; reflexivity.
Qed.

Lemma loop_line_then_press (fuel : nat) (line : string) (millis : Z) (s : State) :
  g_inputLine s = EmptyString -> no_newline line ->
  g_bootLatched s = false ->
  debounce_ms < elapsed_ms (g_lastBootEdgeMs s) (u32 millis) ->
  loop cfg plat fuel (line ++ LF) LOW millis s
  = (runPrompt cfg plat fuel (line_prompt line) ;;
     modify (with_bootEdge true (u32 millis)) ;;
     runPrompt cfg plat fuel (OPENCLAW_BUTTON_PROMPT cfg) ;;
     delay 10) s.
Proof.
  intros Hempty Hnl Hl Hg. unfold loop, handleSerialInput, handleBootButton.
  unfold bind at 1. rewrite serialProducer_line by assumption.
  assert (Hs : with_inputLine EmptyString s = s)
    by (rewrite <- Hempty; apply with_inputLine_same).
  rewrite Hs. fold (line_prompt line).
  change (match runPrompt cfg plat fuel (line_prompt line) s with
          | Some (a, s') => ?k a s'
          | None => None
          end) with (bind (runPrompt cfg plat fuel (line_prompt line)) k s).
  apply bind_after. intros [] s1 E. apply runPrompt_keeps_button in E.
  destruct E as [Hl1 He1]. cbv beta. rewrite bind_modify. unfold bind.
  rewrite buttonProducer_press by (rewrite ?Hl1, ?He1; assumption).
  reflexivity.
Qed.

End Tick.

(** X15.  In one iteration of [loop] the console comes before the
    button: when a poll finds a complete line and a press at once, the
    line's prompt is run first and the button prompt after it, each to
    its end, and after them the 10 ms pause.  With nothing on the
    console and the button at rest (up and not latched, or held down and
    latched) the iteration is the pause alone. *)
Theorem loop_runs_console_before_button
    (cfg : Config) (plat : Platform) (fuel : nat) (s : State) :
  (forall line millis,
     g_inputLine s = EmptyString -> no_newline line ->
     g_bootLatched s = false ->
     debounce_ms < elapsed_ms (g_lastBootEdgeMs s) (u32 millis) ->
     loop cfg plat fuel (line ++ LF) LOW millis s
     = (runPrompt cfg plat fuel (line_prompt line) ;;
        modify (with_bootEdge true (u32 millis)) ;;
        runPrompt cfg plat fuel (OPENCLAW_BUTTON_PROMPT cfg) ;;
        delay 10) s)
  /\ (forall level millis,
        (level = HIGH /\ g_bootLatched s = false) \/ (level = LOW /\ g_bootLatched s = true) ->
        loop cfg plat fuel EmptyString level millis s = Some (tt, observed [DelayMs 10] s)).
Proof.
  split.
  - intros line millis. apply loop_line_then_press.
  - intros level millis. apply loop_idle.
Qed.

Lemma loop_runs_console_before_button_witness :
  exists s',
    loop example_config
      (textPlatform 0 (fun _ => true) "10.0.0.7" (fun _ => true) (fun _ => true)
         (fun n _ => if (n =? 0)%nat then (200, dq "{'choices':[{'message':{'content':'one'}}]}")
                     else (200, dq "{'choices':[{'message':{'content':'two'}}]}")))
      0 ("hi" ++ LF) LOW 1000 initial_state = Some (tt, s')
    /\ written (effects s')
       = [CRLF; "You: hi" ++ LF; "OpenClaw: thinking..." ++ CRLF; "OpenClaw: one" ++ LF; CRLF;
          CRLF; "You: Give me a short status update." ++ LF; "OpenClaw: thinking..." ++ CRLF;
          "OpenClaw: two" ++ LF; CRLF].
Proof.
  rewrite (proj1 (loop_runs_console_before_button example_config
                    (textPlatform 0 (fun _ => true) "10.0.0.7" (fun _ => true) (fun _ => true)
                       (fun n _ => if (n =? 0)%nat
                                   then (200, dq "{'choices':[{'message':{'content':'one'}}]}")
                                   else (200, dq "{'choices':[{'message':{'content':'two'}}]}")))
                    0 initial_state) "hi" 1000 eq_refl eq_refl eq_refl eq_refl).
  eexists. split; vm_compute; reflexivity.
Defined.
